(** * Hyperion dust models and filter curves: a shallow embedding

    Sources embedded here:
    - [hyperion/dust/dust_type.py]: [henyey_greenstein], [SphericalDust]
      (constructor, the two sublimation setters, [plot], [write], [read]) and
      the loaders [IsotropicSphericalDust], [SimpleSphericalDust],
      [CoatsphSingle], [CoatsphMultiple] and [MieXDust];
    - [hyperion/filter/filter.py]: the [Filter] properties.

    Left out: [BHDust], whose arrays come out of [np.loadtxt] in whatever
    shape the files have, and the HDF5 methods of [Filter], which rest on
    unit conversion and on the HDF5 library.

    Conventions.
    - A Python call that may raise returns a [result]; a method that mutates
      [self] and may raise returns the outcome together with the object as the
      raise left it.
    - numpy [float64] data is IEEE binary64 ([PrimFloat.float]), so NaN and
      the infinities behave as in the program.
    - [henyey_greenstein] is duck-typed in the source; it is written once
      over the class [PyNumber] and used at three carriers: [float] (a Python
      float scalar, binary64, where a division by zero raises), [R] (the same
      scalar in exact arithmetic) and [ndarray] (numpy broadcasting over
      binary64, which never raises on arithmetic). *)

From Stdlib Require Import Reals Lra Lia ZArith Floats String List Bool.
From stdpp Require Import base option list strings pretty gmap.

(** ** Python exceptions and results *)

Inductive exn : Type :=
| ZeroDivisionError
| ValueError (msg : string)
| OverflowError
| TypeError (msg : string)
| IndexError
| KeyError (key : string)
| AttributeError (attr : string)
| IOError (path : string)
| Exception (msg : string).

Inductive result (A : Type) : Type :=
| Ok (a : A)
| Raise (e : exn).

Arguments Ok {A} a.
Arguments Raise {A} e.

#[global] Instance result_ret : MRet result := fun A a => Ok a.
#[global] Instance result_bind : MBind result := fun A B f m =>
  match m with
  | Ok a => f a
  | Raise e => Raise e
  end.

(** ** The arithmetic [henyey_greenstein] relies on

    The operators the function applies to its arguments, with the float
    literals it mentions.  [py_pow15 x] is [x ** 1.5]. *)

Class PyNumber (N : Type) : Type := {
  lit0 : N;
  lit1 : N;
  lit2 : N;
  py_neg : N -> result N;
  py_add : N -> N -> result N;
  py_sub : N -> N -> result N;
  py_mul : N -> N -> result N;
  py_div : N -> N -> result N;
  py_pow15 : N -> result N
}.

(** [henyey_greenstein(mu, g, p_lin_max)], operand by operand in Python's
    evaluation order. *)
Definition henyey_greenstein {N} `{PyNumber N} (mu g p_lin_max : N)
  : result (N * N * N * N) :=
  (* P1 = (1. - g * g) / (1. + g * g - 2. * g * mu) ** 1.5 *)
  gg ← py_mul g g;
  num ← py_sub lit1 gg;
  gg' ← py_mul g g;
  s ← py_add lit1 gg';
  tg ← py_mul lit2 g;
  tgm ← py_mul tg mu;
  base ← py_sub s tgm;
  den ← py_pow15 base;
  P1 ← py_div num den;
  (* P2 = - p_lin_max * P1 * (1. - mu * mu) / (1. + mu * mu) *)
  np ← py_neg p_lin_max;
  a ← py_mul np P1;
  mm ← py_mul mu mu;
  b ← py_sub lit1 mm;
  ab ← py_mul a b;
  mm' ← py_mul mu mu;
  c ← py_add lit1 mm';
  P2 ← py_div ab c;
  (* P3 = P1 * 2. * mu / (1. + mu * mu) *)
  d ← py_mul P1 lit2;
  dm ← py_mul d mu;
  mm'' ← py_mul mu mu;
  e ← py_add lit1 mm'';
  P3 ← py_div dm e;
  (* P4 = 0. *)
  mret (P1, P2, P3, lit0).

(** *** Python float scalars in exact arithmetic

    The scalar operations with every rounding left out: a division raises on
    a zero divisor; [x ** 1.5] raises on a negative base, is 0 on a zero base
    and the real power otherwise. *)
Module ExactFloat.

Local Open Scope R_scope.

Definition div (x y : R) : result R :=
  if Req_dec_T y 0 then Raise ZeroDivisionError else Ok (x / y).

Definition pow15 (x : R) : result R :=
  if Rlt_dec x 0 then
    Raise (ValueError "negative number cannot be raised to a fractional power")
  else if Req_dec_T x 0 then Ok 0
  else Ok (Rpower x (3 / 2)).

#[global] Instance number : PyNumber R := {|
  lit0 := 0;
  lit1 := 1;
  lit2 := 2;
  py_neg x := Ok (- x);
  py_add x y := Ok (x + y);
  py_sub x y := Ok (x - y);
  py_mul x y := Ok (x * y);
  py_div := div;
  py_pow15 := pow15
|}.


End ExactFloat.

(** ** Text files *)

Inductive token : Type :=
| Num (x : float)
| Word (w : string).

(** A text file is its lines; a line is its whitespace-separated fields, a
    numeric field being held as the float it parses to.  [[]] is a blank
    line. *)
Definition line : Type := list token.
Definition textfile : Type := list line.

(** ** numpy arrays *)

Inductive ndarray : Type :=
| Scalar (x : float)
| Array (xs : list float).

(** Two-dimensional arrays, row-major, with the column count kept so that an
    array of shape [(0, n)] still knows [n]. *)
Record matrix : Type := {
  n_cols : nat;
  rows : list (list float)
}.

(** ** Structured tables (the [atpy] table set written to an HDF5 file) *)

Inductive column : Type :=
| Vector (xs : list float)
| Matrix (m : matrix).

Record Table : Type := {
  table_name : string;
  columns : list (string * column)
}.

Inductive kwval : Type :=
| KNone
| KInt (z : Z)
| KFloat (x : float)
| KStr (s : string).

Record TableSet : Type := {
  keywords : gmap string kwval;
  tables : list Table
}.

(** ** The optical-property table and the derived-quantity holders *)

Record OpticalProperties : Type := {
  nu : option ndarray;
  mu : option ndarray;
  albedo : option ndarray;
  chi : option ndarray;
  P1 : option matrix;
  P2 : option matrix;
  P3 : option matrix;
  P4 : option matrix
}.

Record Emissivities : Type := {
  emiss_set : bool;
  emissivity : list (string * column);
  emissivity_variable : list (string * column)
}.

Record MeanOpacities : Type := {
  mo_set : bool;
  mean_opacity : list (string * column)
}.

(** ** Collaborators outside the embedded sources

    What the embedded functions call but this development does not define:
    the C library's [pow] (reached through [numpy.power]), numpy's [cos] and
    [radians], the constant [hyperion.util.constants.c], the package version,
    [hashlib.md5(...).hexdigest()], the repository's [interp1d_fast_loglog],
    and the computations behind [Emissivities.set_lte] and
    [MeanOpacities.compute]. *)
Class Extern : Type := {
  libm_pow : float -> float -> float;
  np_cos : float -> float;
  np_radians : float -> float;
  c : float;
  hyperion_version : string;
  md5_hexdigest : textfile -> string;
  interp1d_fast_loglog : list float -> list float -> list float -> result (list float);
  lte_emissivities :
    OpticalProperties -> result (list (string * column) * list (string * column));
  compute_mean_opacities :
    Emissivities -> OpticalProperties -> result (list (string * column))
}.

(** The temperature-to-energy relation of the optical-property table,
    [OpticalProperties._temperature2specific_energy], of
    [hyperion/dust/optical_properties.py]. *)
Class Thermal : Type := {
  _temperature2specific_energy : OpticalProperties -> option float -> result float
}.

(** Python's [int] on a field of a line: a [token] does not record which
    numeric fields are integer literals. *)
Class Builtins : Type := {
  py_int : token -> result Z
}.


(** ** numpy operations *)

(** Element-wise binary operation on two one-dimensional arrays, a
    one-element array being broadcast. *)
Definition broadcast_lists (f : float -> float -> float) (xs ys : list float)
  : result (list float) :=
  if Nat.eqb (length xs) (length ys) then Ok (zip_with f xs ys)
  else match xs, ys with
       | [x], _ => Ok (map (f x) ys)
       | _, [y] => Ok (map (fun x => f x y) xs)
       | _, _ => Raise (ValueError "operands could not be broadcast together")
       end.

Definition broadcast2 (f : float -> float -> float) (a b : ndarray) : result ndarray :=
  match a, b with
  | Scalar x, Scalar y => Ok (Scalar (f x y))
  | Scalar x, Array ys => Ok (Array (map (f x) ys))
  | Array xs, Scalar y => Ok (Array (map (fun x => f x y) xs))
  | Array xs, Array ys => zs ← broadcast_lists f xs ys; Ok (Array zs)
  end.

Definition ufunc (f : float -> float) (a : ndarray) : ndarray :=
  match a with
  | Scalar x => Scalar (f x)
  | Array xs => Array (map f xs)
  end.

#[global] Instance ndarray_number `{Extern} : PyNumber ndarray := {|
  lit0 := Scalar 0%float;
  lit1 := Scalar 1%float;
  lit2 := Scalar 2%float;
  py_neg a := Ok (ufunc PrimFloat.opp a);
  py_add := broadcast2 PrimFloat.add;
  py_sub := broadcast2 PrimFloat.sub;
  py_mul := broadcast2 PrimFloat.mul;
  py_div := broadcast2 PrimFloat.div;
  py_pow15 a := Ok (ufunc (fun x => libm_pow x 1.5%float) a)
|}.

(** *** Python float scalars in binary64

    [float.__truediv__] raises on a zero divisor.  [float.__pow__] settles
    the special cases itself, in this order, before it calls the C library's
    [pow], and turns an overflow of that call into [OverflowError]; a negative
    base with the exponent 1.5 raises (Python 2). *)
Module Binary64.

Definition div (x y : float) : result float :=
  if PrimFloat.eqb y 0%float then Raise ZeroDivisionError else Ok (x / y)%float.

Definition pow15 `{Extern} (x : float) : result float :=
  if PrimFloat.is_nan x then Ok x
  else if PrimFloat.is_infinity x then Ok (PrimFloat.abs x)
  else if PrimFloat.eqb x 0%float then Ok 0%float
  else if PrimFloat.ltb x 0%float then
    Raise (ValueError "negative number cannot be raised to a fractional power")
  else if PrimFloat.eqb x 1%float then Ok 1%float
  else
    let ix := libm_pow x 1.5%float in
    if PrimFloat.is_infinity ix then Raise OverflowError else Ok ix.

#[global] Instance number `{Extern} : PyNumber float := {|
  lit0 := 0%float;
  lit1 := 1%float;
  lit2 := 2%float;
  py_neg x := Ok (- x)%float;
  py_add x y := Ok (x + y)%float;
  py_sub x y := Ok (x - y)%float;
  py_mul x y := Ok (x * y)%float;
  py_div := div;
  py_pow15 := pow15
|}.

End Binary64.

Definition np_len (a : ndarray) : result nat :=
  match a with
  | Array xs => Ok (length xs)
  | Scalar _ => Raise (TypeError "len() of unsized object")
  end.

(** [a[i]] for a non-negative index. *)
Definition np_getitem (a : ndarray) (i : nat) : result ndarray :=
  match a with
  | Array xs => match xs !! i with
                | Some x => Ok (Scalar x)
                | None => Raise IndexError
                end
  | Scalar _ => Raise IndexError
  end.

Definition float_of_nat (n : nat) : float :=
  PrimFloat.of_uint63 (Uint63.of_Z (Z.of_nat n)).

(** [np.linspace(start, stop, num)] with the default [endpoint=True]. *)
Definition linspace (start stop : float) (num : nat) : list float :=
  match num with
  | 0 => []
  | 1 => [start]
  | _ =>
      let step := ((stop - start) / float_of_nat (num - 1))%float in
      let y := map (fun k => (float_of_nat k * step + start)%float) (seq 0 num) in
      <[num - 1 := stop]> y
  end.

(** [np.zeros(n)] for an integer [n]. *)
Definition np_zeros (n : Z) : result (list float) :=
  if (n <? 0)%Z then Raise (ValueError "negative dimensions are not allowed")
  else Ok (replicate (Z.to_nat n) 0%float).

Definition isnan (x : float) : bool := PrimFloat.is_nan x.

Definition any_isnan (xs : list float) : bool := existsb isnan xs.

(** [a[mask]] for a boolean mask. *)
Fixpoint mask_select (xs : list float) (mask : list bool) : list float :=
  match xs, mask with
  | x :: xs', b :: mask' =>
      if b then x :: mask_select xs' mask' else mask_select xs' mask'
  | _, _ => []
  end.

Definition np_mask_getitem (xs : list float) (mask : list bool) : result (list float) :=
  if Nat.eqb (length xs) (length mask) then Ok (mask_select xs mask)
  else Raise IndexError.

(** [a[mask] = vals]: the values go, in order, to the selected positions. *)
Fixpoint mask_assign (xs : list float) (mask : list bool) (vals : list float) : list float :=
  match xs, mask with
  | x :: xs', b :: mask' =>
      if b then
        match vals with
        | v :: vals' => v :: mask_assign xs' mask' vals'
        | [] => x :: mask_assign xs' mask' []
        end
      else x :: mask_assign xs' mask' vals
  | _, _ => xs
  end.

Definition count_true (mask : list bool) : nat :=
  length (List.filter (fun b : bool => b) mask).

Definition np_mask_setitem (xs : list float) (mask : list bool) (vals : list float)
  : result (list float) :=
  if negb (Nat.eqb (length xs) (length mask)) then Raise IndexError
  else if Nat.eqb (length vals) (count_true mask) then Ok (mask_assign xs mask vals)
  else match vals with
       | [v] => Ok (mask_assign xs mask (replicate (count_true mask) v))
       | _ => Raise (ValueError "cannot assign input values to the masked positions")
       end.

Definition zeros (n_rows n_cols : nat) : matrix :=
  {| n_cols := n_cols; rows := replicate n_rows (replicate n_cols 0%float) |}.

(** [m[:, i]] *)
Definition get_column (m : matrix) (i : nat) : result (list float) :=
  if Nat.ltb i (n_cols m) then Ok (map (fun r => nth i r 0%float) (rows m))
  else Raise IndexError.

Definition put_column (m : matrix) (i : nat) (xs : list float) : matrix :=
  {| n_cols := n_cols m; rows := zip_with (fun r x => <[i := x]> r) (rows m) xs |}.

(** [m[:, i] = v] *)
Definition set_column (m : matrix) (i : nat) (v : ndarray) : result matrix :=
  if negb (Nat.ltb i (n_cols m)) then Raise IndexError
  else match v with
       | Scalar x => Ok (put_column m i (replicate (length (rows m)) x))
       | Array xs =>
           if Nat.eqb (length xs) (length (rows m)) then Ok (put_column m i xs)
           else match xs with
                | [x] => Ok (put_column m i (replicate (length (rows m)) x))
                | _ => Raise (ValueError "could not broadcast input array")
                end
       end.

(** [m[j, i] = x] *)
Definition set_item (m : matrix) (j i : nat) (x : float) : result matrix :=
  match rows m !! j with
  | Some r =>
      if Nat.ltb i (n_cols m)
      then Ok {| n_cols := n_cols m; rows := <[j := <[i := x]> r]> (rows m) |}
      else Raise IndexError
  | None => Raise IndexError
  end.

(** [m[:, :] = x] *)
Definition fill (m : matrix) (x : float) : matrix :=
  {| n_cols := n_cols m; rows := map (fun _ => replicate (n_cols m) x) (rows m) |}.


(** A loop [for a in l: body] that stops at the first exception. *)
Fixpoint foldM {A S : Type} (body : A -> S -> result S) (l : list A) (s : S) : result S :=
  match l with
  | [] => Ok s
  | a :: l' => s' ← body a s; foldM body l' s'
  end.

(** ** Table sets *)

Definition TableSet_new : TableSet := {| keywords := ∅; tables := [] |}.

(** [ts.add_keyword(key, value)] *)
Definition add_keyword (key : string) (value : kwval) (ts : TableSet) : TableSet :=
  {| keywords := <[key := value]> (keywords ts); tables := tables ts |}.


Definition find_table (name : string) (ts : TableSet) : result Table :=
  match List.find (fun t => String.eqb (table_name t) name) (tables ts) with
  | Some t => Ok t
  | None => Raise (KeyError name)
  end.

Definition find_column (name : string) (t : Table) : result column :=
  match List.find (fun nc => String.eqb (fst nc) name) (columns t) with
  | Some nc => Ok (snd nc)
  | None => Raise (KeyError name)
  end.

Definition vector_column (name : string) (t : Table) : result (list float) :=
  col ← find_column name t;
  match col with
  | Vector xs => Ok xs
  | Matrix _ => Raise (ValueError name)
  end.

Definition matrix_column (name : string) (t : Table) : result matrix :=
  col ← find_column name t;
  match col with
  | Matrix m => Ok m
  | Vector _ => Raise (ValueError name)
  end.

(** [value != 1] for a keyword value. *)
Definition ne_one (v : kwval) : bool :=
  match v with
  | KNone => true
  | KInt z => negb (Z.eqb z 1)
  | KFloat x => negb (PrimFloat.eqb x 1%float)
  | KStr _ => true
  end.


(** ** [OpticalProperties] *)

(** Modelled from the spec: [OpticalProperties()], the class of
    [hyperion/dust/optical_properties.py], which is not among the embedded
    sources.  The table is constructed empty. *)
Definition OpticalProperties_new : OpticalProperties :=
  {| nu := None; mu := None; albedo := None; chi := None;
     P1 := None; P2 := None; P3 := None; P4 := None |}.

Definition with_nu (v : ndarray) (op : OpticalProperties) : OpticalProperties :=
  {| nu := Some v; mu := mu op; albedo := albedo op; chi := chi op;
     P1 := P1 op; P2 := P2 op; P3 := P3 op; P4 := P4 op |}.

Definition with_mu (v : ndarray) (op : OpticalProperties) : OpticalProperties :=
  {| nu := nu op; mu := Some v; albedo := albedo op; chi := chi op;
     P1 := P1 op; P2 := P2 op; P3 := P3 op; P4 := P4 op |}.

Definition with_albedo (v : ndarray) (op : OpticalProperties) : OpticalProperties :=
  {| nu := nu op; mu := mu op; albedo := Some v; chi := chi op;
     P1 := P1 op; P2 := P2 op; P3 := P3 op; P4 := P4 op |}.

Definition with_chi (v : ndarray) (op : OpticalProperties) : OpticalProperties :=
  {| nu := nu op; mu := mu op; albedo := albedo op; chi := Some v;
     P1 := P1 op; P2 := P2 op; P3 := P3 op; P4 := P4 op |}.

Definition with_P (m1 m2 m3 m4 : matrix) (op : OpticalProperties) : OpticalProperties :=
  {| nu := nu op; mu := mu op; albedo := albedo op; chi := chi op;
     P1 := Some m1; P2 := Some m2; P3 := Some m3; P4 := Some m4 |}.

(** Modelled from the spec: [OpticalProperties.initialize_scattering_matrix],
    not among the embedded sources.  It allocates [P1..P4] as zero-filled
    [(n_wav, n_mu)] arrays and fails when an axis is not set yet. *)
Definition initialize_scattering_matrix (op : OpticalProperties) : result OpticalProperties :=
  match nu op, mu op with
  | Some nu_, Some mu_ =>
      n_wav ← np_len nu_;
      n_mu ← np_len mu_;
      Ok (with_P (zeros n_wav n_mu) (zeros n_wav n_mu) (zeros n_wav n_mu) (zeros n_wav n_mu) op)
  | _, _ => Raise (Exception "the frequency and angle grids should be set first")
  end.


(** Modelled from the spec: [OpticalProperties.from_table_set], not among the
    embedded sources.  It reconstructs the table from the two sub-tables. *)
Definition optical_properties_from_table_set (ts : TableSet) : result OpticalProperties :=
  topt ← find_table "Optical properties" ts;
  nu_ ← vector_column "nu" topt;
  albedo_ ← vector_column "albedo" topt;
  chi_ ← vector_column "chi" topt;
  m1 ← matrix_column "P1" topt;
  m2 ← matrix_column "P2" topt;
  m3 ← matrix_column "P3" topt;
  m4 ← matrix_column "P4" topt;
  tmu ← find_table "Scattering angles" ts;
  mu_ ← vector_column "mu" tmu;
  Ok {| nu := Some (Array nu_); mu := Some (Array mu_);
        albedo := Some (Array albedo_); chi := Some (Array chi_);
        P1 := Some m1; P2 := Some m2; P3 := Some m3; P4 := Some m4 |}.

(** ** [Emissivities] and [MeanOpacities] *)

(** Modelled from the spec: [Emissivities()], [Emissivities.set_lte],
    [Emissivities.to_table_set] and [Emissivities.from_table_set] of
    [hyperion/dust/emissivities.py], not among the embedded sources: a
    set/unset toggle plus a payload, set by computation or by a read. *)
Definition Emissivities_new : Emissivities :=
  {| emiss_set := false; emissivity := []; emissivity_variable := [] |}.



Definition emissivities_from_table_set (ts : TableSet) : result Emissivities :=
  te ← find_table "Emissivities" ts;
  tv ← find_table "Emissivity variable" ts;
  Ok {| emiss_set := true; emissivity := columns te; emissivity_variable := columns tv |}.

(** Modelled from the spec: [MeanOpacities()], [MeanOpacities.compute],
    [MeanOpacities.to_table_set] and [MeanOpacities.from_table_set] of
    [hyperion/dust/mean_opacities.py], not among the embedded sources. *)
Definition MeanOpacities_new : MeanOpacities :=
  {| mo_set := false; mean_opacity := [] |}.



Definition mean_opacities_from_table_set (ts : TableSet) : result MeanOpacities :=
  t ← find_table "Mean opacities" ts;
  Ok {| mo_set := true; mean_opacity := columns t |}.

(** ** [SphericalDust] *)

Record SphericalDust : Type := {
  filename : option string;
  md5 : kwval;
  optical_properties : OpticalProperties;
  emissivities : Emissivities;
  mean_opacities : MeanOpacities;
  sublimation_mode : string;
  sublimation_energy : option float
}.

Definition with_filename (v : option string) (self : SphericalDust) : SphericalDust :=
  {| filename := v; md5 := md5 self;
     optical_properties := optical_properties self;
     emissivities := emissivities self; mean_opacities := mean_opacities self;
     sublimation_mode := sublimation_mode self;
     sublimation_energy := sublimation_energy self |}.

Definition with_md5 (v : kwval) (self : SphericalDust) : SphericalDust :=
  {| filename := filename self; md5 := v;
     optical_properties := optical_properties self;
     emissivities := emissivities self; mean_opacities := mean_opacities self;
     sublimation_mode := sublimation_mode self;
     sublimation_energy := sublimation_energy self |}.

Definition with_optical_properties (v : OpticalProperties) (self : SphericalDust)
  : SphericalDust :=
  {| filename := filename self; md5 := md5 self;
     optical_properties := v;
     emissivities := emissivities self; mean_opacities := mean_opacities self;
     sublimation_mode := sublimation_mode self;
     sublimation_energy := sublimation_energy self |}.

Definition with_emissivities (v : Emissivities) (self : SphericalDust) : SphericalDust :=
  {| filename := filename self; md5 := md5 self;
     optical_properties := optical_properties self;
     emissivities := v; mean_opacities := mean_opacities self;
     sublimation_mode := sublimation_mode self;
     sublimation_energy := sublimation_energy self |}.

Definition with_mean_opacities (v : MeanOpacities) (self : SphericalDust) : SphericalDust :=
  {| filename := filename self; md5 := md5 self;
     optical_properties := optical_properties self;
     emissivities := emissivities self; mean_opacities := v;
     sublimation_mode := sublimation_mode self;
     sublimation_energy := sublimation_energy self |}.

Definition with_sublimation (mode : string) (energy : option float) (self : SphericalDust)
  : SphericalDust :=
  {| filename := filename self; md5 := md5 self;
     optical_properties := optical_properties self;
     emissivities := emissivities self; mean_opacities := mean_opacities self;
     sublimation_mode := mode;
     sublimation_energy := energy |}.

Definition string_in (s : string) (l : list string) : bool :=
  existsb (String.eqb s) l.

(** [set_sublimation_specific_energy(mode, specific_energy)]; [None] is
    Python's [None].  Both checks come before the two assignments, so a raise
    leaves [self] as it was. *)
Definition set_sublimation_specific_energy
    (mode : string) (specific_energy : option float) (self : SphericalDust)
  : result SphericalDust :=
  if negb (string_in mode ["no"; "fast"; "slow"; "cap"]) then
    Raise (Exception "mode should be one of no/fast/slow/cap")
  else if negb (String.eqb mode "no") && negb (bool_decide (is_Some specific_energy)) then
    Raise (Exception "Need to specify a sublimation specific_energy")
  else Ok (with_sublimation mode specific_energy self).


(** The outcome of a method together with [self] as the method left it,
    also when it raised. *)
Definition outcome (A : Type) : Type := result A * SphericalDust.

(** [set_sublimation_temperature(mode, temperature)].  The mode is assigned
    before the temperature is converted, so a conversion that raises leaves
    the new mode behind. *)
Definition set_sublimation_temperature `{Thermal}
    (mode : string) (temperature : option float) (self : SphericalDust) : outcome unit :=
  if negb (string_in mode ["no"; "fast"; "slow"; "cap"]) then
    (Raise (Exception "mode should be one of no/fast/slow/cap"), self)
  else if negb (String.eqb mode "no") && negb (bool_decide (is_Some temperature)) then
    (Raise (Exception "Need to specify a sublimation temperature"), self)
  else
    let self := with_sublimation mode (sublimation_energy self) self in
    match _temperature2specific_energy (optical_properties self) temperature with
    | Ok energy => (Ok tt, with_sublimation (sublimation_mode self) (Some energy) self)
    | Raise e => (Raise e, self)
    end.

(** The argument of [read]: a [str] path, or an already opened container. *)
Inductive file_arg : Type :=
| Path (p : string)
| Handle (ts : TableSet).

(** [read(filename)], over the containers [store] holds. *)
Definition read (store : gmap string TableSet) (filename : file_arg) (self : SphericalDust)
  : outcome unit :=
  let opened : result TableSet * SphericalDust :=
    match filename with
    | Path p =>
        (* Check file exists *)
        match store !! p with
        | None => (Raise (Exception ("File not found: " +:+ p)), self)
        | Some ts => (Ok ts, with_filename (Some p) self)
        end
    | Handle ts => (Ok ts, self)
    end in
  match opened with
  | (Raise e, self) => (Raise e, self)
  | (Ok ts, self) =>
      (* Check version and type *)
      match keywords ts !! "version" with
      | None => (Raise (KeyError "version"), self)
      | Some version =>
          if ne_one version then (Raise (Exception "Version should be 1"), self)
          else
            match keywords ts !! "type" with
            | None => (Raise (KeyError "type"), self)
            | Some type =>
                if ne_one type then (Raise (Exception "Type should be 1"), self)
                else
                  let self :=
                    with_md5 (match keywords ts !! "asciimd5" with
                              | Some v => v
                              | None => KNone
                              end) self in
                  (* Read in the optical properties *)
                  match optical_properties_from_table_set ts with
                  | Raise e => (Raise e, self)
                  | Ok op =>
                      let self := with_optical_properties op self in
                      (* Read in the planck and rosseland mean opacities *)
                      match mean_opacities_from_table_set ts with
                      | Raise e => (Raise e, self)
                      | Ok mo =>
                          let self := with_mean_opacities mo self in
                          (* Read in emissivities *)
                          match emissivities_from_table_set ts with
                          | Raise e => (Raise e, self)
                          | Ok em => (Ok tt, with_emissivities em self)
                          end
                      end
                  end
            end
      end
  end.

(** [SphericalDust.__init__] with its positional arguments.  The two
    sublimation attributes do not exist before the setter assigns them. *)
Definition SphericalDust_init (store : gmap string TableSet) (args : list file_arg)
  : result SphericalDust :=
  self ← set_sublimation_specific_energy "no" (Some 0%float)
           {| filename := None; md5 := KNone;
              optical_properties := OpticalProperties_new;
              emissivities := Emissivities_new;
              mean_opacities := MeanOpacities_new;
              sublimation_mode := ""; sublimation_energy := None |};
  match args with
  | [] => Ok self
  | [a] => match read store a self with
           | (Ok _, self) => Ok self
           | (Raise e, _) => Raise e
           end
  | _ => Raise (Exception "SphericalDust cannot take more than one argument")
  end.





(** ** Reading text files *)

(** [open(name)] *)
Definition open_file (fs : gmap string textfile) (name : string) : result textfile :=
  match fs !! name with
  | Some f => Ok f
  | None => Raise (IOError name)
  end.

(** [f.readline()]: the next line and the rest of the file; the empty
    string at the end of the file. *)
Definition readline (f : textfile) : line * textfile :=
  match f with
  | [] => ([], [])
  | ln :: rest => (ln, rest)
  end.

(** [float(s)] for a whole line [s]. *)
Definition float_of_line (ln : line) : result float :=
  match ln with
  | [Num x] => Ok x
  | _ => Raise (ValueError "could not convert string to float")
  end.

(** [float(s.split()[k])] *)
Definition float_of_field (ln : line) (k : nat) : result float :=
  match ln !! k with
  | Some (Num x) => Ok x
  | Some (Word _) => Raise (ValueError "could not convert string to float")
  | None => Raise IndexError
  end.

Definition is_blank (ln : line) : bool :=
  match ln with
  | [] => true
  | _ => false
  end.

(** [np.loadtxt] squeezes what it has read: the values of a column form a
    one-dimensional array, except that a single value comes out as a
    zero-dimensional one. *)
Definition squeeze (xs : list float) : ndarray :=
  match xs with
  | [x] => Scalar x
  | _ => Array xs
  end.

(** [np.loadtxt(name, dtype=[...], usecols=usecols)]: the rows read, one per
    non-blank line. *)
Definition loadtxt (fs : gmap string textfile) (name : string) (usecols : list nat)
  : result (list (list float)) :=
  f ← open_file fs name;
  mapM (fun ln => mapM (float_of_field ln) usecols)
       (List.filter (fun ln => negb (is_blank ln)) f).

(** [np.loadtxt(name, usecols=[col])] *)
Definition loadtxt_column (fs : gmap string textfile) (name : string) (col : nat)
  : result ndarray :=
  f ← open_file fs name;
  xs ← mapM (fun ln => float_of_field ln col)
         (List.filter (fun ln => negb (is_blank ln)) f);
  Ok (squeeze xs).

(** The values of the [k]-th field of the rows read, and [table['name']] for
    that field. *)
Definition field (k : nat) (table : list (list float)) : list float :=
  map (fun r => nth k r 0%float) table.

Definition getfield (k : nat) (table : list (list float)) : ndarray :=
  squeeze (field k table).

Definition update_optical_properties
    (f : OpticalProperties -> OpticalProperties) (self : SphericalDust) : SphericalDust :=
  with_optical_properties (f (optical_properties self)) self.

(** The four matrices of a table; [None] supports no item assignment. *)
Definition scattering_matrix (op : OpticalProperties)
  : result (matrix * matrix * matrix * matrix) :=
  match P1 op, P2 op, P3 op, P4 op with
  | Some m1, Some m2, Some m3, Some m4 => Ok (m1, m2, m3, m4)
  | _, _, _, _ => Raise (TypeError "'NoneType' object does not support item assignment")
  end.

(** ** [IsotropicSphericalDust] *)

Definition IsotropicSphericalDust `{Extern} (wav chi albedo : ndarray)
  : result SphericalDust :=
  self ← SphericalDust_init ∅ [];
  (* Set cos(theta) grid for computing the scattering matrix elements *)
  let self := update_optical_properties
                (with_mu (Array (linspace (-1)%float 1%float 2))) self in
  (* Set optical properties *)
  t ← broadcast2 PrimFloat.div (Scalar c) wav;
  nu_ ← broadcast2 PrimFloat.mul t (Scalar 1e4%float);
  let self := update_optical_properties (with_nu nu_) self in
  let self := update_optical_properties (with_albedo albedo) self in
  let self := update_optical_properties (with_chi chi) self in
  (* Compute scattering matrix elements *)
  op ← initialize_scattering_matrix (optical_properties self);
  (* Set scattering matrix to isotropic values *)
  '(m1, m2, m3, m4) ← scattering_matrix op;
  Ok (with_optical_properties
        (with_P (fill m1 1%float) (fill m2 0%float) (fill m3 1%float) (fill m4 0%float) op)
        self).

(** ** [SimpleSphericalDust] *)

(** The body of [for i in range(n_mu)]: the four column assignments from one
    call of [henyey_greenstein]. *)
Definition simple_column `{Extern} (g p_lin_max : ndarray) (i : nat) (op : OpticalProperties)
  : result OpticalProperties :=
  mu_ ← match mu op with
        | Some a => Ok a
        | None => Raise (TypeError "'NoneType' object is not subscriptable")
        end;
  mu_i ← np_getitem mu_ i;
  '(v1, v2, v3, v4) ← henyey_greenstein mu_i g p_lin_max;
  '(m1, m2, m3, m4) ← scattering_matrix op;
  m1 ← set_column m1 i v1;
  m2 ← set_column m2 i v2;
  m3 ← set_column m3 i v3;
  m4 ← set_column m4 i v4;
  Ok (with_P m1 m2 m3 m4 op).

Definition SimpleSphericalDust `{Extern} (fs : gmap string textfile) (filename : string)
  : result SphericalDust :=
  self ← SphericalDust_init ∅ [];
  (* Set cos(theta) grid for computing the scattering matrix elements *)
  let n_mu := 100 in
  let self := update_optical_properties
                (with_mu (Array (linspace (-1)%float 1%float n_mu))) self in
  (* Read in dust file *)
  dustfile ← loadtxt fs filename [0; 1; 2; 3; 4; 5];
  let wav := getfield 0 dustfile in
  let c_ext := getfield 1 dustfile in
  let c_sca := getfield 2 dustfile in
  let g := getfield 4 dustfile in
  let p_lin_max := getfield 5 dustfile in
  let self := update_optical_properties
                (with_nu (ufunc (fun w => (c / w * 1e4)%float) wav)) self in
  albedo_ ← broadcast2 PrimFloat.div c_sca c_ext;
  let self := update_optical_properties (with_albedo albedo_) self in
  let self := update_optical_properties (with_chi (getfield 3 dustfile)) self in
  f ← open_file fs filename;
  let self := with_md5 (KStr (md5_hexdigest f)) self in
  (* Compute scattering matrix elements *)
  op ← initialize_scattering_matrix (optical_properties self);
  op ← foldM (simple_column g p_lin_max) (seq 0 n_mu) op;
  Ok (with_optical_properties op self).

(** ** [CoatsphSingle] and [CoatsphMultiple] *)

(** [float(s)] for a field [s]. *)
Definition float_of_token (t : token) : result float :=
  match t with
  | Num x => Ok x
  | Word _ => Raise (ValueError "could not convert string to float")
  end.

(** [np.loadtxt(f, skiprows=skiprows, dtype=[...])] for a record type of
    [n_fields] floats, on the lines [f] an open file has left: the first
    [skiprows] lines are skipped ([StopIteration], an [Exception], when there
    are not as many), blank lines are passed over, and every other line is
    converted field by field, as many fields as the record type has; the
    records are assembled once every line is converted, and one with too few
    fields is refused then.  No line left gives no record (and a warning). *)
Definition loadtxt_records (f : textfile) (skiprows n_fields : nat)
  : result (list (list float)) :=
  if Nat.ltb (length f) skiprows then Raise (Exception "StopIteration")
  else
    X ← mapM (fun ln => mapM float_of_token (take n_fields ln))
           (List.filter (fun ln => negb (is_blank ln)) (drop skiprows f));
    if forallb (fun items => Nat.eqb (length items) n_fields) X then Ok X
    else Raise (ValueError "size of tuple must match number of fields").

(** [len(table)] for what [np.loadtxt] returned: a single record has been
    squeezed to a zero-dimensional array. *)
Definition len_records (table : list (list float)) : result nat :=
  if Nat.eqb (length table) 1 then Raise (TypeError "len() of unsized object")
  else Ok (length table).

(** [m[i, :] = v] *)
Definition set_row (m : matrix) (i : nat) (v : ndarray) : result matrix :=
  match rows m !! i with
  | None => Raise IndexError
  | Some _ =>
      let put r := Ok {| n_cols := n_cols m; rows := <[i := r]> (rows m) |} in
      match v with
      | Scalar x => put (replicate (n_cols m) x)
      | Array xs =>
          if Nat.eqb (length xs) (n_cols m) then put xs
          else match xs with
               | [x] => put (replicate (n_cols m) x)
               | _ => Raise (ValueError "could not broadcast input array")
               end
      end
  end.

Fixpoint zero_pad (k : nat) : string :=
  match k with
  | 0 => ""
  | S k => "0" +:+ zero_pad k
  end.

(** ['%04i' % n] for [n >= 0] *)
Definition format_04i (n : nat) : string :=
  zero_pad (4 - String.length (pretty n)) +:+ pretty n.

(** ['%s/coatsph_scat_%04i_0001.dat' % (directory, i + 1)] *)
Definition coatsph_scat_single (directory : string) (i : nat) : string :=
  directory +:+ "/coatsph_scat_" +:+ format_04i (i + 1) +:+ "_0001.dat".

(** ['%s/coatsph_scat.%04i.dat' % (directory, i + 1)] *)
Definition coatsph_scat_multiple (directory : string) (i : nat) : string :=
  directory +:+ "/coatsph_scat." +:+ format_04i (i + 1) +:+ ".dat".

(** The body of [for i in range(n_wav)], which the two loaders share but
    for the name of the file and the number of lines skipped. *)
Definition coatsph_phase_file `{Extern} (fs : gmap string textfile) (filename : string)
    (skiprows i : nat) (op : OpticalProperties) : result OpticalProperties :=
  f ← open_file fs filename;
  phasefile ← loadtxt_records f skiprows 6;
  op ← (if Nat.eqb i 0 then
          initialize_scattering_matrix
            (with_mu (ufunc (fun theta => np_cos (np_radians theta)) (getfield 0 phasefile))
                     op)
        else Ok op);
  '(m1, m2, m3, m4) ← scattering_matrix op;
  m1 ← set_row m1 i (getfield 1 phasefile);
  m2 ← set_row m2 i (getfield 3 phasefile);
  m3 ← set_row m3 i (getfield 4 phasefile);
  m4 ← set_row m4 i (getfield 5 phasefile);
  Ok (with_P m1 m2 m3 m4 op).

(** The two header lines both loaders read before the table:
    [version = f.readline()] and
    [n_components = int(f.readline().strip().split()[5])]. *)
Definition coatsph_header `{Builtins} (f : textfile) : result (Z * textfile) :=
  let '(version, f) := readline f in
  let '(ln, f) := readline f in
  t ← match ln !! 5 with
      | Some t => Ok t
      | None => Raise IndexError
      end;
  n_components ← py_int t;
  Ok (n_components, f).

Definition CoatsphSingle `{Extern} `{Builtins} (fs : gmap string textfile)
    (directory : string) (size density : float) : result SphericalDust :=
  self ← SphericalDust_init ∅ [];
  f ← open_file fs (directory +:+ "/coatsph_forw.dat");
  '(n_components, f) ← coatsph_header f;
  (* Read in main dust file *)
  dustfile ← loadtxt_records f 3 7;
  n_wav ← len_records dustfile;
  let self := update_optical_properties
                (with_nu (ufunc (fun w => (c / w * 1e4)%float) (getfield 2 dustfile)))
                self in
  albedo_ ← broadcast2 PrimFloat.div (getfield 4 dustfile) (getfield 3 dustfile);
  let self := update_optical_properties (with_albedo albedo_) self in
  let self := update_optical_properties
                (with_chi (ufunc (fun q => (0.75 * q / size / density)%float)
                             (getfield 3 dustfile))) self in
  (* Read in scattering matrix elements *)
  op ← foldM (fun i => coatsph_phase_file fs (coatsph_scat_single directory i) 9 i)
         (seq 0 n_wav) (optical_properties self);
  Ok (with_optical_properties op self).

Definition CoatsphMultiple `{Extern} `{Builtins} (fs : gmap string textfile)
    (directory : string) : result SphericalDust :=
  self ← SphericalDust_init ∅ [];
  f ← open_file fs (directory +:+ "/coatsph_forw.dat");
  '(n_components, f) ← coatsph_header f;
  (* Read in main dust file *)
  dustfile ← loadtxt_records f 7 7;
  n_wav ← len_records dustfile;
  let self := update_optical_properties
                (with_nu (ufunc (fun w => (c / w * 1e4)%float) (getfield 0 dustfile)))
                self in
  albedo_ ← broadcast2 PrimFloat.div (getfield 2 dustfile) (getfield 1 dustfile);
  let self := update_optical_properties (with_albedo albedo_) self in
  let self := update_optical_properties (with_chi (getfield 3 dustfile)) self in
  (* Read in scattering matrix elements *)
  op ← foldM (fun i => coatsph_phase_file fs (coatsph_scat_multiple directory i) 7 i)
         (seq 0 n_wav) (optical_properties self);
  Ok (with_optical_properties op self).

(** ** [MieXDust] *)

(** The warning [MieXDust] issues when it finds NaN values in a quantity. *)
Definition nan_warning (quantity : string) : string :=
  "NaN values found inside MieX " +:+ quantity +:+ " file - interpolating".

(** The NaN check the loader applies to [chi], to [albedo] and to each
    matrix column: the values, repaired where they were NaN, and the warning
    issued if any was. *)
Definition nan_repair `{Extern} (quantity : string) (wav values : list float)
  : result (list float * list string) :=
  if any_isnan values then
    let warning := nan_warning quantity in
    let invalid := map isnan values in
    x ← np_mask_getitem wav (map negb invalid);
    y ← np_mask_getitem values (map negb invalid);
    xval ← np_mask_getitem wav invalid;
    fixed ← interp1d_fast_loglog x y xval;
    values ← np_mask_setitem values invalid fixed;
    if any_isnan values then
      Raise (Exception ("Did not manage to fix NaN values in MieX " +:+ quantity))
    else Ok (values, [warning])
  else Ok (values, []).

(** The same check on [values[:, i]], which is a view: the repair writes
    through to the matrix. *)
Definition nan_repair_column `{Extern} (quantity : string) (wav : list float) (i : nat)
    (m : matrix) : result (matrix * list string) :=
  col ← get_column m i;
  '(col', w) ← nan_repair quantity wav col;
  Ok (if any_isnan col then put_column m i col' else m, w).

(** The four open files and the four matrices the reading loop fills. *)
Record MieXState : Type := {
  f11 : textfile; f12 : textfile; f33 : textfile; f34 : textfile;
  M1 : matrix; M2 : matrix; M3 : matrix; M4 : matrix
}.

(** [if float(f.readline()) != w: raise Exception("Incorrect wavelength in ...")] *)
Definition check_wavelength (name : string) (f : textfile) (w : float) : result textfile :=
  let '(ln, f) := readline f in
  x ← float_of_line ln;
  if negb (PrimFloat.eqb x w) then Raise (Exception ("Incorrect wavelength in " +:+ name))
  else Ok f.

(** [m[j, i] = float(f.readline().split()[1])] *)
Definition read_element (f : textfile) (m : matrix) (j i : nat) : result (textfile * matrix) :=
  let '(ln, f) := readline f in
  x ← float_of_field ln 1;
  m ← set_item m j i x;
  Ok (f, m).

Definition miex_read_row (j i : nat) (s : MieXState) : result MieXState :=
  '(f11_, m1) ← read_element (f11 s) (M1 s) j i;
  '(f12_, m2) ← read_element (f12 s) (M2 s) j i;
  '(f33_, m3) ← read_element (f33 s) (M3 s) j i;
  '(f34_, m4) ← read_element (f34 s) (M4 s) j i;
  Ok {| f11 := f11_; f12 := f12_; f33 := f33_; f34 := f34_;
        M1 := m1; M2 := m2; M3 := m3; M4 := m4 |}.

(** The body of [for j in range(n_wav)]. *)
Definition miex_read_block (wav : list float) (n_mu : nat) (j : nat) (s : MieXState)
  : result MieXState :=
  w ← match wav !! j with
      | Some w => Ok w
      | None => Raise IndexError
      end;
  f11_ ← check_wavelength "f11" (f11 s) w;
  f12_ ← check_wavelength "f12" (f12 s) w;
  f33_ ← check_wavelength "f33" (f33 s) w;
  f34_ ← check_wavelength "f34" (f34 s) w;
  foldM (miex_read_row j) (seq 0 n_mu)
        {| f11 := f11_; f12 := f12_; f33 := f33_; f34 := f34_;
           M1 := M1 s; M2 := M2 s; M3 := M3 s; M4 := M4 s |}.

(** The body of the first loop over [range(n_mu)]:
    [mu[i] = np.cos(np.radians(float(f11.readline().split()[0])))]. *)
Definition miex_read_mu `{Extern} (i : nat) (s : textfile * list float)
  : result (textfile * list float) :=
  let '(ln, f) := readline (fst s) in
  x ← float_of_field ln 0;
  Ok (f, <[i := np_cos (np_radians x)]> (snd s)).

(** The body of the last loop over [range(n_mu)], with its inner loop over
    the four quantities unrolled. *)
Definition miex_repair_columns `{Extern} (wav : list float) (i : nat)
    (s : matrix * matrix * matrix * matrix * list string)
  : result (matrix * matrix * matrix * matrix * list string) :=
  let '(m1, m2, m3, m4, warnings) := s in
  '(m1, w1) ← nan_repair_column "P1" wav i m1;
  '(m2, w2) ← nan_repair_column "P2" wav i m2;
  '(m3, w3) ← nan_repair_column "P3" wav i m3;
  '(m4, w4) ← nan_repair_column "P4" wav i m4;
  Ok (m1, m2, m3, m4, warnings ++ w1 ++ w2 ++ w3 ++ w4).

(** [MieXDust(model)]: the model and the warnings issued on the way.  The
    division that gives [n_mu] is Python 2's integer division. *)
Definition MieXDust `{Extern} (fs : gmap string textfile) (model : string)
  : result (SphericalDust * list string) :=
  self ← SphericalDust_init ∅ [];
  wav ← loadtxt_column fs (model +:+ ".alb") 0;
  albedo_ ← loadtxt_column fs (model +:+ ".alb") 1;
  let self := update_optical_properties (with_albedo albedo_) self in
  kappa ← loadtxt_column fs (model +:+ ".k_abs") 1;
  chi_ ← broadcast2 PrimFloat.div kappa (ufunc (fun a => (1 - a)%float) albedo_);
  let self := update_optical_properties (with_chi chi_) self in
  (* A one-line [.alb] file has given zero-dimensional arrays: whatever the
     NaN check does with them, [n_wav = len(wav)] below raises. *)
  '(wav, albedo_, chi_) ← match wav, albedo_, chi_ with
                          | Array wav, Array albedo_, Array chi_ => Ok (wav, albedo_, chi_)
                          | _, _, _ => Raise (TypeError "len() of unsized object")
                          end;
  (* Check for NaN values; the repair is made in place *)
  '(chi_, w_chi) ← nan_repair "chi" wav chi_;
  let self := update_optical_properties (with_chi (Array chi_)) self in
  '(albedo_, w_albedo) ← nan_repair "albedo" wav albedo_;
  let self := update_optical_properties (with_albedo (Array albedo_)) self in
  let self := update_optical_properties
                (with_nu (Array (map (fun w => (c / w * 1e4)%float) wav))) self in
  let n_wav := length wav in
  all_lines ← open_file fs (model +:+ ".f11");
  n_mu ← (if Nat.eqb n_wav 0 then Raise ZeroDivisionError
          else Ok (Z.of_nat (length all_lines / n_wav) - 1)%Z);
  mu_ ← np_zeros n_mu;
  let n_mu := Z.to_nat n_mu in
  let self := update_optical_properties (with_mu (Array mu_)) self in
  op ← initialize_scattering_matrix (optical_properties self);
  (* Read mu *)
  f ← open_file fs (model +:+ ".f11");
  let f := snd (readline f) in
  let f := snd (readline f) in
  '(_, mu_) ← foldM miex_read_mu (seq 0 n_mu) (f, mu_);
  let op := with_mu (Array mu_) op in
  (* Read in matrix elements *)
  f11_ ← open_file fs (model +:+ ".f11");
  f12_ ← open_file fs (model +:+ ".f12");
  f33_ ← open_file fs (model +:+ ".f33");
  f34_ ← open_file fs (model +:+ ".f34");
  '(m1, m2, m3, m4) ← scattering_matrix op;
  s ← foldM (miex_read_block wav n_mu) (seq 0 n_wav)
        {| f11 := snd (readline f11_); f12 := snd (readline f12_);
           f33 := snd (readline f33_); f34 := snd (readline f34_);
           M1 := m1; M2 := m2; M3 := m3; M4 := m4 |};
  '(m1, m2, m3, m4, w_P) ←
    foldM (miex_repair_columns wav) (seq 0 n_mu) (M1 s, M2 s, M3 s, M4 s, []);
  Ok (with_optical_properties (with_P m1 m2 m3 m4 op) self, w_chi ++ w_albedo ++ w_P).

(** ** [Filter] *)

Module Filter.

(** The physical type of an [astropy] unit. *)
Inductive physical_type : Type :=
| frequency
| length
| energy
| dimensionless
| other_dimension.

Definition physical_type_eqb (a b : physical_type) : bool :=
  match a, b with
  | frequency, frequency | length, length | energy, energy
  | dimensionless, dimensionless | other_dimension, other_dimension => true
  | _, _ => false
  end.

Record Quantity : Type := {
  magnitude : ndarray;
  unit_type : physical_type
}.

(** The Python values the setters are handed. *)
Inductive pyobj : Type :=
| PyNone
| PyStr (s : string)
| PyInt (z : Z)
| PyFloat (x : float)
| PyArray (a : ndarray)
| PyQuantity (q : Quantity).

Inductive domain : Type :=
| positive
| strictly_positive.

Definition in_domain (d : domain) (x : float) : bool :=
  match d with
  | positive => PrimFloat.leb 0%float x
  | strictly_positive => PrimFloat.ltb 0%float x
  end.

(** Modelled from the spec: [validate_array] of [hyperion/util/validator.py],
    which is not among the embedded sources.  What the call sites ask of it:
    a quantity whose physical dimension is one of [physical_type], of [ndim]
    dimensions, of the given [shape] when there is one, with every value in
    [domain]; the validated quantity is returned. *)
Definition validate_array (name : string) (value : pyobj) (d : domain) (ndim : nat)
    (shape : option nat) (physical_type : list physical_type) : result Quantity :=
  match value with
  | PyQuantity q =>
      if negb (existsb (physical_type_eqb (unit_type q)) physical_type) then
        Raise (TypeError (name +:+ " should be given in units of one of the accepted types"))
      else
        match magnitude q with
        | Scalar _ =>
            Raise (ValueError (name +:+ " should be a 1-d sequence"))
        | Array xs =>
            if negb (Nat.eqb ndim 1) then
              Raise (ValueError (name +:+ " has the wrong number of dimensions"))
            else if negb (match shape with
                          | Some n => Nat.eqb (List.length xs) n
                          | None => true
                          end) then
              Raise (ValueError (name +:+ " has an incorrect shape"))
            else if negb (forallb (in_domain d) xs) then
              Raise (ValueError (name +:+ " is outside its domain"))
            else Ok q
        end
  | _ => Raise (TypeError (name +:+ " should be given as a Quantity object"))
  end.

(** The instance attributes; [None] is an attribute that has not been
    assigned yet, [Some None] is Python's [None]. *)
Record t : Type := {
  _name : option (option string);
  _spectral_coord : option (option Quantity);
  _transmission : option (option Quantity);
  _beta : option Z;
  _alpha : option pyobj;
  _central_spectral_coord : option (option Quantity)
}.

(** The outcome of a setter together with the object as it left it. *)
Definition outcome (A : Type) : Type := result A * t.

Definition getattr {A : Type} (attr : string) (v : option A) : result A :=
  match v with
  | Some a => Ok a
  | None => Raise (AttributeError attr)
  end.

Definition name (self : t) : result (option string) := getattr "_name" (_name self).

Definition set_name (value : pyobj) (self : t) : outcome unit :=
  let store v :=
    (Ok tt, {| _name := Some v; _spectral_coord := _spectral_coord self;
               _transmission := _transmission self; _beta := _beta self;
               _alpha := _alpha self;
               _central_spectral_coord := _central_spectral_coord self |}) in
  match value with
  | PyNone => store None
  | PyStr s => store (Some s)
  | _ => (Raise (TypeError "name should be given as a string"), self)
  end.

Definition spectral_coord (self : t) : result (option Quantity) :=
  getattr "_spectral_coord" (_spectral_coord self).

Definition set_spectral_coord (value : pyobj) (self : t) : outcome unit :=
  let store v :=
    (Ok tt, {| _name := _name self; _spectral_coord := Some v;
               _transmission := _transmission self; _beta := _beta self;
               _alpha := _alpha self;
               _central_spectral_coord := _central_spectral_coord self |}) in
  match value with
  | PyNone => store None
  | _ =>
      match validate_array "spectral_coord" value strictly_positive 1 None
                           [frequency; length; energy] with
      | Ok q => store (Some q)
      | Raise e => (Raise e, self)
      end
  end.

Definition transmission (self : t) : result (option Quantity) :=
  getattr "_transmission" (_transmission self).

Definition set_transmission (value : pyobj) (self : t) : outcome unit :=
  let store v :=
    (Ok tt, {| _name := _name self; _spectral_coord := _spectral_coord self;
               _transmission := Some v; _beta := _beta self;
               _alpha := _alpha self;
               _central_spectral_coord := _central_spectral_coord self |}) in
  match value with
  | PyNone => store None
  | _ =>
      let validated :=
        sc ← spectral_coord self;
        shape ← match sc with
                | None => Ok None
                | Some q => n ← np_len (magnitude q); Ok (Some n)
                end;
        validate_array "r" value positive 1 shape [dimensionless] in
      match validated with
      | Ok q => store (Some q)
      | Raise e => (Raise e, self)
      end
  end.

(** [value == s] for a string literal [s]. *)
Definition eq_str (value : pyobj) (s : string) : bool :=
  match value with
  | PyStr v => String.eqb v s
  | _ => false
  end.

Definition detector_type (self : t) : result string :=
  beta ← getattr "_beta" (_beta self);
  Ok (if Z.eqb beta (-1) then "energy" else "photons").

Definition set_detector_type (value : pyobj) (self : t) : outcome unit :=
  let store b :=
    (Ok tt, {| _name := _name self; _spectral_coord := _spectral_coord self;
               _transmission := _transmission self; _beta := Some b;
               _alpha := _alpha self;
               _central_spectral_coord := _central_spectral_coord self |}) in
  if eq_str value "energy" then store (-1)%Z
  else if eq_str value "photons" then store 0%Z
  else (Raise (ValueError "detector_type should be one of energy/photons"), self).

Definition alpha (self : t) : result pyobj := getattr "_alpha" (_alpha self).

Definition set_alpha (value : pyobj) (self : t) : outcome unit :=
  (Ok tt, {| _name := _name self; _spectral_coord := _spectral_coord self;
             _transmission := _transmission self; _beta := _beta self;
             _alpha := Some value;
             _central_spectral_coord := _central_spectral_coord self |}).

Definition central_spectral_coord (self : t) : result (option Quantity) :=
  getattr "_central_spectral_coord" (_central_spectral_coord self).

(** The scalar validation the next setter relies on, [validate_scalar] of
    [hyperion/util/validator.py]. *)
Class Validator : Type := {
  validate_scalar : string -> pyobj -> domain -> list physical_type -> result Quantity
}.

Definition set_central_spectral_coord `{Validator} (value : pyobj) (self : t)
  : outcome unit :=
  let store v :=
    (Ok tt, {| _name := _name self; _spectral_coord := _spectral_coord self;
               _transmission := _transmission self; _beta := _beta self;
               _alpha := _alpha self;
               _central_spectral_coord := Some v |}) in
  match value with
  | PyNone => store None
  | _ =>
      match validate_scalar "spectral_coord" value strictly_positive
                            [frequency; length; energy] with
      | Ok q => store (Some q)
      | Raise e => (Raise e, self)
      end
  end.

(** An object before [__init__] has assigned anything. *)
Definition blank : t :=
  {| _name := None; _spectral_coord := None; _transmission := None;
     _beta := None; _alpha := None; _central_spectral_coord := None |}.

(** [Filter(name, spectral_coord, transmission)]: the three assignments of
    [__init__], in order; a raise leaves no object. *)
Definition init (name spectral_coord transmission : pyobj) : result t :=
  match set_name name blank with
  | (Raise e, _) => Raise e
  | (Ok _, self) =>
      match set_spectral_coord spectral_coord self with
      | (Raise e, _) => Raise e
      | (Ok _, self) =>
          match set_transmission transmission self with
          | (Raise e, _) => Raise e
          | (Ok _, self) => Ok self
          end
      end
  end.

(** The attributes of [f'] are those of [f], but perhaps the one named. *)
Definition same_but (attr : string) (f f' : t) : Prop :=
  (attr = "_name" \/ _name f' = _name f)
  /\ (attr = "_spectral_coord" \/ _spectral_coord f' = _spectral_coord f)
  /\ (attr = "_transmission" \/ _transmission f' = _transmission f)
  /\ (attr = "_beta" \/ _beta f' = _beta f)
  /\ (attr = "_alpha" \/ _alpha f' = _alpha f)
  /\ (attr = "_central_spectral_coord"
      \/ _central_spectral_coord f' = _central_spectral_coord f).

(** What a setter's return says of the object it leaves: one that raised
    left the object as it was, and at most the attribute named differs. *)
Definition framed (attr : string) (f : t) (o : outcome unit) : Prop :=
  (fst o <> Ok tt -> snd o = f) /\ same_but attr f (snd o).

End Filter.

(** ** Sample inputs

    A concrete choice of the collaborators and a few small inputs, on which
    the embedded functions are run. *)

Module Sample.

Definition extern : Extern := {|
  libm_pow := fun x _ => (x * PrimFloat.sqrt x)%float;
  np_cos := fun x => (1 - x * x / 2)%float;
  np_radians := fun x => (x * 0x1.1df46a2529d39p-6)%float;
  c := 29979245800%float;
  hyperion_version := "0.9.0";
  md5_hexdigest := fun _ => "d41d8cd98f00b204e9800998ecf8427e";
  interp1d_fast_loglog := fun x y xval =>
    match y with
    | [] => Raise (Exception "x values are out of range")
    | y0 :: _ => Ok (map (fun _ => y0) xval)
    end;
  lte_emissivities := fun _ =>
    Ok ([("jnu", Vector [1%float])], [("specific_energy", Vector [1%float])]);
  compute_mean_opacities := fun _ _ => Ok [("chi_planck", Vector [1%float])]
|}.



(** A container tagged with version 2. *)
Definition version2 : TableSet :=
  add_keyword "type" (KInt 1) (add_keyword "version" (KInt 2) TableSet_new).

(** The model [SphericalDust()] constructs. *)
Definition fresh : SphericalDust :=
  {| filename := None; md5 := KNone;
     optical_properties := OpticalProperties_new;
     emissivities := Emissivities_new;
     mean_opacities := MeanOpacities_new;
     sublimation_mode := "no"; sublimation_energy := Some 0%float |}.

(** A two-row table for [SimpleSphericalDust], with a blank line. *)
Definition simple_table : textfile :=
  [ [Num 1; Num 2; Num 1; Num 100; Num 0; Num 0.5];
    [];
    [Num 2; Num 4; Num 1; Num 50; Num 0.5; Num 0.25] ]%float.

Definition simple_files : gmap string textfile := {[ "dust.dat" := simple_table ]}.

(** A table whose scattering cross-section exceeds the extinction in the
    first row and whose second row has both equal to zero. *)
Definition odd_files : gmap string textfile :=
  {[ "odd.dat" := [ [Num 1; Num 1; Num 2; Num 100; Num 0; Num 0];
                    [Num 2; Num 0; Num 0; Num nan; Num 0; Num 0] ]%float ]}.

(** One block of a MieX matrix file: the wavelength, then one line per
    angle. *)
Definition miex_block (w a b : float) : textfile :=
  [ [Num w]; [Num 0; Num a]; [Num 90; Num b] ]%float.

Definition miex_matrix_file (a : float) : textfile :=
  ([Word "header"] :: miex_block 1 a 2 ++ miex_block 2 3 4 ++ miex_block 4 5 6)%float.

(** A MieX model with three wavelengths and two angles, with one NaN in the
    albedo and one in the first matrix file. *)
Definition miex_files : gmap string textfile :=
  {[ "m.alb" := [ [Num 1; Num 0.5]; [Num 2; Num nan]; [Num 4; Num 0.25] ]%float;
     "m.k_abs" := [ [Num 1; Num 10]; [Num 2; Num 20]; [Num 4; Num 30] ]%float;
     "m.f11" := miex_matrix_file nan;
     "m.f12" := miex_matrix_file 1;
     "m.f33" := miex_matrix_file 1;
     "m.f34" := miex_matrix_file 1 ]}.

End Sample.

(** ** Further sample inputs

    Collaborators of the functions above that [Sample.extern] does not
    cover, and inputs for the two [Coatsph] loaders. *)

Module Inputs.

(** A temperature-to-energy relation: a thousand units of energy per
    kelvin, and no energy for no temperature. *)
Definition thermal : Thermal := {|
  _temperature2specific_energy := fun _ temperature =>
    match temperature with
    | Some t => Ok (t * 1000)%float
    | None => Raise (TypeError "unsupported operand type(s)")
    end
|}.

(** The integer a float is, if it is one. *)
Definition Z_of_float (x : float) : option Z :=
  match Prim2SF x with
  | S754_zero _ => Some 0%Z
  | S754_finite s m e =>
      let z := if s then Z.neg m else Z.pos m in
      if (0 <=? e)%Z then Some (z * 2 ^ e)%Z
      else if (Z.pos m mod 2 ^ (- e) =? 0)%Z then Some (z / 2 ^ (- e))%Z
      else None
  | _ => None
  end.

(** An [int] that takes the numeric fields of integral value. *)
Definition builtins : Builtins := {|
  py_int := fun t =>
    match t with
    | Num x => match Z_of_float x with
               | Some z => Ok z
               | None => Raise (ValueError "invalid literal for int() with base 10")
               end
    | Word _ => Raise (ValueError "invalid literal for int() with base 10")
    end
|}.


(** A scalar validation that asks for a quantity holding one value, of one
    of the accepted physical types and in the domain. *)
Definition validator : Filter.Validator := {|
  Filter.validate_scalar := fun name value d types =>
    match value with
    | Filter.PyQuantity q =>
        match Filter.magnitude q with
        | Scalar x =>
            if existsb (Filter.physical_type_eqb (Filter.unit_type q)) types
               && Filter.in_domain d x
            then Ok q
            else Raise (ValueError (name +:+ " is not valid"))
        | Array _ => Raise (TypeError (name +:+ " should be a scalar value"))
        end
    | _ => Raise (TypeError (name +:+ " should be given as a Quantity object"))
    end
|}.

(** The two header lines of a [coatsph_forw.dat] file. *)
Definition coatsph_head : textfile :=
  [ [Word "coatsph"; Word "version"; Num 1];
    [Word "number"; Word "of"; Word "components"; Word "in"; Word "mixture:"; Num 2] ]%float.

Definition skipped (k : nat) : textfile := replicate k [Word "header"].

(** A phase file of two angles, 0 and 180 degrees, after [k] header lines. *)
Definition phase_file (k : nat) (s11 : float) : textfile :=
  (skipped k ++ [ [Num 0; Num s11; Num 0; Num 0.5; Num 0.25; Num 0];
                  [Num 180; Num 1; Num 0; Num 0.5; Num 0.25; Num 0] ])%float.

(** A single-component grain at two wavelengths. *)
Definition single_files : gmap string textfile :=
  {[ "single/coatsph_forw.dat" :=
       (coatsph_head ++ skipped 3
        ++ [ [Num 1; Num 0.125; Num 1; Num 2; Num 1; Num 0; Num 0.5];
             [Num 2; Num 0.125; Num 2; Num 4; Num 1; Num 0; Num 0.25] ])%float;
     "single/coatsph_scat_0001_0001.dat" := phase_file 9 2;
     "single/coatsph_scat_0002_0001.dat" := phase_file 9 4 ]}.

(** A multi-component grain at two wavelengths; the second phase file holds
    a single record. *)
Definition multiple_files : gmap string textfile :=
  {[ "multiple/coatsph_forw.dat" :=
       (coatsph_head ++ skipped 7
        ++ [ [Num 1; Num 2; Num 1; Num 100; Num 0.5; Num 0; Num 0];
             [Num 2; Num 4; Num 1; Num 50; Num 0.25; Num 0; Num 0] ])%float;
     "multiple/coatsph_scat.0001.dat" := phase_file 7 2;
     "multiple/coatsph_scat.0002.dat" :=
       (skipped 7 ++ [ [Num 0; Num 8; Num 0; Num 0.5; Num 0.25; Num 0] ])%float ]}.

(** A container with the two tags and a checksum, and no table. *)
Definition tags_only : TableSet :=
  add_keyword "asciimd5" (KStr "0cc175b9c0f1b6a831c399e269772661")
    (add_keyword "type" (KInt 1) (add_keyword "version" (KInt 1) TableSet_new)).

End Inputs.

(** ** Vocabulary of the statements *)

(** The container an argument of [read] denotes. *)
Definition container (store : gmap string TableSet) (arg : file_arg) : option TableSet :=
  match arg with
  | Path p => store !! p
  | Handle ts => Some ts
  end.

(** A matrix of shape [(n_rows, n)]. *)
Definition shaped (n_rows n : nat) (m : matrix) : Prop :=
  n_cols m = n
  /\ length (rows m) = n_rows
  /\ Forall (fun r => length r = n) (rows m).

(** Column [i] of the four matrices holds what [henyey_greenstein] returns
    for the [i]-th cosine and the arrays [g] and [p_lin_max]: three arrays,
    and the scalar 0 broadcast over the column. *)
Definition hg_column `{Extern} (mu_ g p_lin_max : list float)
    (m1 m2 m3 m4 : matrix) (i : nat) : Prop :=
  exists (mu_i : float) (x1 x2 x3 : list float),
    mu_ !! i = Some mu_i
    /\ henyey_greenstein (Scalar mu_i) (Array g) (Array p_lin_max)
       = Ok (Array x1, Array x2, Array x3, Scalar 0%float)
    /\ get_column m1 i = Ok x1
    /\ get_column m2 i = Ok x2
    /\ get_column m3 i = Ok x3
    /\ get_column m4 i = Ok (replicate (length g) 0%float).

(** [final] is [raw] after the NaN repair: it holds no NaN; if [raw] held
    none, it is [raw] and nothing was issued; otherwise the entries of [raw]
    that are not NaN are kept, the others are, in order, the values
    [interp1d_fast_loglog] returned for the wavelengths of the NaN entries
    from the valid wavelengths and values, and the warning was issued. *)
Definition repaired `{Extern} (quantity : string) (wav raw final : list float)
    (warnings : list string) : Prop :=
  any_isnan final = false
  /\ length final = length raw
  /\ if any_isnan raw then
       exists fixed : list float,
         interp1d_fast_loglog (mask_select wav (map negb (map isnan raw)))
                              (mask_select raw (map negb (map isnan raw)))
                              (mask_select wav (map isnan raw)) = Ok fixed
         /\ np_mask_setitem raw (map isnan raw) fixed = Ok final
         /\ (forall (j : nat) (x : float),
                raw !! j = Some x -> isnan x = false -> final !! j = Some x)
         /\ warnings = [nan_warning quantity]
     else final = raw /\ warnings = [].

(** Column [i] of [m] is column [i] of [raw] after the NaN repair. *)
Definition column_repaired `{Extern} (quantity : string) (wav : list float)
    (raw m : matrix) (i : nat) : Prop :=
  exists (before after : list float) (warnings : list string),
    get_column raw i = Ok before
    /\ get_column m i = Ok after
    /\ repaired quantity wav before after warnings.

(** The state of one matrix when the repair loop reaches column [k]: the
    columns before [k] are repaired, the others are as they were read. *)
Definition repair_progress `{Extern} (quantity : string) (wav : list float)
    (n_rows n : nat) (raw : matrix) (k : nat) (m : matrix) : Prop :=
  shaped n_rows n m
  /\ (forall i : nat, i < k -> column_repaired quantity wav raw m i)
  /\ (forall i : nat, k <= i -> get_column m i = get_column raw i).

Definition is_nan_warning (msg : string) : Prop :=
  exists quantity : string, msg = nan_warning quantity.

(** The four open files of [MieXDust] have all been read up to line [p]. *)
Definition cursors (F11 F12 F33 F34 : textfile) (p : nat) (s : MieXState) : Prop :=
  f11 s = drop p F11 /\ f12 s = drop p F12 /\ f33 s = drop p F33 /\ f34 s = drop p F34.

Definition matrices_shaped (n_rows n : nat) (s : MieXState) : Prop :=
  shaped n_rows n (M1 s) /\ shaped n_rows n (M2 s)
  /\ shaped n_rows n (M3 s) /\ shaped n_rows n (M4 s).

(** The line of a MieX matrix file that states the wavelength of block [j],
    each block being one such line followed by [n_mu] lines of data, after
    one header line. *)
Definition header_record (n_mu : nat) (F : textfile) (j : nat) : option line :=
  F !! (1 + j * (n_mu + 1)).

(** The header record of block [j] is a single number equal to [wav[j]]. *)
Definition wavelength_checked (wav : list float) (n_mu : nat) (F : textfile) (j : nat)
  : Prop :=
  exists x w : float,
    header_record n_mu F j = Some [Num x]
    /\ wav !! j = Some w
    /\ PrimFloat.eqb x w = true.

(** The fields of a model other than [filename]. *)
Definition payload (self : SphericalDust)
  : kwval * OpticalProperties * Emissivities * MeanOpacities * string * option float :=
  (md5 self, optical_properties self, emissivities self, mean_opacities self,
   sublimation_mode self, sublimation_energy self).

(** The entry [m[j, i]] of a matrix. *)
Definition entry (m : matrix) (j i : nat) : option float :=
  r ← rows m !! j; r !! i.

(** The three coefficients [henyey_greenstein] computes for one cosine, one
    asymmetry factor and one polarization, operation by operation in
    binary64 with the C library's [pow]. *)
Definition P1_binary64 `{Extern} (mu g : float) : float :=
  ((1 - g * g) / libm_pow (1 + g * g - 2 * g * mu) 1.5)%float.

Definition P2_binary64 (mu p_lin_max P1 : float) : float :=
  ((- p_lin_max) * P1 * (1 - mu * mu) / (1 + mu * mu))%float.

Definition P3_binary64 (mu P1 : float) : float :=
  (P1 * 2 * mu / (1 + mu * mu))%float.

(** The fields of a model a loader leaves as the constructor of
    [SphericalDust] set them. *)
Definition untouched (d : SphericalDust) : Prop :=
  filename d = None
  /\ emissivities d = Emissivities_new
  /\ mean_opacities d = MeanOpacities_new
  /\ sublimation_mode d = "no"
  /\ sublimation_energy d = Some 0%float.


(** The number in field [k] of line [l] of a file. *)
Definition number_at (F : textfile) (l k : nat) : option float :=
  ln ← F !! l;
  match ln !! k with
  | Some (Num x) => Some x
  | _ => None
  end.

(** Entry [(j, i)] of [m] is the number in the second field of the line of
    [F] for angle [i] of block [j]. *)
Definition read_from (F : textfile) (n_mu : nat) (m : matrix) (j i : nat) : Prop :=
  exists x : float,
    number_at F (2 + j * (n_mu + 1) + i) 1 = Some x /\ entry m j i = Some x.

(** Entry [(j, i)] of [m] is the number the file gives for it, unless that
    number is a NaN. *)
Definition kept_from (F : textfile) (n_mu : nat) (m : matrix) (j i : nat) : Prop :=
  exists x : float,
    number_at F (2 + j * (n_mu + 1) + i) 1 = Some x
    /\ (isnan x = false -> entry m j i = Some x).

(** The entries of the four matrices [MieXDust] has read so far: those of
    the blocks before [j], and those before angle [i] in block [j]. *)
Definition filled (F11 F12 F33 F34 : textfile) (n_mu j i : nat) (s : MieXState) : Prop :=
  forall j' i' : nat,
    (j' < j /\ i' < n_mu) \/ (j' = j /\ i' < i) ->
    read_from F11 n_mu (M1 s) j' i' /\ read_from F12 n_mu (M2 s) j' i'
    /\ read_from F33 n_mu (M3 s) j' i' /\ read_from F34 n_mu (M4 s) j' i'.

(** What [m[i, :] = v] stores in a row of [n] entries. *)
Definition broadcast_row (n : nat) (v : ndarray) : list float :=
  match v with
  | Scalar x => replicate n x
  | Array xs => if Nat.eqb (length xs) n then xs else replicate n (nth 0 xs 0%float)
  end.

(** [np.loadtxt(name, skiprows=skiprows, dtype=[...])] for the six fields of
    a phase file. *)
Definition phase_table (fs : gmap string textfile) (name : string) (skiprows : nat)
  : result (list (list float)) :=
  f ← open_file fs name; loadtxt_records f skiprows 6.

(** Row [i] of the four matrices holds the [s11], [s12], [s33] and [s34]
    fields of the [i]-th phase file, which has as many records as there are
    angles, or one record, broadcast along the row. *)
Definition phase_row (fs : gmap string textfile) (name : nat -> string) (skiprows : nat)
    (n_mu : nat) (m1 m2 m3 m4 : matrix) (i : nat) : Prop :=
  exists phasefile : list (list float),
    phase_table fs (name i) skiprows = Ok phasefile
    /\ (length phasefile = n_mu \/ length phasefile = 1)
    /\ rows m1 !! i = Some (broadcast_row n_mu (getfield 1 phasefile))
    /\ rows m2 !! i = Some (broadcast_row n_mu (getfield 3 phasefile))
    /\ rows m3 !! i = Some (broadcast_row n_mu (getfield 4 phasefile))
    /\ rows m4 !! i = Some (broadcast_row n_mu (getfield 5 phasefile)).

(** The table after [k] turns of the loop over the phase files, [op0] being
    the table before the loop. *)
Definition phase_files_read `{Extern} (fs : gmap string textfile) (name : nat -> string)
    (skiprows n_wav : nat) (op0 : OpticalProperties) (k : nat) (op : OpticalProperties)
  : Prop :=
  nu op = nu op0 /\ albedo op = albedo op0 /\ chi op = chi op0
  /\ match k with
     | 0 => op = op0
     | S _ =>
         exists (first : list (list float)) (m1 m2 m3 m4 : matrix),
           phase_table fs (name 0) skiprows = Ok first
           /\ length first <> 1
           /\ mu op = Some (Array (map (fun theta => np_cos (np_radians theta))
                                      (field 0 first)))
           /\ P1 op = Some m1 /\ P2 op = Some m2 /\ P3 op = Some m3 /\ P4 op = Some m4
           /\ shaped n_wav (length first) m1 /\ shaped n_wav (length first) m2
           /\ shaped n_wav (length first) m3 /\ shaped n_wav (length first) m4
           /\ forall i : nat, i < k ->
                phase_row fs name skiprows (length first) m1 m2 m3 m4 i
     end.

(** What the loop over the phase files has left in a table of [n_wav]
    wavelengths: nothing when there is none; otherwise the angles of the
    first phase file and, row by row, the matrix elements of each file. *)
Definition phase_files_loaded `{Extern} (fs : gmap string textfile) (name : nat -> string)
    (skiprows n_wav : nat) (op : OpticalProperties) : Prop :=
  match n_wav with
  | 0 => mu op = None /\ P1 op = None /\ P2 op = None /\ P3 op = None /\ P4 op = None
  | S _ =>
      exists (first : list (list float)) (m1 m2 m3 m4 : matrix),
        phase_table fs (name 0) skiprows = Ok first
        /\ length first <> 1
        /\ mu op = Some (Array (map (fun theta => np_cos (np_radians theta))
                                   (field 0 first)))
        /\ P1 op = Some m1 /\ P2 op = Some m2 /\ P3 op = Some m3 /\ P4 op = Some m4
        /\ shaped n_wav (length first) m1 /\ shaped n_wav (length first) m2
        /\ shaped n_wav (length first) m3 /\ shaped n_wav (length first) m4
        /\ forall i : nat, i < n_wav ->
             phase_row fs name skiprows (length first) m1 m2 m3 m4 i
  end.

(** * Part II. Theorems *)

(** ** The phase function *)

Section PhaseFunction.

Import ExactFloat.
Local Open Scope R_scope.







End PhaseFunction.

Section PhaseFunctionClaims.

Import ExactFloat.
Local Open Scope R_scope.











End PhaseFunctionClaims.

(** ** The filter curve *)

Section FilterClaims.

Import Filter.

Lemma set_name_beta (v : pyobj) (f f' : t) (r : result unit) :
  set_name v f = (r, f') -> _beta f' = _beta f.
Proof. unfold set_name. intros E. destruct v; inversion E; reflexivity. Qed.

Lemma set_spectral_coord_beta (v : pyobj) (f f' : t) (r : result unit) :
  set_spectral_coord v f = (r, f') -> _beta f' = _beta f.
Proof.
  unfold set_spectral_coord. intros E.
  destruct v; try (inversion E; reflexivity);
    destruct (validate_array _ _ _ _ _ _); inversion E; reflexivity.
Qed.

Lemma set_transmission_beta (v : pyobj) (f f' : t) (r : result unit) :
  set_transmission v f = (r, f') -> _beta f' = _beta f.
Proof.
  unfold set_transmission. intros E.
  destruct v; try (inversion E; reflexivity);
    match type of E with
    | (match ?x with _ => _ end) = _ => destruct x; inversion E; reflexivity
    end.
Qed.

Lemma init_beta (n sc tr : pyobj) (f : t) : init n sc tr = Ok f -> _beta f = None.
Proof.
  unfold init. intros E.
  destruct (set_name n blank) as [[[] | e] f1] eqn:E1; [| discriminate].
  destruct (set_spectral_coord sc f1) as [[[] | e] f2] eqn:E2; [| discriminate].
  destruct (set_transmission tr f2) as [[[] | e] f3] eqn:E3; [| discriminate].
  inversion E; subst f3.
  rewrite (set_transmission_beta _ _ _ _ E3), (set_spectral_coord_beta _ _ _ _ E2),
    (set_name_beta _ _ _ _ E1).
  reflexivity.
Qed.

(** C10: a freshly constructed [Filter] has no detector type (reading it
    raises [AttributeError]); assigning ['energy'] or ['photons'] succeeds and
    a read then returns the assigned string; assigning any other value raises
    [ValueError] and leaves the object as it was. *)
Theorem detector_type_set_then_get :
  (forall (n sc tr : pyobj) (f : t),
      init n sc tr = Ok f -> detector_type f = Raise (AttributeError "_beta"))
  /\ (forall (f : t) (s : string),
      s = "energy" \/ s = "photons" ->
      exists f' : t,
        set_detector_type (PyStr s) f = (Ok tt, f') /\ detector_type f' = Ok s)
  /\ (forall (v : pyobj) (f : t),
      v <> PyStr "energy" -> v <> PyStr "photons" ->
      set_detector_type v f
      = (Raise (ValueError "detector_type should be one of energy/photons"), f)).
Proof.
  split; [| split].
  - intros n sc tr f E. unfold detector_type. rewrite (init_beta _ _ _ _ E). reflexivity.
  - intros f s [-> | ->]; eexists; split; reflexivity.
  - intros v f Hne Hnp. unfold set_detector_type.
    assert (eq_str v "energy" = false) as ->.
    { destruct v; try reflexivity. cbn. apply String.eqb_neq. congruence. }
    assert (eq_str v "photons" = false) as ->.
    { destruct v; try reflexivity. cbn. apply String.eqb_neq. congruence. }
    reflexivity.
Qed.

Lemma detector_type_set_then_get_witness :
  init PyNone PyNone PyNone
  = Ok {| _name := Some None; _spectral_coord := Some None; _transmission := Some None;
          _beta := None; _alpha := None; _central_spectral_coord := None |}
  /\ detector_type
       {| _name := Some None; _spectral_coord := Some None; _transmission := Some None;
          _beta := None; _alpha := None; _central_spectral_coord := None |}
     = Raise (AttributeError "_beta").
Proof.
  split; [reflexivity |].
  apply (proj1 detector_type_set_then_get PyNone PyNone PyNone). reflexivity.
Defined.







End FilterClaims.

(** ** The dust model: [read] and [write] *)

Section DustModelClaims.

Context `{Extern}.

(** C2, as stated, fails: reading a version-2 container by its path raises,
    but the target's [filename] has been overwritten by then. *)
Lemma read_sets_filename_before_check :
  SphericalDust_init ∅ [] = Ok Sample.fresh
  /\ read {["v2.h5" := Sample.version2]} (Path "v2.h5") Sample.fresh
     = (Raise (Exception "Version should be 1"),
        with_filename (Some "v2.h5") Sample.fresh)
  /\ filename Sample.fresh = None
  /\ filename (with_filename (Some "v2.h5") Sample.fresh) = Some "v2.h5".
Proof. repeat split; vm_compute; reflexivity. Qed.

(** C2 (amended): [read] raises "Version should be 1" when the version
    keyword differs from 1 and "Type should be 1" when the version is 1 and
    the type keyword differs from 1; when it does, the checksum, the optical
    properties, the emissivities, the mean opacities and the sublimation
    settings of the target are as before the call.  Given a path, [read] has
    recorded it as [filename] by then; given an open container, [filename] is
    as before too.  A [read] that succeeds saw both keywords equal to 1. *)
Theorem read_rejects_foreign_tags
    (store : gmap string TableSet) (arg : file_arg) (self : SphericalDust) (ts : TableSet) :
  container store arg = Some ts ->
  (forall version : kwval,
      keywords ts !! "version" = Some version -> ne_one version = true ->
      exists self' : SphericalDust,
        read store arg self = (Raise (Exception "Version should be 1"), self')
        /\ payload self' = payload self
        /\ filename self' = match arg with Path p => Some p | Handle _ => filename self end)
  /\ (forall version type : kwval,
      keywords ts !! "version" = Some version -> ne_one version = false ->
      keywords ts !! "type" = Some type -> ne_one type = true ->
      exists self' : SphericalDust,
        read store arg self = (Raise (Exception "Type should be 1"), self')
        /\ payload self' = payload self
        /\ filename self' = match arg with Path p => Some p | Handle _ => filename self end)
  /\ (forall self' : SphericalDust,
      read store arg self = (Ok tt, self') ->
      exists version type : kwval,
        keywords ts !! "version" = Some version /\ ne_one version = false
        /\ keywords ts !! "type" = Some type /\ ne_one type = false).
Proof.
  intros Hc.
  set (self0 := match arg with
                | Path p => with_filename (Some p) self
                | Handle _ => self
                end).
  assert (payload self0 = payload self) as Hp by (destruct arg; reflexivity).
  assert (filename self0 = match arg with Path p => Some p | Handle _ => filename self end)
    as Hf by (destruct arg; reflexivity).
  assert (forall k : result TableSet * SphericalDust -> outcome unit,
             k match arg with
               | Path p => match store !! p with
                           | None => (Raise (Exception ("File not found: " +:+ p)), self)
                           | Some ts0 => (Ok ts0, with_filename (Some p) self)
                           end
               | Handle ts0 => (Ok ts0, self)
               end = k (Ok ts, self0)) as Hopen.
  { intros k. subst self0. destruct arg as [p | ts0]; cbn in Hc.
    - rewrite Hc. reflexivity.
    - inversion Hc. reflexivity. }
  unfold read.
  rewrite (Hopen (fun opened => match opened with
                                | (Raise e, self1) => (Raise e, self1)
                                | (Ok ts1, self1) => _
                                end)).
  split; [| split].
  - intros version Hv Hne. exists self0. rewrite Hv, Hne. auto.
  - intros version type Hv Hne Ht Hnt. exists self0. rewrite Hv, Hne, Ht, Hnt. auto.
  - intros self' E.
    destruct (keywords ts !! "version") as [v |]; [| discriminate].
    destruct (ne_one v) eqn:Hv; [discriminate |].
    destruct (keywords ts !! "type") as [ty |]; [| discriminate].
    destruct (ne_one ty) eqn:Hty; [discriminate |].
    exists v, ty. auto.
Qed.

Lemma read_rejects_foreign_tags_witness :
  container {["v2.h5" := Sample.version2]} (Path "v2.h5") = Some Sample.version2
  /\ keywords Sample.version2 !! "version" = Some (KInt 2)
  /\ ne_one (KInt 2) = true
  /\ exists self' : SphericalDust,
      read {["v2.h5" := Sample.version2]} (Path "v2.h5") Sample.fresh
      = (Raise (Exception "Version should be 1"), self')
      /\ payload self' = payload Sample.fresh
      /\ filename self' = Some "v2.h5".
Proof.
  assert (container {["v2.h5" := Sample.version2]} (Path "v2.h5") = Some Sample.version2)
    as Hc by (vm_compute; reflexivity).
  assert (keywords Sample.version2 !! "version" = Some (KInt 2))
    as Hv by (vm_compute; reflexivity).
  split; [exact Hc |]. split; [exact Hv |]. split; [reflexivity |].
  exact (proj1 (read_rejects_foreign_tags _ (Path "v2.h5") Sample.fresh _ Hc)
           (KInt 2) Hv eq_refl).
Defined.






End DustModelClaims.


(** ** Loops, binds and arrays *)

Section Generic.

Lemma bind_Ok {A B : Type} (m : result A) (f : A -> result B) (b : B) :
  m ≫= f = Ok b -> exists a : A, m = Ok a /\ f a = Ok b.
Proof. destruct m as [a | e]; cbn; [eauto | discriminate]. Qed.

Ltac inv_bind H :=
  let a := fresh "a" in
  let Ha := fresh "Ha" in
  apply bind_Ok in H as (a & Ha & H).

Lemma foldM_app {A S : Type} (body : A -> S -> result S) (l1 l2 : list A) (s : S) :
  foldM body (l1 ++ l2) s = foldM body l1 s ≫= foldM body l2.
Proof.
  revert s. induction l1 as [| a l1 IH]; intros s; cbn; [reflexivity |].
  destruct (body a s) as [s' | e]; cbn; [apply IH | reflexivity].
Qed.

(** A loop over [range(n)] that returns establishes the invariant it
    preserves. *)
Lemma foldM_range_inv {S : Type} (body : nat -> S -> result S) (I : nat -> S -> Prop)
    (n : nat) (s0 s : S) :
  I 0 s0 ->
  (forall k s1 s2, k < n -> I k s1 -> body k s1 = Ok s2 -> I (Datatypes.S k) s2) ->
  foldM body (seq 0 n) s0 = Ok s ->
  I n s.
Proof.
  intros H0 Hstep. revert s.
  induction n as [| n IH]; intros s E.
  - cbn in E. inversion E; subst. exact H0.
  - rewrite seq_S, foldM_app in E. cbn in E.
    apply bind_Ok in E as (s1 & E1 & E2).
    apply bind_Ok in E2 as (s2 & E2 & E3). inversion E3; subst s2.
    apply (Hstep n s1); [lia | | exact E2].
    apply IH; [| exact E1]. intros k a b Hk. apply Hstep. lia.
Qed.

(** A loop over [range(n)] whose body returns under the invariant returns. *)
Lemma foldM_range_total {S : Type} (body : nat -> S -> result S) (I : nat -> S -> Prop)
    (n : nat) (s0 : S) :
  I 0 s0 ->
  (forall k s1, k < n -> I k s1 -> exists s2, body k s1 = Ok s2 /\ I (Datatypes.S k) s2) ->
  exists s : S, foldM body (seq 0 n) s0 = Ok s /\ I n s.
Proof.
  intros H0 Hstep.
  induction n as [| n IH].
  - exists s0. split; [reflexivity | exact H0].
  - destruct IH as (s1 & E1 & I1); [intros k a Hk; apply Hstep; lia |].
    destruct (Hstep n s1) as (s2 & E2 & I2); [lia | exact I1 |].
    exists s2. rewrite seq_S, foldM_app, E1. cbn. rewrite E2. split; [reflexivity | exact I2].
Qed.

Lemma mapM_Ok_length {A B : Type} (f : A -> result B) (l : list A) (k : list B) :
  mapM f l = Ok k -> length k = length l.
Proof.
  revert k. induction l as [| a l IH]; intros k E; cbn in E.
  - inversion E. reflexivity.
  - apply bind_Ok in E as (b & _ & E). apply bind_Ok in E as (k' & E' & E).
    inversion E; subst k. cbn. f_equal. apply IH. exact E'.
Qed.

Lemma broadcast_lists_same (f : float -> float -> float) (xs ys : list float) :
  length xs = length ys -> broadcast_lists f xs ys = Ok (zip_with f xs ys).
Proof. intros E. unfold broadcast_lists. rewrite E, Nat.eqb_refl. reflexivity. Qed.

Lemma field_length (k : nat) (table : list (list float)) :
  length (field k table) = length table.
Proof. unfold field. apply length_map. Qed.

(** *** Columns of a matrix *)

Lemma shaped_zeros (n_rows n : nat) : shaped n_rows n (zeros n_rows n).
Proof.
  unfold shaped, zeros. cbn. split; [reflexivity |]. split; [apply length_replicate |].
  apply Forall_replicate. apply length_replicate.
Qed.

Lemma shaped_put_column (n_rows n i : nat) (m : matrix) (xs : list float) :
  shaped n_rows n m -> length xs = n_rows -> shaped n_rows n (put_column m i xs).
Proof.
  intros (Hc & Hr & Hf) Hx. unfold shaped, put_column. cbn.
  split; [exact Hc |]. split; [rewrite length_zip_with; lia |].
  clear Hr Hx. revert xs. induction Hf as [| r rs Hr Hf IH]; intros [| x xs]; cbn;
    constructor; [rewrite length_insert; exact Hr | apply IH].
Qed.

Lemma get_put_column (n_rows n i : nat) (m : matrix) (xs : list float) :
  shaped n_rows n m -> length xs = n_rows -> i < n ->
  get_column (put_column m i xs) i = Ok xs.
Proof.
  intros (Hc & Hr & Hf) Hx Hi. unfold get_column, put_column. cbn [n_cols rows].
  rewrite Hc. pose proof Hi as Hi'. apply Nat.ltb_lt in Hi' as ->. f_equal.
  rewrite <- Hr in Hx. clear Hr Hc. revert xs Hx.
  induction Hf as [| r rs Hr Hf IH]; intros [| x xs] Hx; cbn in *; try discriminate;
    [reflexivity |].
  rewrite IH by lia. f_equal.
  rewrite nth_lookup, list_lookup_insert_eq by lia.
  reflexivity.
Qed.

Lemma get_put_column_ne (n_rows n i i' : nat) (m : matrix) (xs : list float) :
  shaped n_rows n m -> length xs = n_rows -> i <> i' ->
  get_column (put_column m i xs) i' = get_column m i'.
Proof.
  intros (Hc & Hr & Hf) Hx Hi. unfold get_column, put_column. cbn [n_cols rows].
  destruct (i' <? n_cols m); [| reflexivity]. f_equal.
  rewrite <- Hr in Hx. clear Hr Hc. revert xs Hx.
  induction Hf as [| r rs Hr Hf IH]; intros [| x xs] Hx; cbn in *; try discriminate;
    [reflexivity |].
  rewrite IH by lia. f_equal.
  rewrite !nth_lookup, list_lookup_insert_ne by exact Hi. reflexivity.
Qed.

End Generic.

(** ** [SimpleSphericalDust] *)

Section SimpleLoader.

Context `{Extern}.

Ltac solve_length :=
  repeat first [ rewrite length_zip_with | rewrite length_map | rewrite field_length
               | rewrite length_replicate ];
  lia.

(** On a scalar cosine and two arrays of one length, [henyey_greenstein]
    returns three arrays of that length and the scalar 0. *)
Lemma hg_arrays (m : float) (g p : list float) (n : nat) :
  length g = n -> length p = n ->
  exists x1 x2 x3 : list float,
    henyey_greenstein (Scalar m) (Array g) (Array p)
    = Ok (Array x1, Array x2, Array x3, Scalar 0%float)
    /\ length x1 = n /\ length x2 = n /\ length x3 = n.
Proof.
  intros Hg Hp. unfold henyey_greenstein.
  cbn [py_mul py_add py_sub py_div py_neg py_pow15 lit0 lit1 lit2 ndarray_number].
  repeat (cbn [broadcast2 mbind result_bind ufunc];
          rewrite broadcast_lists_same by solve_length).
  cbn [broadcast2 mbind result_bind ufunc mret result_ret].
  eexists _, _, _. split; [reflexivity |].
  repeat split; solve_length.
Qed.

Lemma linspace_length (a b : float) (n : nat) : length (linspace a b n) = n.
Proof.
  destruct n as [| [| n]]; [reflexivity | reflexivity |].
  unfold linspace. rewrite length_insert, length_map, length_seq. reflexivity.
Qed.

Lemma set_column_array (n_rows n i : nat) (m : matrix) (xs : list float) :
  shaped n_rows n m -> i < n -> length xs = n_rows ->
  set_column m i (Array xs) = Ok (put_column m i xs).
Proof.
  intros (Hc & Hr & _) Hi Hx. unfold set_column.
  rewrite Hc. apply Nat.ltb_lt in Hi as ->. cbn [negb].
  rewrite Hx, Hr, Nat.eqb_refl. reflexivity.
Qed.

Lemma set_column_scalar (n_rows n i : nat) (m : matrix) (x : float) :
  shaped n_rows n m -> i < n ->
  set_column m i (Scalar x) = Ok (put_column m i (replicate n_rows x)).
Proof.
  intros (Hc & Hr & _) Hi. unfold set_column.
  rewrite Hc. apply Nat.ltb_lt in Hi as ->. cbn [negb]. rewrite Hr. reflexivity.
Qed.

Lemma SphericalDust_init_no_args (store : gmap string TableSet) :
  SphericalDust_init store [] = Ok Sample.fresh.
Proof. reflexivity. Qed.

(** One turn of the loop of [SimpleSphericalDust]. *)
Lemma simple_column_step (mu_ g p : list float) (n k : nat) (op : OpticalProperties)
    (m1 m2 m3 m4 : matrix) :
  length g = n -> length p = n -> k < length mu_ ->
  mu op = Some (Array mu_) ->
  shaped n (length mu_) m1 -> shaped n (length mu_) m2 ->
  shaped n (length mu_) m3 -> shaped n (length mu_) m4 ->
  (forall i, i < k -> hg_column mu_ g p m1 m2 m3 m4 i) ->
  exists m1' m2' m3' m4' : matrix,
    simple_column (Array g) (Array p) k (with_P m1 m2 m3 m4 op)
    = Ok (with_P m1' m2' m3' m4' op)
    /\ shaped n (length mu_) m1' /\ shaped n (length mu_) m2'
    /\ shaped n (length mu_) m3' /\ shaped n (length mu_) m4'
    /\ forall i, i < S k -> hg_column mu_ g p m1' m2' m3' m4' i.
Proof.
  intros Hg Hp Hk Hmu S1 S2 S3 S4 Hdone.
  destruct (lookup_lt_is_Some_2 mu_ k Hk) as [mu_k Hmu_k].
  destruct (hg_arrays mu_k g p n Hg Hp) as (x1 & x2 & x3 & Ehg & L1 & L2 & L3).
  exists (put_column m1 k x1), (put_column m2 k x2), (put_column m3 k x3),
    (put_column m4 k (replicate n 0%float)).
  split.
  - unfold simple_column. cbn [mu with_P]. rewrite Hmu. cbn [mbind result_bind np_getitem].
    rewrite Hmu_k. cbn [mbind result_bind]. rewrite Ehg. cbn [mbind result_bind].
    unfold scattering_matrix. cbn [P1 P2 P3 P4 with_P mbind result_bind].
    rewrite (set_column_array n _ k m1 x1 S1 Hk L1). cbn [mbind result_bind].
    rewrite (set_column_array n _ k m2 x2 S2 Hk L2). cbn [mbind result_bind].
    rewrite (set_column_array n _ k m3 x3 S3 Hk L3). cbn [mbind result_bind].
    rewrite (set_column_scalar n _ k m4 0%float S4 Hk). cbn [mbind result_bind].
    reflexivity.
  - assert (length (replicate n 0%float) = n) as L4 by apply length_replicate.
    repeat (split; [apply shaped_put_column; assumption |]).
    intros i Hi. destruct (decide (i = k)) as [-> | Hne].
    + exists mu_k, x1, x2, x3. split; [exact Hmu_k |]. split; [exact Ehg |].
      rewrite (get_put_column n _ k m1 x1 S1 L1 Hk), (get_put_column n _ k m2 x2 S2 L2 Hk),
        (get_put_column n _ k m3 x3 S3 L3 Hk), (get_put_column n _ k m4 _ S4 L4 Hk), Hg.
      repeat split.
    + destruct (Hdone i) as (mu_i & y1 & y2 & y3 & Hi1 & Hi2 & C1 & C2 & C3 & C4); [lia |].
      exists mu_i, y1, y2, y3. split; [exact Hi1 |]. split; [exact Hi2 |].
      rewrite (get_put_column_ne n _ k i m1 x1 S1 L1), (get_put_column_ne n _ k i m2 x2 S2 L2),
        (get_put_column_ne n _ k i m3 x3 S3 L3), (get_put_column_ne n _ k i m4 _ S4 L4)
        by congruence.
      repeat split; assumption.
Qed.

Lemma linspace_lookup (a b : float) (n k : nat) :
  k < n - 1 ->
  linspace a b n !! k
  = Some (float_of_nat k * ((b - a) / float_of_nat (n - 1)) + a)%float.
Proof.
  intros Hk. destruct n as [| [| n]]; [lia | lia |].
  unfold linspace.
  rewrite list_lookup_insert_ne by lia.
  rewrite list_lookup_fmap, lookup_seq_lt by lia.
  reflexivity.
Qed.

Lemma linspace_last (a b : float) (n : nat) :
  1 < n -> linspace a b n !! (n - 1) = Some b.
Proof.
  intros Hn. destruct n as [| [| n]]; [lia | lia |].
  unfold linspace. apply list_lookup_insert_eq.
  rewrite length_map, length_seq. lia.
Qed.

Lemma loadtxt_opens (fs : gmap string textfile) (name : string) (usecols : list nat)
    (table : list (list float)) :
  loadtxt fs name usecols = Ok table -> exists f : textfile, open_file fs name = Ok f.
Proof.
  unfold loadtxt. intros E. destruct (open_file fs name) as [f |]; [eauto | discriminate].
Qed.

Lemma squeeze_array (xs : list float) : length xs <> 1 -> squeeze xs = Array xs.
Proof. destruct xs as [| x [| y xs]]; cbn; intros Hn; [reflexivity | lia | reflexivity]. Qed.

Lemma squeeze_scalar (xs : list float) :
  length xs = 1 -> exists x : float, squeeze xs = Scalar x.
Proof. destruct xs as [| x [| y xs]]; cbn; intros Hn; try discriminate. eauto. Qed.

Lemma getfield_array (k : nat) (table : list (list float)) :
  length table <> 1 -> getfield k table = Array (field k table).
Proof. intros Hn. apply squeeze_array. rewrite field_length. exact Hn. Qed.

#[local] Opaque linspace.

(** A table of other than one row loads. *)
Lemma SimpleSphericalDust_ok (fs : gmap string textfile) (path : string)
    (dustfile : list (list float)) :
  loadtxt fs path [0; 1; 2; 3; 4; 5] = Ok dustfile ->
  length dustfile <> 1 ->
  exists (d : SphericalDust) (m1 m2 m3 m4 : matrix),
    SimpleSphericalDust fs path = Ok d
    /\ mu (optical_properties d) = Some (Array (linspace (-1) 1 100))
    /\ nu (optical_properties d)
       = Some (Array (map (fun w => (c / w * 1e4)%float) (field 0 dustfile)))
    /\ albedo (optical_properties d)
       = Some (Array (zip_with PrimFloat.div (field 2 dustfile) (field 1 dustfile)))
    /\ chi (optical_properties d) = Some (Array (field 3 dustfile))
    /\ P1 (optical_properties d) = Some m1
    /\ P2 (optical_properties d) = Some m2
    /\ P3 (optical_properties d) = Some m3
    /\ P4 (optical_properties d) = Some m4
    /\ shaped (length dustfile) 100 m1 /\ shaped (length dustfile) 100 m2
    /\ shaped (length dustfile) 100 m3 /\ shaped (length dustfile) 100 m4
    /\ forall i : nat, i < 100 ->
         hg_column (linspace (-1) 1 100) (field 4 dustfile) (field 5 dustfile)
           m1 m2 m3 m4 i.
Proof.
  intros Hload Hrows.
  destruct (loadtxt_opens _ _ _ _ Hload) as [f Hopen].
  set (n := length dustfile).
  set (mu_ := linspace (-1) 1 100).
  assert (length mu_ = 100) as Lmu by apply linspace_length.
  set (op0 := {| nu := Some (Array (map (fun w => (c / w * 1e4)%float) (field 0 dustfile)));
                 mu := Some (Array mu_);
                 albedo := Some (Array (zip_with PrimFloat.div (field 2 dustfile)
                                          (field 1 dustfile)));
                 chi := Some (Array (field 3 dustfile));
                 P1 := None; P2 := None; P3 := None; P4 := None |}).
  destruct (foldM_range_total
              (simple_column (Array (field 4 dustfile)) (Array (field 5 dustfile)))
              (fun k op =>
                 exists m1 m2 m3 m4 : matrix,
                   op = with_P m1 m2 m3 m4 op0
                   /\ shaped n 100 m1 /\ shaped n 100 m2
                   /\ shaped n 100 m3 /\ shaped n 100 m4
                   /\ forall i, i < k ->
                        hg_column mu_ (field 4 dustfile) (field 5 dustfile) m1 m2 m3 m4 i)
              100 (with_P (zeros n 100) (zeros n 100) (zeros n 100) (zeros n 100) op0))
    as (op & Efold & m1 & m2 & m3 & m4 & -> & S1 & S2 & S3 & S4 & Hcols).
  - exists (zeros n 100), (zeros n 100), (zeros n 100), (zeros n 100).
    split; [reflexivity |].
    repeat (split; [apply shaped_zeros |]). intros i Hi. lia.
  - intros k op Hk (m1 & m2 & m3 & m4 & -> & S1 & S2 & S3 & S4 & Hcols).
    rewrite <- Lmu in S1, S2, S3, S4, Hk.
    destruct (simple_column_step mu_ (field 4 dustfile) (field 5 dustfile) n k op0
                m1 m2 m3 m4) as (m1' & m2' & m3' & m4' & E & T1 & T2 & T3 & T4 & Hc');
      try assumption; try apply field_length; [reflexivity |].
    exists (with_P m1' m2' m3' m4' op0). split; [exact E |].
    rewrite Lmu in T1, T2, T3, T4.
    exists m1', m2', m3', m4'. repeat (split; [first [reflexivity | assumption] |]).
    exact Hc'.
  - exists (with_optical_properties (with_P m1 m2 m3 m4 op0)
              (with_md5 (KStr (md5_hexdigest f)) Sample.fresh)), m1, m2, m3, m4.
    split.
    + unfold SimpleSphericalDust.
      rewrite SphericalDust_init_no_args. cbn [mbind result_bind].
      rewrite Hload. cbn [mbind result_bind]. rewrite !getfield_array by exact Hrows.
      cbn [mbind result_bind broadcast2 ufunc].
      rewrite broadcast_lists_same by (rewrite !field_length; reflexivity).
      cbn [mbind result_bind]. rewrite Hopen. cbn [mbind result_bind].
      unfold update_optical_properties, initialize_scattering_matrix.
      cbn [optical_properties with_optical_properties with_md5 with_mu with_nu with_albedo
             with_chi nu mu albedo chi P1 P2 P3 P4 np_len mbind result_bind].
      fold mu_. rewrite Lmu, length_map, field_length. fold n.
      match goal with
      | |- context [foldM _ _ ?s0] =>
          change s0 with (with_P (zeros n 100) (zeros n 100) (zeros n 100) (zeros n 100) op0)
      end.
      rewrite Efold. reflexivity.
    + repeat (split; [first [reflexivity | assumption] |]). exact Hcols.
Qed.

(** A one-row table comes out of [np.loadtxt] as zero-dimensional fields, on
    which the allocation of the matrices raises. *)
Lemma SimpleSphericalDust_one_row (fs : gmap string textfile) (path : string)
    (dustfile : list (list float)) :
  loadtxt fs path [0; 1; 2; 3; 4; 5] = Ok dustfile ->
  length dustfile = 1 ->
  SimpleSphericalDust fs path = Raise (TypeError "len() of unsized object").
Proof.
  intros Hload Hone.
  destruct (loadtxt_opens _ _ _ _ Hload) as [f Hopen].
  unfold SimpleSphericalDust.
  rewrite SphericalDust_init_no_args. cbn [mbind result_bind].
  rewrite Hload. cbn [mbind result_bind]. unfold getfield.
  destruct (squeeze_scalar (field 0 dustfile)) as [w ->]; [rewrite field_length; exact Hone |].
  destruct (squeeze_scalar (field 1 dustfile)) as [e ->]; [rewrite field_length; exact Hone |].
  destruct (squeeze_scalar (field 2 dustfile)) as [a ->]; [rewrite field_length; exact Hone |].
  cbn [mbind result_bind broadcast2 ufunc]. rewrite Hopen. reflexivity.
Qed.

(** What a [SimpleSphericalDust] call that returned has built. *)
Lemma SimpleSphericalDust_inv (fs : gmap string textfile) (path : string)
    (d : SphericalDust) :
  SimpleSphericalDust fs path = Ok d ->
  exists (dustfile : list (list float)) (m1 m2 m3 m4 : matrix),
    loadtxt fs path [0; 1; 2; 3; 4; 5] = Ok dustfile
    /\ length dustfile <> 1
    /\ mu (optical_properties d) = Some (Array (linspace (-1) 1 100))
    /\ nu (optical_properties d)
       = Some (Array (map (fun w => (c / w * 1e4)%float) (field 0 dustfile)))
    /\ albedo (optical_properties d)
       = Some (Array (zip_with PrimFloat.div (field 2 dustfile) (field 1 dustfile)))
    /\ chi (optical_properties d) = Some (Array (field 3 dustfile))
    /\ P1 (optical_properties d) = Some m1
    /\ P2 (optical_properties d) = Some m2
    /\ P3 (optical_properties d) = Some m3
    /\ P4 (optical_properties d) = Some m4
    /\ shaped (length dustfile) 100 m1 /\ shaped (length dustfile) 100 m2
    /\ shaped (length dustfile) 100 m3 /\ shaped (length dustfile) 100 m4
    /\ forall i : nat, i < 100 ->
         hg_column (linspace (-1) 1 100) (field 4 dustfile) (field 5 dustfile)
           m1 m2 m3 m4 i.
Proof.
  intros E.
  assert (exists dustfile, loadtxt fs path [0; 1; 2; 3; 4; 5] = Ok dustfile)
    as [dustfile Hload].
  { unfold SimpleSphericalDust in E. rewrite SphericalDust_init_no_args in E.
    cbn [mbind result_bind] in E.
    destruct (loadtxt fs path [0; 1; 2; 3; 4; 5]) as [t |]; [eauto | discriminate]. }
  destruct (Nat.eq_dec (length dustfile) 1) as [Hone | Hrows].
  { rewrite (SimpleSphericalDust_one_row _ _ _ Hload Hone) in E. discriminate. }
  destruct (SimpleSphericalDust_ok _ _ _ Hload Hrows)
    as (d' & m1 & m2 & m3 & m4 & E' & Hall).
  rewrite E in E'. inversion E'; subst d'.
  exists dustfile, m1, m2, m3, m4. split; [exact Hload |]. split; [exact Hrows |].
  exact Hall.
Qed.

(** C7: whenever [SimpleSphericalDust] returns a model, the table
    [np.loadtxt] parsed has other than one row, the model's [mu] is
    [np.linspace(-1, 1, 100)] (100 cosines from -1 to 1, the [k]-th being
    [k * (2 / 99) - 1]), its albedo is [c_sca / c_ext] row by row, its [chi]
    is the table's [chi] column, and its matrices hold in column [i] what
    [henyey_greenstein(mu[i], g, p_lin_max)] returns for the table's [g] and
    [p_lin_max] columns; and it returns a model for every parsed table of
    two rows or more. *)
Theorem SimpleSphericalDust_table (fs : gmap string textfile) (path : string) :
  (forall d : SphericalDust,
      SimpleSphericalDust fs path = Ok d ->
      exists (dustfile : list (list float)) (m1 m2 m3 m4 : matrix),
        loadtxt fs path [0; 1; 2; 3; 4; 5] = Ok dustfile
        /\ length dustfile <> 1
        /\ mu (optical_properties d) = Some (Array (linspace (-1) 1 100))
        /\ nu (optical_properties d)
           = Some (Array (map (fun w => (c / w * 1e4)%float) (field 0 dustfile)))
        /\ albedo (optical_properties d)
           = Some (Array (zip_with PrimFloat.div (field 2 dustfile) (field 1 dustfile)))
        /\ chi (optical_properties d) = Some (Array (field 3 dustfile))
        /\ P1 (optical_properties d) = Some m1
        /\ P2 (optical_properties d) = Some m2
        /\ P3 (optical_properties d) = Some m3
        /\ P4 (optical_properties d) = Some m4
        /\ shaped (length dustfile) 100 m1 /\ shaped (length dustfile) 100 m2
        /\ shaped (length dustfile) 100 m3 /\ shaped (length dustfile) 100 m4
        /\ forall i : nat, i < 100 ->
             hg_column (linspace (-1) 1 100) (field 4 dustfile) (field 5 dustfile)
               m1 m2 m3 m4 i)
  /\ (forall dustfile : list (list float),
      loadtxt fs path [0; 1; 2; 3; 4; 5] = Ok dustfile ->
      2 <= length dustfile ->
      exists d : SphericalDust, SimpleSphericalDust fs path = Ok d)
  /\ length (linspace (-1) 1 100) = 100
  /\ linspace (-1) 1 100 !! 0 = Some (-1)%float
  /\ linspace (-1) 1 100 !! 99 = Some 1%float
  /\ forall k : nat, k < 99 ->
       linspace (-1) 1 100 !! k
       = Some (float_of_nat k * ((1 - -1) / float_of_nat 99) + -1)%float.
Proof.
  split; [| split].
  - intros d E. exact (SimpleSphericalDust_inv _ _ _ E).
  - intros dustfile Hload Hrows.
    destruct (SimpleSphericalDust_ok _ _ _ Hload) as (d & _ & _ & _ & _ & E & _); [lia |].
    exists d. exact E.
  - split; [apply linspace_length |].
    split; [rewrite linspace_lookup by lia; vm_compute; reflexivity |].
    split; [apply (linspace_last (-1) 1 100); lia |].
    intros k Hk. apply (linspace_lookup (-1) 1 100 k). lia.
Qed.

End SimpleLoader.

Lemma SimpleSphericalDust_table_witness :
  exists d : SphericalDust,
    @SimpleSphericalDust Sample.extern Sample.simple_files "dust.dat" = Ok d
    /\ exists (dustfile : list (list float)) (m1 : matrix),
        loadtxt Sample.simple_files "dust.dat" [0; 1; 2; 3; 4; 5] = Ok dustfile
        /\ albedo (optical_properties d)
           = Some (Array (zip_with PrimFloat.div (field 2 dustfile) (field 1 dustfile)))
        /\ P1 (optical_properties d) = Some m1
        /\ shaped (length dustfile) 100 m1.
Proof.
  eexists. split; [vm_compute; reflexivity |].
  destruct (proj1 (@SimpleSphericalDust_table Sample.extern Sample.simple_files "dust.dat")
              _ ltac:(vm_compute; reflexivity))
    as (dustfile & m1 & m2 & m3 & m4 & Hload & _ & _ & _ & Ha & _ & E1 & _ & _ & _ & S1 & _).
  exists dustfile, m1.
  split; [exact Hload |]. split; [exact Ha |]. split; [exact E1 | exact S1].
Defined.

(** ** [MieXDust] *)

Section MieXLoader.

Context `{Extern}.

Lemma mask_assign_length (xs : list float) (mask : list bool) (vals : list float) :
  length (mask_assign xs mask vals) = length xs.
Proof.
  revert mask vals. induction xs as [| x xs IH]; intros [| b mask] vals; cbn;
    try reflexivity.
  destruct b; [destruct vals |]; cbn; rewrite IH; reflexivity.
Qed.

Lemma mask_assign_keeps (xs : list float) (mask : list bool) (vals : list float)
    (j : nat) (x : float) :
  xs !! j = Some x -> mask !! j = Some false ->
  mask_assign xs mask vals !! j = Some x.
Proof.
  revert mask vals j. induction xs as [| y xs IH]; intros [| b mask] vals j Hx Hm;
    try discriminate.
  destruct j as [| j]; cbn in *.
  - inversion Hm; subst b. exact Hx.
  - destruct b; [destruct vals |]; cbn; apply IH; assumption.
Qed.

Lemma np_mask_getitem_Ok (xs : list float) (mask : list bool) (ys : list float) :
  np_mask_getitem xs mask = Ok ys -> ys = mask_select xs mask /\ length xs = length mask.
Proof.
  unfold np_mask_getitem. destruct (Nat.eqb_spec (length xs) (length mask)) as [E | E];
    intros Hy; inversion Hy. split; [reflexivity | exact E].
Qed.

Lemma np_mask_setitem_Ok (xs : list float) (mask : list bool) (vals ys : list float) :
  np_mask_setitem xs mask vals = Ok ys ->
  length ys = length xs
  /\ forall (j : nat) (x : float),
       xs !! j = Some x -> mask !! j = Some false -> ys !! j = Some x.
Proof.
  unfold np_mask_setitem.
  destruct (negb (length xs =? length mask)); [discriminate |].
  destruct (length vals =? count_true mask).
  - intros E; inversion E. split; [apply mask_assign_length |].
    intros j x. apply mask_assign_keeps.
  - destruct vals as [| v [| v' vals]]; try discriminate.
    intros E; inversion E. split; [apply mask_assign_length |].
    intros j x. apply mask_assign_keeps.
Qed.

(** What [nan_repair] returns is repaired. *)
Lemma nan_repair_repaired (quantity : string) (wav raw final : list float)
    (warnings : list string) :
  nan_repair quantity wav raw = Ok (final, warnings) ->
  repaired quantity wav raw final warnings.
Proof.
  unfold nan_repair, repaired. destruct (any_isnan raw) eqn:Hnan.
  - intros E.
    apply bind_Ok in E as (x & Ex & E).
    apply bind_Ok in E as (y & Ey & E).
    apply bind_Ok in E as (xval & Exv & E).
    apply bind_Ok in E as (fixed & Efix & E).
    apply bind_Ok in E as (values & Eset & E).
    destruct (any_isnan values) eqn:Hfinal; [discriminate |].
    inversion E; subst final warnings.
    apply np_mask_getitem_Ok in Ex as [-> _].
    apply np_mask_getitem_Ok in Ey as [-> _].
    apply np_mask_getitem_Ok in Exv as [-> _].
    destruct (np_mask_setitem_Ok _ _ _ _ Eset) as [Hlen Hkeep].
    split; [exact Hfinal |]. split; [exact Hlen |].
    exists fixed. split; [exact Efix |]. split; [exact Eset |]. split; [| reflexivity].
    intros j x0 Hj Hx0. apply Hkeep; [exact Hj |].
    rewrite list_lookup_fmap, Hj. cbn. rewrite Hx0. reflexivity.
  - intros E; inversion E; subst. repeat split. exact Hnan.
Qed.

(** The repair of one column leaves the other columns and the shape as they
    were. *)
Lemma nan_repair_column_spec (quantity : string) (wav : list float) (i n_rows n : nat)
    (m m' : matrix) (warnings : list string) :
  shaped n_rows n m ->
  nan_repair_column quantity wav i m = Ok (m', warnings) ->
  shaped n_rows n m'
  /\ (exists raw final : list float,
        get_column m i = Ok raw /\ get_column m' i = Ok final
        /\ repaired quantity wav raw final warnings)
  /\ forall i' : nat, i' <> i -> get_column m' i' = get_column m i'.
Proof.
  intros Hs E. unfold nan_repair_column in E.
  apply bind_Ok in E as (raw & Eraw & E).
  apply bind_Ok in E as ([final w] & Erep & E).
  inversion E; subst m' warnings; clear E.
  pose proof (nan_repair_repaired _ _ _ _ _ Erep) as Hrep.
  assert (i < n) as Hi.
  { unfold get_column in Eraw. destruct Hs as (Hc & _).
    destruct (Nat.ltb_spec i (n_cols m)); [lia | discriminate]. }
  assert (length raw = n_rows) as Hlen.
  { unfold get_column in Eraw. destruct (i <? n_cols m); inversion Eraw.
    rewrite length_map. apply Hs. }
  destruct (any_isnan raw) eqn:Hnan.
  - assert (length final = n_rows) as Hlen' by (destruct Hrep as (_ & -> & _); exact Hlen).
    split; [apply shaped_put_column; assumption |]. split.
    + exists raw, final. split; [exact Eraw |].
      split; [apply (get_put_column n_rows n); assumption | exact Hrep].
    + intros i' Hne. apply (get_put_column_ne n_rows n); [assumption | assumption | congruence].
  - split; [exact Hs |]. split; [| reflexivity].
    exists raw, final. split; [exact Eraw |].
    split; [| exact Hrep].
    unfold repaired in Hrep. rewrite Hnan in Hrep. destruct Hrep as (_ & _ & -> & _).
    exact Eraw.
Qed.

Lemma shaped_set_item (n_rows n j i : nat) (m m' : matrix) (x : float) :
  shaped n_rows n m -> set_item m j i x = Ok m' -> shaped n_rows n m'.
Proof.
  intros (Hc & Hr & Hf) E. unfold set_item in E.
  destruct (rows m !! j) as [r |] eqn:Hj; [| discriminate].
  destruct (i <? n_cols m); inversion E; subst m'. unfold shaped. cbn.
  split; [exact Hc |]. split; [rewrite length_insert; exact Hr |].
  apply Forall_insert; [exact Hf |]. rewrite length_insert.
  apply (Forall_lookup_1 _ _ _ _ Hf Hj).
Qed.

Lemma drop_cons_inv {A : Type} (p : nat) (F : list A) (ln : A) (f : list A) :
  drop p F = ln :: f -> F !! p = Some ln /\ f = drop (S p) F.
Proof.
  revert F. induction p as [| p IH]; intros [| a F] E; try discriminate.
  - cbn in E. inversion E; subst. split; [reflexivity |]. cbn. rewrite drop_0. reflexivity.
  - cbn in E. apply IH in E as [E1 E2]. split; assumption.
Qed.

Lemma readline_nonblank (f f' : textfile) (ln : line) :
  readline f = (ln, f') -> ln <> [] -> f = ln :: f'.
Proof.
  destruct f as [| l rest]; cbn; intros E Hne; inversion E; subst; [contradiction | reflexivity].
Qed.

Lemma check_wavelength_Ok (name : string) (f f' : textfile) (w : float) :
  check_wavelength name f w = Ok f' ->
  exists x : float, f = [Num x] :: f' /\ PrimFloat.eqb x w = true.
Proof.
  unfold check_wavelength. destruct (readline f) as [ln rest] eqn:Er. intros E.
  apply bind_Ok in E as (x & Ex & E).
  destruct ln as [| [x0 |] [| t ln]]; try discriminate. inversion Ex; subst x0.
  destruct (PrimFloat.eqb x w) eqn:Eq; cbn in E; [| discriminate].
  inversion E; subst rest. exists x. split; [| exact Eq].
  apply readline_nonblank; [exact Er | discriminate].
Qed.

Lemma read_element_Ok (n_rows n j i : nat) (f f' : textfile) (m m' : matrix) :
  shaped n_rows n m ->
  read_element f m j i = Ok (f', m') ->
  shaped n_rows n m' /\ exists ln : line, f = ln :: f'.
Proof.
  intros Hs. unfold read_element. destruct (readline f) as [ln rest] eqn:Er. intros E.
  apply bind_Ok in E as (x & Ex & E).
  apply bind_Ok in E as (m1 & Em & E). inversion E; subst rest m1.
  split; [exact (shaped_set_item _ _ _ _ _ _ _ Hs Em) |].
  exists ln. apply readline_nonblank; [exact Er |].
  intros ->. discriminate.
Qed.

(** One turn of the inner reading loop moves each file on by one line. *)
Lemma miex_read_row_step (F11 F12 F33 F34 : textfile) (n_rows n j i p : nat)
    (s s' : MieXState) :
  cursors F11 F12 F33 F34 p s -> matrices_shaped n_rows n s ->
  miex_read_row j i s = Ok s' ->
  cursors F11 F12 F33 F34 (S p) s' /\ matrices_shaped n_rows n s'.
Proof.
  intros (C1 & C2 & C3 & C4) (S1 & S2 & S3 & S4) E. unfold miex_read_row in E.
  apply bind_Ok in E as ([g1 a1] & E1 & E).
  apply bind_Ok in E as ([g2 a2] & E2 & E).
  apply bind_Ok in E as ([g3 a3] & E3 & E).
  apply bind_Ok in E as ([g4 a4] & E4 & E).
  inversion E; subst s'; clear E.
  destruct (read_element_Ok _ _ _ _ _ _ _ _ S1 E1) as (T1 & l1 & D1).
  destruct (read_element_Ok _ _ _ _ _ _ _ _ S2 E2) as (T2 & l2 & D2).
  destruct (read_element_Ok _ _ _ _ _ _ _ _ S3 E3) as (T3 & l3 & D3).
  destruct (read_element_Ok _ _ _ _ _ _ _ _ S4 E4) as (T4 & l4 & D4).
  rewrite C1 in D1. rewrite C2 in D2. rewrite C3 in D3. rewrite C4 in D4.
  apply drop_cons_inv in D1 as [_ D1]. apply drop_cons_inv in D2 as [_ D2].
  apply drop_cons_inv in D3 as [_ D3]. apply drop_cons_inv in D4 as [_ D4].
  split; [unfold cursors | unfold matrices_shaped]; cbn; auto.
Qed.

Lemma miex_read_rows (F11 F12 F33 F34 : textfile) (n_rows n j k p : nat)
    (s s' : MieXState) :
  cursors F11 F12 F33 F34 p s -> matrices_shaped n_rows n s ->
  foldM (miex_read_row j) (seq 0 k) s = Ok s' ->
  cursors F11 F12 F33 F34 (p + k) s' /\ matrices_shaped n_rows n s'.
Proof.
  intros C Hsh E.
  apply (foldM_range_inv (miex_read_row j)
           (fun i t => cursors F11 F12 F33 F34 (p + i) t /\ matrices_shaped n_rows n t)
           k s s'); [| | exact E].
  - rewrite Nat.add_0_r. split; assumption.
  - intros i t t' _ [Ct St] Et. rewrite Nat.add_succ_r.
    exact (miex_read_row_step _ _ _ _ _ _ _ _ _ _ _ Ct St Et).
Qed.

(** One turn of the outer reading loop: the four header records of block [j]
    state [wav[j]], and each file moves on by one block. *)
Lemma miex_read_block_step (F11 F12 F33 F34 : textfile) (wav : list float)
    (n_rows n_mu j : nat) (s s' : MieXState) :
  cursors F11 F12 F33 F34 (1 + j * (n_mu + 1)) s -> matrices_shaped n_rows n_mu s ->
  miex_read_block wav n_mu j s = Ok s' ->
  cursors F11 F12 F33 F34 (1 + S j * (n_mu + 1)) s'
  /\ matrices_shaped n_rows n_mu s'
  /\ wavelength_checked wav n_mu F11 j /\ wavelength_checked wav n_mu F12 j
  /\ wavelength_checked wav n_mu F33 j /\ wavelength_checked wav n_mu F34 j.
Proof.
  intros (C1 & C2 & C3 & C4) Hsh E. unfold miex_read_block in E.
  apply bind_Ok in E as (w & Ew & E).
  destruct (wav !! j) as [w' |] eqn:Hw; inversion Ew; subst w'.
  apply bind_Ok in E as (g1 & E1 & E).
  apply bind_Ok in E as (g2 & E2 & E).
  apply bind_Ok in E as (g3 & E3 & E).
  apply bind_Ok in E as (g4 & E4 & E).
  apply check_wavelength_Ok in E1 as (x1 & D1 & Q1).
  apply check_wavelength_Ok in E2 as (x2 & D2 & Q2).
  apply check_wavelength_Ok in E3 as (x3 & D3 & Q3).
  apply check_wavelength_Ok in E4 as (x4 & D4 & Q4).
  rewrite C1 in D1. rewrite C2 in D2. rewrite C3 in D3. rewrite C4 in D4.
  apply drop_cons_inv in D1 as [L1 D1]. apply drop_cons_inv in D2 as [L2 D2].
  apply drop_cons_inv in D3 as [L3 D3]. apply drop_cons_inv in D4 as [L4 D4].
  match type of E with
  | foldM _ _ ?s0 = _ =>
      destruct (miex_read_rows F11 F12 F33 F34 n_rows n_mu j n_mu
                  (S (1 + j * (n_mu + 1))) s0 s') as [C' S'];
        [unfold cursors; cbn; auto | exact Hsh | exact E |]
  end.
  split.
  { replace (1 + S j * (n_mu + 1)) with (S (1 + j * (n_mu + 1)) + n_mu) by lia. exact C'. }
  split; [exact S' |].
  unfold wavelength_checked, header_record.
  split; [exists x1, w; auto |]. split; [exists x2, w; auto |].
  split; [exists x3, w; auto | exists x4, w; auto].
Qed.

Lemma miex_read_blocks (F11 F12 F33 F34 : textfile) (wav : list float)
    (n_rows n_mu k : nat) (s s' : MieXState) :
  cursors F11 F12 F33 F34 1 s -> matrices_shaped n_rows n_mu s ->
  foldM (miex_read_block wav n_mu) (seq 0 k) s = Ok s' ->
  matrices_shaped n_rows n_mu s'
  /\ forall j : nat, j < k ->
       wavelength_checked wav n_mu F11 j /\ wavelength_checked wav n_mu F12 j
       /\ wavelength_checked wav n_mu F33 j /\ wavelength_checked wav n_mu F34 j.
Proof.
  intros C Hsh E.
  refine (proj2 (foldM_range_inv (miex_read_block wav n_mu)
           (fun j t =>
              cursors F11 F12 F33 F34 (1 + j * (n_mu + 1)) t
              /\ matrices_shaped n_rows n_mu t
              /\ forall j', j' < j ->
                   wavelength_checked wav n_mu F11 j' /\ wavelength_checked wav n_mu F12 j'
                   /\ wavelength_checked wav n_mu F33 j' /\ wavelength_checked wav n_mu F34 j')
           k s s' _ _ E)).
  - split; [exact C |]. split; [exact Hsh |]. intros j' Hj'. lia.
  - intros j t t' _ (Ct & St & Hprev) Et.
    destruct (miex_read_block_step _ _ _ _ _ _ _ _ _ _ Ct St Et) as (C' & S' & Hj).
    split; [exact C' |]. split; [exact S' |].
    intros j' Hj'. destruct (decide (j' = j)) as [-> | Hne]; [exact Hj | apply Hprev; lia].
Qed.

Lemma repaired_warnings (quantity : string) (wav raw final : list float)
    (warnings : list string) :
  repaired quantity wav raw final warnings -> Forall is_nan_warning warnings.
Proof.
  intros (_ & _ & Hr). destruct (any_isnan raw).
  - destruct Hr as (fixed & _ & _ & _ & ->). constructor; [| constructor].
    exists quantity. reflexivity.
  - destruct Hr as [_ ->]. constructor.
Qed.

Lemma repair_progress_step (quantity : string) (wav : list float) (n_rows n k : nat)
    (raw a b : matrix) (w : list string) :
  repair_progress quantity wav n_rows n raw k a ->
  nan_repair_column quantity wav k a = Ok (b, w) ->
  repair_progress quantity wav n_rows n raw (S k) b /\ Forall is_nan_warning w.
Proof.
  intros (Hs & Hdone & Hrest) E.
  destruct (nan_repair_column_spec _ _ _ _ _ _ _ _ Hs E)
    as (Hs' & (before & after & Eb & Ea & Hrep) & Hother).
  split; [| exact (repaired_warnings _ _ _ _ _ Hrep)].
  split; [exact Hs' |]. split.
  - intros i Hi. destruct (decide (i = k)) as [-> | Hne].
    + exists before, after, w. rewrite <- (Hrest k) by lia. auto.
    + destruct (Hdone i) as (x & y & w' & Hx & Hy & Hxy); [lia |].
      exists x, y, w'. rewrite (Hother i Hne). auto.
  - intros i Hi. rewrite (Hother i) by lia. apply Hrest. lia.
Qed.

(** The last loop of [MieXDust]. *)
Lemma miex_repair_loop (wav : list float) (n_rows n k : nat)
    (r1 r2 r3 r4 m1 m2 m3 m4 : matrix) (w : list string) :
  shaped n_rows n r1 -> shaped n_rows n r2 -> shaped n_rows n r3 -> shaped n_rows n r4 ->
  foldM (miex_repair_columns wav) (seq 0 k) (r1, r2, r3, r4, []) = Ok (m1, m2, m3, m4, w) ->
  repair_progress "P1" wav n_rows n r1 k m1
  /\ repair_progress "P2" wav n_rows n r2 k m2
  /\ repair_progress "P3" wav n_rows n r3 k m3
  /\ repair_progress "P4" wav n_rows n r4 k m4
  /\ Forall is_nan_warning w.
Proof.
  intros S1 S2 S3 S4 E.
  apply (foldM_range_inv (miex_repair_columns wav)
           (fun i t =>
              let '(a1, a2, a3, a4, ws) := t in
              repair_progress "P1" wav n_rows n r1 i a1
              /\ repair_progress "P2" wav n_rows n r2 i a2
              /\ repair_progress "P3" wav n_rows n r3 i a3
              /\ repair_progress "P4" wav n_rows n r4 i a4
              /\ Forall is_nan_warning ws)
           k (r1, r2, r3, r4, []) (m1, m2, m3, m4, w)); [| | exact E].
  - repeat (split; [split; [assumption |]; split; [intros i Hi; lia | reflexivity] |]).
    constructor.
  - intros i [[[[a1 a2] a3] a4] ws] [[[[b1 b2] b3] b4] ws'] _ (G1 & G2 & G3 & G4 & Hw) Et.
    unfold miex_repair_columns in Et.
    apply bind_Ok in Et as ([c1 w1] & E1 & Et).
    apply bind_Ok in Et as ([c2 w2] & E2 & Et).
    apply bind_Ok in Et as ([c3 w3] & E3 & Et).
    apply bind_Ok in Et as ([c4 w4] & E4 & Et).
    inversion Et; subst; clear Et.
    destruct (repair_progress_step _ _ _ _ _ _ _ _ _ G1 E1) as [T1 W1].
    destruct (repair_progress_step _ _ _ _ _ _ _ _ _ G2 E2) as [T2 W2].
    destruct (repair_progress_step _ _ _ _ _ _ _ _ _ G3 E3) as [T3 W3].
    destruct (repair_progress_step _ _ _ _ _ _ _ _ _ G4 E4) as [T4 W4].
    repeat (split; [assumption |]).
    repeat (apply Forall_app; split); assumption.
Qed.


Lemma np_zeros_Ok (n : Z) (xs : list float) :
  np_zeros n = Ok xs -> (0 <= n)%Z /\ xs = replicate (Z.to_nat n) 0%float.
Proof.
  unfold np_zeros. destruct (Z.ltb_spec n 0); intros E; inversion E. split; [lia | reflexivity].
Qed.

Lemma miex_read_mu_length (k : nat) (f f' : textfile) (mu0 mu1 : list float) :
  foldM miex_read_mu (seq 0 k) (f, mu0) = Ok (f', mu1) -> length mu1 = length mu0.
Proof.
  intros E.
  apply (foldM_range_inv miex_read_mu (fun _ t => length (snd t) = length mu0)
           k (f, mu0) (f', mu1)); [reflexivity | | exact E].
  intros i [g a] [g' a'] _ Ha Et. unfold miex_read_mu in Et. cbn [fst snd] in *.
  destruct (readline g) as [ln rest].
  apply bind_Ok in Et as (x & _ & Et). inversion Et; subst.
  rewrite length_insert. exact Ha.
Qed.

(** The steps of a [MieXDust] call that returned. *)
Lemma MieXDust_inv (fs : gmap string textfile) (model : string) (d : SphericalDust)
    (warnings : list string) :
  MieXDust fs model = Ok (d, warnings) ->
  exists (wav albedo0 chi0 chi1 albedo1 mu1 : list float) (kappa : ndarray)
         (w_chi w_albedo w_P : list string) (F11 F12 F33 F34 : textfile)
         (s : MieXState) (m1 m2 m3 m4 : matrix),
    let n_mu := Z.to_nat (Z.of_nat (length F11 / length wav) - 1) in
    loadtxt_column fs (model +:+ ".alb") 0 = Ok (Array wav)
    /\ loadtxt_column fs (model +:+ ".alb") 1 = Ok (Array albedo0)
    /\ loadtxt_column fs (model +:+ ".k_abs") 1 = Ok kappa
    /\ broadcast2 PrimFloat.div kappa (Array (map (fun a => (1 - a)%float) albedo0))
       = Ok (Array chi0)
    /\ nan_repair "chi" wav chi0 = Ok (chi1, w_chi)
    /\ nan_repair "albedo" wav albedo0 = Ok (albedo1, w_albedo)
    /\ open_file fs (model +:+ ".f11") = Ok F11
    /\ open_file fs (model +:+ ".f12") = Ok F12
    /\ open_file fs (model +:+ ".f33") = Ok F33
    /\ open_file fs (model +:+ ".f34") = Ok F34
    /\ length wav <> 0
    /\ length mu1 = n_mu
    /\ foldM (miex_read_block wav n_mu) (seq 0 (length wav))
         {| f11 := snd (readline F11); f12 := snd (readline F12);
            f33 := snd (readline F33); f34 := snd (readline F34);
            M1 := zeros (length wav) n_mu; M2 := zeros (length wav) n_mu;
            M3 := zeros (length wav) n_mu; M4 := zeros (length wav) n_mu |} = Ok s
    /\ foldM (miex_repair_columns wav) (seq 0 n_mu) (M1 s, M2 s, M3 s, M4 s, [])
       = Ok (m1, m2, m3, m4, w_P)
    /\ optical_properties d
       = {| nu := Some (Array (map (fun w => (c / w * 1e4)%float) wav));
            mu := Some (Array mu1);
            albedo := Some (Array albedo1); chi := Some (Array chi1);
            P1 := Some m1; P2 := Some m2; P3 := Some m3; P4 := Some m4 |}
    /\ warnings = w_chi ++ w_albedo ++ w_P.
Proof.
  unfold MieXDust. rewrite SphericalDust_init_no_args. cbn [mbind result_bind]. intros E.
  apply bind_Ok in E as (wav_ & Ewav & E).
  apply bind_Ok in E as (albedo_ & Ealb & E).
  apply bind_Ok in E as (kappa & Ekap & E).
  apply bind_Ok in E as (chi_ & Echi & E).
  apply bind_Ok in E as ([[wav albedo0] chi0] & Earr & E).
  destruct wav_ as [| wav']; [discriminate |].
  destruct albedo_ as [| albedo']; [discriminate |].
  destruct chi_ as [| chi']; [discriminate |].
  inversion Earr; subst wav' albedo' chi'; clear Earr.
  cbn [ufunc] in Echi.
  apply bind_Ok in E as ([chi1 w_chi] & Erchi & E).
  apply bind_Ok in E as ([albedo1 w_albedo] & Eralb & E).
  apply bind_Ok in E as (F11 & E11 & E).
  apply bind_Ok in E as (n_mu_z & Enmu & E).
  apply bind_Ok in E as (mu0 & Ezeros & E).
  apply bind_Ok in E as (op & Einit & E).
  apply bind_Ok in E as (F11' & E11' & E).
  apply bind_Ok in E as ([f' mu1] & Emu & E).
  apply bind_Ok in E as (F11'' & E11'' & E).
  apply bind_Ok in E as (F12 & E12 & E).
  apply bind_Ok in E as (F33 & E33 & E).
  apply bind_Ok in E as (F34 & E34 & E).
  apply bind_Ok in E as ([[[z1 z2] z3] z4] & Esm & E).
  apply bind_Ok in E as (s & Eread & E).
  apply bind_Ok in E as ([[[[m1 m2] m3] m4] w_P] & Erep & E).
  inversion E; subst d warnings; clear E.
  rewrite E11 in E11', E11''. inversion E11'; subst F11'. inversion E11''; subst F11''.
  destruct (Nat.eqb_spec (length wav) 0) as [Hz | Hnz]; [discriminate |].
  inversion Enmu; subst n_mu_z; clear Enmu.
  apply np_zeros_Ok in Ezeros as [Hpos ->].
  apply miex_read_mu_length in Emu. rewrite length_replicate in Emu.
  unfold initialize_scattering_matrix, update_optical_properties in Einit.
  cbn [optical_properties with_optical_properties with_mu with_nu with_albedo with_chi
         nu mu albedo chi np_len mbind result_bind] in Einit.
  rewrite length_map, length_replicate in Einit. inversion Einit; subst op; clear Einit.
  cbn in Esm. inversion Esm; subst z1 z2 z3 z4; clear Esm.
  exists wav, albedo0, chi0, chi1, albedo1, mu1, kappa, w_chi, w_albedo, w_P,
    F11, F12, F33, F34, s, m1, m2, m3, m4.
  cbv zeta.
  repeat (split; [first [assumption | reflexivity] |]). reflexivity.
Qed.

Lemma squeeze_Array (xs ys : list float) : squeeze xs = Array ys -> ys = xs.
Proof. destruct xs as [| x [| y xs]]; cbn; intros E; inversion E; reflexivity. Qed.

Lemma loadtxt_column_length (fs : gmap string textfile) (name : string) (col : nat)
    (xs : list float) (f : textfile) :
  open_file fs name = Ok f ->
  loadtxt_column fs name col = Ok (Array xs) ->
  length xs = length (List.filter (fun ln => negb (is_blank ln)) f).
Proof.
  unfold loadtxt_column. intros -> E. cbn [mbind result_bind] in E.
  apply bind_Ok in E as (vals & Ev & E). inversion E as [Es].
  apply squeeze_Array in Es as ->. apply (mapM_Ok_length _ _ _ Ev).
Qed.

Lemma loadtxt_column_same_length (fs : gmap string textfile) (name : string)
    (col col' : nat) (xs ys : list float) :
  loadtxt_column fs name col = Ok (Array xs) ->
  loadtxt_column fs name col' = Ok (Array ys) ->
  length xs = length ys.
Proof.
  intros Ex Ey.
  destruct (open_file fs name) as [f |] eqn:Ef.
  - rewrite (loadtxt_column_length _ _ _ _ _ Ef Ex), (loadtxt_column_length _ _ _ _ _ Ef Ey).
    reflexivity.
  - unfold loadtxt_column in Ex. rewrite Ef in Ex. discriminate.
Qed.


Lemma cursors_after_header (F11 F12 F33 F34 : textfile) (X1 X2 X3 X4 : matrix) :
  cursors F11 F12 F33 F34 1
    {| f11 := snd (readline F11); f12 := snd (readline F12);
       f33 := snd (readline F33); f34 := snd (readline F34);
       M1 := X1; M2 := X2; M3 := X3; M4 := X4 |}.
Proof.
  unfold cursors. cbn.
  destruct F11, F12, F33, F34; cbn; rewrite ?drop_0; auto.
Qed.

(** What the two loops over the matrix files establish. *)
Lemma MieXDust_loops (wav : list float) (n_mu : nat) (F11 F12 F33 F34 : textfile)
    (s : MieXState) (m1 m2 m3 m4 : matrix) (w_P : list string) :
  foldM (miex_read_block wav n_mu) (seq 0 (length wav))
    {| f11 := snd (readline F11); f12 := snd (readline F12);
       f33 := snd (readline F33); f34 := snd (readline F34);
       M1 := zeros (length wav) n_mu; M2 := zeros (length wav) n_mu;
       M3 := zeros (length wav) n_mu; M4 := zeros (length wav) n_mu |} = Ok s ->
  foldM (miex_repair_columns wav) (seq 0 n_mu) (M1 s, M2 s, M3 s, M4 s, [])
  = Ok (m1, m2, m3, m4, w_P) ->
  (forall j : nat, j < length wav ->
     wavelength_checked wav n_mu F11 j /\ wavelength_checked wav n_mu F12 j
     /\ wavelength_checked wav n_mu F33 j /\ wavelength_checked wav n_mu F34 j)
  /\ repair_progress "P1" wav (length wav) n_mu (M1 s) n_mu m1
  /\ repair_progress "P2" wav (length wav) n_mu (M2 s) n_mu m2
  /\ repair_progress "P3" wav (length wav) n_mu (M3 s) n_mu m3
  /\ repair_progress "P4" wav (length wav) n_mu (M4 s) n_mu m4
  /\ Forall is_nan_warning w_P.
Proof.
  intros Eread Erep.
  destruct (miex_read_blocks F11 F12 F33 F34 wav (length wav) n_mu (length wav) _ s
              (cursors_after_header F11 F12 F33 F34
                 (zeros (length wav) n_mu) (zeros (length wav) n_mu)
                 (zeros (length wav) n_mu) (zeros (length wav) n_mu)))
    as ((S1 & S2 & S3 & S4) & Hchk);
    [repeat split; apply shaped_zeros | exact Eread |].
  split; [exact Hchk |].
  exact (miex_repair_loop wav (length wav) n_mu n_mu _ _ _ _ _ _ _ _ _ S1 S2 S3 S4 Erep).
Qed.


Lemma check_wavelength_mismatch (name : string) (f rest : textfile) (x w : float) :
  f = [Num x] :: rest -> PrimFloat.eqb x w = false ->
  check_wavelength name f w = Raise (Exception ("Incorrect wavelength in " +:+ name)).
Proof. intros -> Hne. unfold check_wavelength. cbn. rewrite Hne. reflexivity. Qed.

Lemma check_wavelength_match (name : string) (f rest : textfile) (x w : float) :
  f = [Num x] :: rest -> PrimFloat.eqb x w = true -> check_wavelength name f w = Ok rest.
Proof. intros -> He. unfold check_wavelength. cbn. rewrite He. reflexivity. Qed.

(** C6: a [MieXDust] call that returns has found, for every wavelength index
    [j], the header record of block [j] of each of the four matrix files to
    be a number equal to [wav[j]]; in the reading loop the first header
    record that differs raises "Incorrect wavelength in ..." for its file,
    and a raise in a loop body ends the loop with that exception. *)
Theorem MieXDust_checks_wavelengths :
  (forall (fs : gmap string textfile) (model : string) (d : SphericalDust)
          (warnings : list string),
      MieXDust fs model = Ok (d, warnings) ->
      exists (wav mu_ : list float) (F11 F12 F33 F34 : textfile),
        loadtxt_column fs (model +:+ ".alb") 0 = Ok (Array wav)
        /\ open_file fs (model +:+ ".f11") = Ok F11
        /\ open_file fs (model +:+ ".f12") = Ok F12
        /\ open_file fs (model +:+ ".f33") = Ok F33
        /\ open_file fs (model +:+ ".f34") = Ok F34
        /\ mu (optical_properties d) = Some (Array mu_)
        /\ length mu_ = Z.to_nat (Z.of_nat (length F11 / length wav) - 1)
        /\ forall j : nat, j < length wav ->
             wavelength_checked wav (length mu_) F11 j
             /\ wavelength_checked wav (length mu_) F12 j
             /\ wavelength_checked wav (length mu_) F33 j
             /\ wavelength_checked wav (length mu_) F34 j)
  /\ (forall (wav : list float) (n_mu j : nat) (s : MieXState) (w x : float)
             (rest : textfile),
      wav !! j = Some w ->
      f11 s = [Num x] :: rest -> PrimFloat.eqb x w = false ->
      miex_read_block wav n_mu j s = Raise (Exception "Incorrect wavelength in f11"))
  /\ (forall (wav : list float) (n_mu j : nat) (s : MieXState) (w x1 x : float)
             (r1 rest : textfile),
      wav !! j = Some w ->
      f11 s = [Num x1] :: r1 -> PrimFloat.eqb x1 w = true ->
      f12 s = [Num x] :: rest -> PrimFloat.eqb x w = false ->
      miex_read_block wav n_mu j s = Raise (Exception "Incorrect wavelength in f12"))
  /\ (forall (wav : list float) (n_mu j : nat) (s : MieXState) (w x1 x2 x : float)
             (r1 r2 rest : textfile),
      wav !! j = Some w ->
      f11 s = [Num x1] :: r1 -> PrimFloat.eqb x1 w = true ->
      f12 s = [Num x2] :: r2 -> PrimFloat.eqb x2 w = true ->
      f33 s = [Num x] :: rest -> PrimFloat.eqb x w = false ->
      miex_read_block wav n_mu j s = Raise (Exception "Incorrect wavelength in f33"))
  /\ (forall (wav : list float) (n_mu j : nat) (s : MieXState) (w x1 x2 x3 x : float)
             (r1 r2 r3 rest : textfile),
      wav !! j = Some w ->
      f11 s = [Num x1] :: r1 -> PrimFloat.eqb x1 w = true ->
      f12 s = [Num x2] :: r2 -> PrimFloat.eqb x2 w = true ->
      f33 s = [Num x3] :: r3 -> PrimFloat.eqb x3 w = true ->
      f34 s = [Num x] :: rest -> PrimFloat.eqb x w = false ->
      miex_read_block wav n_mu j s = Raise (Exception "Incorrect wavelength in f34"))
  /\ (forall (wav : list float) (n_mu : nat) (before after : list nat) (j : nat)
             (s0 s : MieXState) (e : exn),
      foldM (miex_read_block wav n_mu) before s0 = Ok s ->
      miex_read_block wav n_mu j s = Raise e ->
      foldM (miex_read_block wav n_mu) (before ++ j :: after) s0 = Raise e).
Proof.
  split; [| split; [| split; [| split; [| split]]]].
  - intros fs model d warnings E.
    destruct (MieXDust_inv _ _ _ _ E)
      as (wav & albedo0 & chi0 & chi1 & albedo1 & mu1 & kappa & w_chi & w_albedo & w_P
          & F11 & F12 & F33 & F34 & s & m1 & m2 & m3 & m4 & Hall).
    cbv zeta in Hall.
    destruct Hall as (Ewav & Ealb & Ekap & Echi & Erchi & Eralb & E11 & E12 & E33 & E34
                      & Hnz & Lmu & Eread & Erep & Eop & ->).
    destruct (MieXDust_loops _ _ _ _ _ _ _ _ _ _ _ _ Eread Erep) as (Hchk & _).
    exists wav, mu1, F11, F12, F33, F34. rewrite Eop, Lmu. cbn [mu].
    repeat (split; [first [assumption | reflexivity] |]). exact Hchk.
  - intros wav n_mu j s w x rest Hw H1 Q1. unfold miex_read_block. rewrite Hw.
    cbn [mbind result_bind].
    rewrite (check_wavelength_mismatch _ _ _ _ _ H1 Q1). reflexivity.
  - intros wav n_mu j s w x1 x r1 rest Hw H1 Q1 H2 Q2. unfold miex_read_block. rewrite Hw.
    cbn [mbind result_bind].
    rewrite (check_wavelength_match _ _ _ _ _ H1 Q1). cbn [mbind result_bind].
    rewrite (check_wavelength_mismatch _ _ _ _ _ H2 Q2). reflexivity.
  - intros wav n_mu j s w x1 x2 x r1 r2 rest Hw H1 Q1 H2 Q2 H3 Q3.
    unfold miex_read_block. rewrite Hw. cbn [mbind result_bind].
    rewrite (check_wavelength_match _ _ _ _ _ H1 Q1). cbn [mbind result_bind].
    rewrite (check_wavelength_match _ _ _ _ _ H2 Q2). cbn [mbind result_bind].
    rewrite (check_wavelength_mismatch _ _ _ _ _ H3 Q3). reflexivity.
  - intros wav n_mu j s w x1 x2 x3 x r1 r2 r3 rest Hw H1 Q1 H2 Q2 H3 Q3 H4 Q4.
    unfold miex_read_block. rewrite Hw. cbn [mbind result_bind].
    rewrite (check_wavelength_match _ _ _ _ _ H1 Q1). cbn [mbind result_bind].
    rewrite (check_wavelength_match _ _ _ _ _ H2 Q2). cbn [mbind result_bind].
    rewrite (check_wavelength_match _ _ _ _ _ H3 Q3). cbn [mbind result_bind].
    rewrite (check_wavelength_mismatch _ _ _ _ _ H4 Q4). reflexivity.
  - intros wav n_mu before after j s0 s e Eb Ej.
    rewrite foldM_app, Eb. cbn. rewrite Ej. reflexivity.
Qed.

(** C8 (amended): a [MieXDust] call that returns gives an albedo with one
    value per wavelength and no NaN in the albedo or in [chi]; a
    [SimpleSphericalDust] call that returns gives an albedo with one value
    per wavelength; [IsotropicSphericalDust] stores the albedo and [chi] it
    is handed as they are. *)
Theorem loaded_albedo_and_chi :
  (forall (fs : gmap string textfile) (model : string) (d : SphericalDust)
          (warnings : list string),
      MieXDust fs model = Ok (d, warnings) ->
      exists nu_ albedo_ chi_ : list float,
        nu (optical_properties d) = Some (Array nu_)
        /\ albedo (optical_properties d) = Some (Array albedo_)
        /\ chi (optical_properties d) = Some (Array chi_)
        /\ length albedo_ = length nu_
        /\ any_isnan albedo_ = false
        /\ any_isnan chi_ = false)
  /\ (forall (fs : gmap string textfile) (path : string) (d : SphericalDust),
      SimpleSphericalDust fs path = Ok d ->
      exists nu_ albedo_ : list float,
        nu (optical_properties d) = Some (Array nu_)
        /\ albedo (optical_properties d) = Some (Array albedo_)
        /\ length albedo_ = length nu_)
  /\ (forall (wav chi_ albedo_ : ndarray) (d : SphericalDust),
      IsotropicSphericalDust wav chi_ albedo_ = Ok d ->
      albedo (optical_properties d) = Some albedo_
      /\ chi (optical_properties d) = Some chi_).
Proof.
  split; [| split].
  - intros fs model d warnings E.
    destruct (MieXDust_inv _ _ _ _ E)
      as (wav & albedo0 & chi0 & chi1 & albedo1 & mu1 & kappa & w_chi & w_albedo & w_P
          & F11 & F12 & F33 & F34 & s & m1 & m2 & m3 & m4 & Hall).
    cbv zeta in Hall.
    destruct Hall as (Ewav & Ealb & Ekap & Echi & Erchi & Eralb & E11 & E12 & E33 & E34
                      & Hnz & Lmu & Eread & Erep & Eop & ->).
    destruct (nan_repair_repaired _ _ _ _ _ Erchi) as (Nchi & _).
    destruct (nan_repair_repaired _ _ _ _ _ Eralb) as (Nalb & Lalb & _).
    eexists _, albedo1, chi1. rewrite Eop. cbn [nu albedo chi].
    split; [reflexivity |]. split; [reflexivity |]. split; [reflexivity |].
    split; [| split; assumption].
    rewrite length_map, Lalb. symmetry.
    exact (loadtxt_column_same_length _ _ _ _ _ _ Ewav Ealb).
  - intros fs path d E.
    destruct (SimpleSphericalDust_inv _ _ _ E)
      as (dustfile & m1 & m2 & m3 & m4 & _ & _ & _ & Hnu & Halb & _).
    eexists _, _. split; [exact Hnu |]. split; [exact Halb |].
    rewrite length_zip_with, length_map, !field_length. lia.
  - intros wav chi_ albedo_ d E. unfold IsotropicSphericalDust in E.
    rewrite SphericalDust_init_no_args in E. cbn [mbind result_bind] in E.
    apply bind_Ok in E as (t & _ & E).
    apply bind_Ok in E as (nu_ & _ & E).
    apply bind_Ok in E as (op & Einit & E).
    apply bind_Ok in E as ([[[z1 z2] z3] z4] & _ & E).
    inversion E; subst d; clear E.
    unfold initialize_scattering_matrix in Einit.
    destruct (nu _) as [n |]; [| discriminate].
    destruct (mu _) as [m |]; [| discriminate].
    apply bind_Ok in Einit as (n_wav & _ & Einit).
    apply bind_Ok in Einit as (n_mu & _ & Einit).
    inversion Einit; subst op. split; reflexivity.
Qed.

End MieXLoader.


Lemma MieXDust_checks_wavelengths_witness :
  exists (d : SphericalDust) (warnings : list string),
    @MieXDust Sample.extern Sample.miex_files "m" = Ok (d, warnings)
    /\ exists (wav mu_ : list float) (F11 : textfile),
        loadtxt_column Sample.miex_files "m.alb" 0 = Ok (Array wav)
        /\ open_file Sample.miex_files "m.f11" = Ok F11
        /\ mu (optical_properties d) = Some (Array mu_)
        /\ forall j : nat, j < length wav -> wavelength_checked wav (length mu_) F11 j.
Proof.
  eexists _, _. split; [vm_compute; reflexivity |].
  destruct (proj1 (@MieXDust_checks_wavelengths Sample.extern) Sample.miex_files "m" _ _
              ltac:(vm_compute; reflexivity))
    as (wav & mu_ & F11 & F12 & F33 & F34 & Ewav & E11 & _ & _ & _ & Hmu & _ & Hchk).
  exists wav, mu_, F11. repeat (split; [assumption |]).
  intros j Hj. exact (proj1 (Hchk j Hj)).
Defined.

(** C8, as stated, fails: [SimpleSphericalDust] accepts a table whose first
    row has [c_sca = 2 c_ext] and whose second row has both equal to zero
    and a NaN [chi]; the albedo it returns is [2, NaN] and the [chi] is
    [100, NaN]. *)
Lemma loaders_accept_odd_albedo :
  exists d : SphericalDust,
    @SimpleSphericalDust Sample.extern Sample.odd_files "odd.dat" = Ok d
    /\ albedo (optical_properties d) = Some (Array [2; nan]%float)
    /\ chi (optical_properties d) = Some (Array [100; nan]%float)
    /\ PrimFloat.leb 2 1 = false
    /\ any_isnan [2; nan]%float = true
    /\ any_isnan [100; nan]%float = true.
Proof. eexists. split; [vm_compute; reflexivity |]. repeat split. Qed.

Lemma loaded_albedo_and_chi_witness :
  exists (d : SphericalDust) (warnings : list string),
    @MieXDust Sample.extern Sample.miex_files "m" = Ok (d, warnings)
    /\ exists nu_ albedo_ chi_ : list float,
        nu (optical_properties d) = Some (Array nu_)
        /\ albedo (optical_properties d) = Some (Array albedo_)
        /\ chi (optical_properties d) = Some (Array chi_)
        /\ length albedo_ = length nu_
        /\ any_isnan albedo_ = false
        /\ any_isnan chi_ = false.
Proof.
  eexists _, _. split; [vm_compute; reflexivity |].
  exact (proj1 (@loaded_albedo_and_chi Sample.extern) Sample.miex_files "m" _ _
           ltac:(vm_compute; reflexivity)).
Defined.

(** * Part III. Further properties of the code *)

(** ** The phase function in exact arithmetic *)

Section PhaseFunctionMore.

Import ExactFloat.
Local Open Scope R_scope.














End PhaseFunctionMore.

(** ** The phase function on numpy arrays *)

Section PhaseFunctionArrays.

Context `{Extern}.

Lemma zip_with_map_same {A B C D : Type} (f : B -> C -> D) (a : A -> B) (b : A -> C)
    (l : list A) :
  zip_with f (map a l) (map b l) = map (fun x => f (a x) (b x)) l.
Proof. induction l as [| x l IH]; cbn; [reflexivity | rewrite IH; reflexivity]. Qed.

Lemma zip_with_map_right {A B C D : Type} (f : A -> C -> D) (b : B -> C)
    (l : list A) (k : list B) :
  zip_with f l (map b k) = zip_with (fun x y => f x (b y)) l k.
Proof.
  revert k. induction l as [| x l IH]; intros [| y k]; cbn; try reflexivity.
  rewrite IH. reflexivity.
Qed.

Lemma zip_with_map_left {A B C D : Type} (f : B -> C -> D) (a : A -> B)
    (l : list A) (k : list C) :
  zip_with f (map a l) k = zip_with (fun x y => f (a x) y) l k.
Proof.
  revert k. induction l as [| x l IH]; intros [| y k]; cbn; try reflexivity.
  rewrite IH. reflexivity.
Qed.

Lemma map_of_zip_with {A B C D : Type} (f : A -> B -> C) (g : C -> D)
    (l : list A) (k : list B) :
  map g (zip_with f l k) = zip_with (fun x y => g (f x y)) l k.
Proof.
  revert k. induction l as [| x l IH]; intros [| y k]; cbn; try reflexivity.
  rewrite IH. reflexivity.
Qed.

Ltac same_lengths :=
  repeat first [ rewrite length_zip_with | rewrite length_map ]; lia.

(** On a scalar cosine and two arrays of one length, the call gives, entry
    by entry, the three binary64 coefficients. *)
Lemma hg_arrays_entries (m : float) (g p : list float) :
  length p = length g ->
  henyey_greenstein (Scalar m) (Array g) (Array p)
  = Ok (Array (map (P1_binary64 m) g),
        Array (zip_with (fun pj gj => P2_binary64 m pj (P1_binary64 m gj)) p g),
        Array (map (fun gj => P3_binary64 m (P1_binary64 m gj)) g),
        Scalar 0%float).
Proof.
  intros Hp. unfold henyey_greenstein.
  cbn [py_mul py_add py_sub py_div py_neg py_pow15 lit0 lit1 lit2 ndarray_number].
  repeat (cbn [broadcast2 mbind result_bind ufunc];
          rewrite broadcast_lists_same by same_lengths).
  cbn [broadcast2 mbind result_bind ufunc mret result_ret].
  assert (zip_with PrimFloat.div (map (PrimFloat.sub 1) (zip_with PrimFloat.mul g g))
            (map (fun x : float => libm_pow x 1.5)
               (zip_with PrimFloat.sub (map (PrimFloat.add 1) (zip_with PrimFloat.mul g g))
                  (map (fun x : float => (x * m)%float) (map (PrimFloat.mul 2) g))))
          = map (P1_binary64 m) g) as ->.
  { rewrite zip_with_diag, !map_map, zip_with_map_same, map_map, zip_with_map_same.
    reflexivity. }
  rewrite !map_of_zip_with, zip_with_map_left, zip_with_map_right, !map_map.
  reflexivity.
Qed.

Lemma broadcast_lists_mismatch (f : float -> float -> float) (xs ys : list float) :
  length xs <> length ys -> length xs <> 1 -> length ys <> 1 ->
  broadcast_lists f xs ys = Raise (ValueError "operands could not be broadcast together").
Proof.
  intros Hne Hx Hy. unfold broadcast_lists.
  destruct (Nat.eqb_spec (length xs) (length ys)) as [E | _]; [contradiction |].
  destruct xs as [| x0 [| x1 xs]]; cbn in *; try lia;
    destruct ys as [| y0 [| y1 ys]]; cbn in *; try lia; reflexivity.
Qed.

(** X5: called as [SimpleSphericalDust] calls it, on a scalar cosine and
    two arrays [g] and [p_lin_max] of one length, [henyey_greenstein] never
    raises, whatever the values: it returns three arrays holding, entry by
    entry, [P1], [P2] and [P3] computed in binary64, and the scalar 0.0 for
    [P4].  On arrays of different lengths, neither of one element, it raises
    [ValueError]. *)
Theorem henyey_greenstein_on_arrays :
  (forall (mu_ : float) (g p_lin_max : list float),
      length p_lin_max = length g ->
      henyey_greenstein (Scalar mu_) (Array g) (Array p_lin_max)
      = Ok (Array (map (P1_binary64 mu_) g),
            Array (zip_with (fun p gj => P2_binary64 mu_ p (P1_binary64 mu_ gj))
                     p_lin_max g),
            Array (map (fun gj => P3_binary64 mu_ (P1_binary64 mu_ gj)) g),
            Scalar 0%float))
  /\ (forall (mu_ : float) (g p_lin_max : list float),
      length p_lin_max <> length g -> length p_lin_max <> 1 -> length g <> 1 ->
      henyey_greenstein (Scalar mu_) (Array g) (Array p_lin_max)
      = Raise (ValueError "operands could not be broadcast together")).
Proof.
  split.
  - intros mu_ g p Hp. apply hg_arrays_entries. exact Hp.
  - intros mu_ g p Hne Hp Hg. unfold henyey_greenstein.
    cbn [py_mul py_add py_sub py_div py_neg py_pow15 lit0 lit1 lit2 ndarray_number].
    repeat (cbn [broadcast2 mbind result_bind ufunc];
            rewrite broadcast_lists_same by same_lengths).
    cbn [broadcast2 mbind result_bind ufunc].
    rewrite broadcast_lists_mismatch by same_lengths.
    reflexivity.
Qed.

End PhaseFunctionArrays.

Lemma henyey_greenstein_on_arrays_witness :
  length [1; 0.5]%float = length [0; 0.5]%float
  /\ @henyey_greenstein ndarray (@ndarray_number Sample.extern)
       (Scalar 0%float) (Array [0; 0.5]%float) (Array [1; 0.5]%float)
     = Ok (Array (map (@P1_binary64 Sample.extern 0%float) [0; 0.5]%float),
           Array (zip_with
                    (fun p gj => P2_binary64 0%float p (@P1_binary64 Sample.extern 0%float gj))
                    [1; 0.5]%float [0; 0.5]%float),
           Array (map (fun gj => P3_binary64 0%float (@P1_binary64 Sample.extern 0%float gj))
                    [0; 0.5]%float),
           Scalar 0%float).
Proof.
  split; [reflexivity |].
  apply (proj1 (@henyey_greenstein_on_arrays Sample.extern)). reflexivity.
Defined.

(** ** The sublimation setters *)

Section Sublimation.

Context `{Thermal}.

Lemma threshold_given (mode : string) (temperature : option float) :
  mode = "no" \/ is_Some temperature ->
  negb (String.eqb mode "no") && negb (bool_decide (is_Some temperature)) = false.
Proof.
  intros [-> | Ht]; [reflexivity |].
  rewrite (bool_decide_eq_true_2 _ Ht). apply andb_false_r.
Qed.

(** X6: when the temperature converts to the specific energy [energy],
    [set_sublimation_temperature(mode, temperature)] leaves the model as
    [set_sublimation_specific_energy(mode, energy)] does, and raises what it
    raises; both refuse the modes 'fast', 'slow' and 'cap' without a
    threshold and leave the model as it was; and when the conversion raises,
    the temperature setter has assigned the new mode already, with the old
    threshold still in place. *)
Theorem sublimation_setters_agree :
  (forall (mode : string) (temperature : option float) (energy : float)
          (self : SphericalDust),
      _temperature2specific_energy (optical_properties self) temperature = Ok energy ->
      mode = "no" \/ is_Some temperature ->
      set_sublimation_temperature mode temperature self
      = match set_sublimation_specific_energy mode (Some energy) self with
        | Ok self' => (Ok tt, self')
        | Raise e => (Raise e, self)
        end)
  /\ (forall (mode : string) (self : SphericalDust),
      mode = "fast" \/ mode = "slow" \/ mode = "cap" ->
      set_sublimation_temperature mode None self
      = (Raise (Exception "Need to specify a sublimation temperature"), self)
      /\ set_sublimation_specific_energy mode None self
         = Raise (Exception "Need to specify a sublimation specific_energy"))
  /\ (forall (mode : string) (temperature : option float) (e : exn)
             (self : SphericalDust),
      string_in mode ["no"; "fast"; "slow"; "cap"] = true ->
      mode = "no" \/ is_Some temperature ->
      _temperature2specific_energy (optical_properties self) temperature = Raise e ->
      set_sublimation_temperature mode temperature self
      = (Raise e, with_sublimation mode (sublimation_energy self) self)).
Proof.
  split; [| split].
  - intros mode temperature energy self Econv Hmode.
    unfold set_sublimation_temperature, set_sublimation_specific_energy.
    destruct (string_in mode ["no"; "fast"; "slow"; "cap"]); cbn [negb]; [| reflexivity].
    rewrite (threshold_given _ _ Hmode), andb_false_r.
    cbn [optical_properties with_sublimation]. rewrite Econv. reflexivity.
  - intros mode self [-> | [-> | ->]]; split; reflexivity.
  - intros mode temperature e self Hin Hmode Econv.
    unfold set_sublimation_temperature. rewrite Hin. cbn [negb].
    rewrite (threshold_given _ _ Hmode).
    cbn [optical_properties with_sublimation]. rewrite Econv. reflexivity.
Qed.

End Sublimation.

Lemma sublimation_setters_agree_witness :
  @_temperature2specific_energy Inputs.thermal (optical_properties Sample.fresh)
    (Some 1500%float) = Ok 1500000%float
  /\ ("fast" = "no" \/ is_Some (Some 1500%float))
  /\ @set_sublimation_temperature Inputs.thermal "fast" (Some 1500%float) Sample.fresh
     = match set_sublimation_specific_energy "fast" (Some 1500000%float) Sample.fresh with
       | Ok self' => (Ok tt, self')
       | Raise e => (Raise e, Sample.fresh)
       end.
Proof.
  assert (@_temperature2specific_energy Inputs.thermal (optical_properties Sample.fresh)
            (Some 1500%float) = Ok 1500000%float) as Hc by (vm_compute; reflexivity).
  assert ("fast" = "no" \/ is_Some (Some 1500%float)) as Hm
    by (right; eexists; reflexivity).
  split; [exact Hc |]. split; [exact Hm |].
  exact (proj1 (@sublimation_setters_agree Inputs.thermal)
           "fast" (Some 1500%float) _ Sample.fresh Hc Hm).
Defined.

(** ** The dust model: what [write], [read] and [plot] change *)

Section DustModelMore.

Context `{Extern} `{Plotting}.










(** The cases of a [read] once the container is there. *)
Ltac read_cases ts :=
  destruct (keywords ts !! "version") as [v |]; [| reflexivity];
  destruct (ne_one v); [reflexivity |];
  destruct (keywords ts !! "type") as [ty |]; [| reflexivity];
  destruct (ne_one ty); [reflexivity |];
  destruct (optical_properties_from_table_set ts); [| reflexivity];
  destruct (mean_opacities_from_table_set ts); [| reflexivity];
  destruct (emissivities_from_table_set ts); reflexivity.

(** X11: whether it returns or raises, [read] leaves the sublimation mode
    and threshold of the model as they were.  Given a path that does not
    exist it raises "File not found: <path>" and leaves the whole model as
    it was; a container without a [version] keyword raises [KeyError] with
    everything but the file name as it was; and once both tags have been
    found equal to 1, the checksum of the model is the [asciimd5] keyword of
    the container, or [None] when there is none, whether the tables are then
    read or not. *)
Theorem read_effects (store : gmap string TableSet) (arg : file_arg)
    (self : SphericalDust) :
  let r := read store arg self in
  sublimation_mode (snd r) = sublimation_mode self
  /\ sublimation_energy (snd r) = sublimation_energy self
  /\ (container store arg = None ->
      exists p : string,
        arg = Path p /\ r = (Raise (Exception ("File not found: " +:+ p)), self))
  /\ (forall ts : TableSet,
      container store arg = Some ts -> keywords ts !! "version" = None ->
      fst r = Raise (KeyError "version") /\ payload (snd r) = payload self)
  /\ (forall (ts : TableSet) (version type : kwval),
      container store arg = Some ts ->
      keywords ts !! "version" = Some version -> ne_one version = false ->
      keywords ts !! "type" = Some type -> ne_one type = false ->
      md5 (snd r) = default KNone (keywords ts !! "asciimd5")).
Proof.
  cbv zeta. unfold read.
  assert (forall (ts : TableSet) (s0 : SphericalDust),
            payload s0 = payload self ->
            let r := match keywords ts !! "version" with
                     | None => (Raise (KeyError "version"), s0)
                     | Some version =>
                         if ne_one version then (Raise (Exception "Version should be 1"), s0)
                         else
                           match keywords ts !! "type" with
                           | None => (Raise (KeyError "type"), s0)
                           | Some type =>
                               if ne_one type then (Raise (Exception "Type should be 1"), s0)
                               else
                                 let s1 :=
                                   with_md5 (match keywords ts !! "asciimd5" with
                                             | Some v => v
                                             | None => KNone
                                             end) s0 in
                                 match optical_properties_from_table_set ts with
                                 | Raise e => (Raise e, s1)
                                 | Ok op =>
                                     let s2 := with_optical_properties op s1 in
                                     match mean_opacities_from_table_set ts with
                                     | Raise e => (Raise e, s2)
                                     | Ok mo =>
                                         let s3 := with_mean_opacities mo s2 in
                                         match emissivities_from_table_set ts with
                                         | Raise e => (Raise e, s3)
                                         | Ok em => (Ok tt, with_emissivities em s3)
                                         end
                                     end
                                 end
                           end
                     end in
            sublimation_mode (snd r) = sublimation_mode self
            /\ sublimation_energy (snd r) = sublimation_energy self
            /\ (keywords ts !! "version" = None ->
                fst r = Raise (KeyError "version") /\ payload (snd r) = payload self)
            /\ (forall version type : kwval,
                keywords ts !! "version" = Some version -> ne_one version = false ->
                keywords ts !! "type" = Some type -> ne_one type = false ->
                md5 (snd r) = default KNone (keywords ts !! "asciimd5"))) as Hbody.
  { intros ts s0 Hp. cbv zeta.
    assert (sublimation_mode s0 = sublimation_mode self
            /\ sublimation_energy s0 = sublimation_energy self) as [Hm He]
      by (unfold payload in Hp; inversion Hp; auto).
    split; [| split; [| split]].
    - rewrite <- Hm. read_cases ts.
    - rewrite <- He. read_cases ts.
    - intros ->. auto.
    - intros v ty -> -> -> ->.
      destruct (optical_properties_from_table_set ts); [| reflexivity].
      destruct (mean_opacities_from_table_set ts); [| reflexivity].
      destruct (emissivities_from_table_set ts); reflexivity. }
  destruct arg as [p | ts0]; cbn [container].
  - destruct (store !! p) as [ts |] eqn:Hp.
    + destruct (Hbody ts (with_filename (Some p) self) eq_refl) as (B1 & B2 & B3 & B4).
      split; [exact B1 |]. split; [exact B2 |]. split; [discriminate |].
      split.
      * intros ts' Hts. inversion Hts; subst ts'. exact B3.
      * intros ts' v ty Hts. inversion Hts; subst ts'. apply B4.
    + split; [reflexivity |]. split; [reflexivity |].
      split; [intros _; exists p; split; reflexivity |].
      split; [intros ts' Hts; discriminate | intros ts' v ty Hts; discriminate].
  - destruct (Hbody ts0 self eq_refl) as (B1 & B2 & B3 & B4).
    split; [exact B1 |]. split; [exact B2 |]. split; [discriminate |].
    split.
    + intros ts' Hts. inversion Hts; subst ts'. exact B3.
    + intros ts' v ty Hts. inversion Hts; subst ts'. apply B4.
Qed.


End DustModelMore.





Lemma read_effects_witness :
  container ∅ (Handle Inputs.tags_only) = Some Inputs.tags_only
  /\ keywords Inputs.tags_only !! "version" = Some (KInt 1)
  /\ keywords Inputs.tags_only !! "type" = Some (KInt 1)
  /\ fst (read ∅ (Handle Inputs.tags_only) Sample.fresh)
     = Raise (KeyError "Optical properties")
  /\ md5 Sample.fresh = KNone
  /\ md5 (snd (read ∅ (Handle Inputs.tags_only) Sample.fresh))
     = default KNone (keywords Inputs.tags_only !! "asciimd5").
Proof.
  assert (keywords Inputs.tags_only !! "version" = Some (KInt 1)) as Hv
    by (vm_compute; reflexivity).
  assert (keywords Inputs.tags_only !! "type" = Some (KInt 1)) as Ht
    by (vm_compute; reflexivity).
  split; [reflexivity |]. split; [exact Hv |]. split; [exact Ht |].
  split; [vm_compute; reflexivity |]. split; [reflexivity |].
  destruct (read_effects ∅ (Handle Inputs.tags_only) Sample.fresh)
    as (_ & _ & _ & _ & Hmd5).
  exact (Hmd5 Inputs.tags_only (KInt 1) (KInt 1) eq_refl Hv eq_refl Ht eq_refl).
Defined.


(** ** The loaders: what they leave and what they store *)

Section LoaderTables.

Context `{Extern} `{Builtins}.

(** The steps of a call that returned, taken apart. *)
Ltac steps E :=
  repeat match type of E with
         | _ ≫= _ = Ok _ => apply bind_Ok in E as (? & _ & E)
         | (let '(_, _) := ?x in _) = _ => destruct x
         end.

Lemma SimpleSphericalDust_self (fs : gmap string textfile) (path : string)
    (d : SphericalDust) :
  SimpleSphericalDust fs path = Ok d ->
  exists f : textfile,
    open_file fs path = Ok f /\ md5 d = KStr (md5_hexdigest f) /\ untouched d.
Proof.
  unfold SimpleSphericalDust. rewrite SphericalDust_init_no_args.
  cbn [mbind result_bind]. intros E.
  apply bind_Ok in E as (dustfile & _ & E).
  apply bind_Ok in E as (albedo_ & _ & E).
  apply bind_Ok in E as (f & Ef & E).
  steps E. inversion E; subst d. exists f. split; [exact Ef |].
  split; [reflexivity |]. repeat split.
Qed.

(** X13: a model a loader returns has no file name, unset emissivities and
    mean opacities, and the sublimation mode 'no' with the threshold 0.0, as
    the constructor of [SphericalDust] left them.  [SimpleSphericalDust]
    records the MD5 digest of its table file as the checksum; the other
    loaders leave the checksum [None]. *)
Theorem loaders_leave_defaults :
  (forall (fs : gmap string textfile) (path : string) (d : SphericalDust),
      SimpleSphericalDust fs path = Ok d ->
      exists f : textfile,
        open_file fs path = Ok f /\ md5 d = KStr (md5_hexdigest f) /\ untouched d)
  /\ (forall (fs : gmap string textfile) (model : string) (d : SphericalDust)
             (warnings : list string),
      MieXDust fs model = Ok (d, warnings) -> md5 d = KNone /\ untouched d)
  /\ (forall (wav chi_ albedo_ : ndarray) (d : SphericalDust),
      IsotropicSphericalDust wav chi_ albedo_ = Ok d -> md5 d = KNone /\ untouched d)
  /\ (forall (fs : gmap string textfile) (directory : string) (size density : float)
             (d : SphericalDust),
      CoatsphSingle fs directory size density = Ok d -> md5 d = KNone /\ untouched d)
  /\ (forall (fs : gmap string textfile) (directory : string) (d : SphericalDust),
      CoatsphMultiple fs directory = Ok d -> md5 d = KNone /\ untouched d).
Proof.
  split; [exact SimpleSphericalDust_self |].
  split; [| split; [| split]].
  - intros fs model d warnings. unfold MieXDust. rewrite SphericalDust_init_no_args.
    cbn [mbind result_bind]. intros E. steps E.
    inversion E; subst d. split; [reflexivity |]. repeat split.
  - intros wav chi_ albedo_ d. unfold IsotropicSphericalDust.
    rewrite SphericalDust_init_no_args. cbn [mbind result_bind]. intros E. steps E.
    inversion E; subst d. split; [reflexivity |]. repeat split.
  - intros fs directory size density d. unfold CoatsphSingle.
    rewrite SphericalDust_init_no_args. cbn [mbind result_bind]. intros E. steps E.
    inversion E; subst d. split; [reflexivity |]. repeat split.
  - intros fs directory d. unfold CoatsphMultiple.
    rewrite SphericalDust_init_no_args. cbn [mbind result_bind]. intros E. steps E.
    inversion E; subst d. split; [reflexivity |]. repeat split.
Qed.

(** X14: a model [IsotropicSphericalDust] returns was given an array of
    wavelengths; its angle grid is the two cosines -1 and 1, its frequencies
    are [c / wav * 1e4] entry by entry, its albedo and [chi] are the ones
    given, and its matrices have one row per wavelength and two columns,
    [P1] and [P3] holding 1 everywhere and [P2] and [P4] holding 0
    everywhere. *)
Theorem IsotropicSphericalDust_table (wav chi_ albedo_ : ndarray) (d : SphericalDust) :
  IsotropicSphericalDust wav chi_ albedo_ = Ok d ->
  exists ws : list float,
    wav = Array ws
    /\ mu (optical_properties d) = Some (Array [-1; 1]%float)
    /\ nu (optical_properties d)
       = Some (Array (map (fun w => (c / w * 1e4)%float) ws))
    /\ albedo (optical_properties d) = Some albedo_
    /\ chi (optical_properties d) = Some chi_
    /\ P1 (optical_properties d)
       = Some {| n_cols := 2; rows := replicate (length ws) [1; 1]%float |}
    /\ P2 (optical_properties d)
       = Some {| n_cols := 2; rows := replicate (length ws) [0; 0]%float |}
    /\ P3 (optical_properties d)
       = Some {| n_cols := 2; rows := replicate (length ws) [1; 1]%float |}
    /\ P4 (optical_properties d)
       = Some {| n_cols := 2; rows := replicate (length ws) [0; 0]%float |}.
Proof.
  destruct wav as [w | ws]; [discriminate |].
  intros E. exists ws. split; [reflexivity |].
  unfold IsotropicSphericalDust in E. rewrite SphericalDust_init_no_args in E.
  cbn [mbind result_bind broadcast2] in E.
  unfold update_optical_properties, initialize_scattering_matrix in E.
  cbn [optical_properties with_optical_properties with_mu with_nu with_albedo
         with_chi nu mu albedo chi P1 P2 P3 P4 np_len mbind result_bind] in E.
  unfold scattering_matrix in E. cbn [P1 P2 P3 P4 with_P mbind result_bind] in E.
  inversion E; subst d; clear E.
  cbn [optical_properties with_optical_properties with_P nu mu albedo chi P1 P2 P3 P4].
  unfold fill, zeros. cbn [n_cols rows].
  rewrite !map_map, !length_map, !fmap_replicate.
  repeat split; vm_compute; reflexivity.
Qed.

Lemma get_column_entry (n_rows n i j : nat) (m : matrix) (col : list float) :
  shaped n_rows n m -> get_column m i = Ok col -> j < n_rows ->
  entry m j i = col !! j.
Proof.
  intros (Hc & Hr & Hf) E Hj. unfold get_column in E.
  destruct (Nat.ltb_spec i (n_cols m)) as [Hi | Hi]; [| discriminate].
  inversion E; subst col; clear E.
  destruct (lookup_lt_is_Some_2 (rows m) j) as [r Hrow]; [lia |].
  assert (length r = n) as Lr by exact (Forall_lookup_1 _ _ _ _ Hf Hrow).
  destruct (lookup_lt_is_Some_2 r i) as [x Hx]; [lia |].
  unfold entry. rewrite Hrow. cbn. rewrite list_lookup_fmap, Hrow. cbn.
  rewrite nth_lookup, Hx. reflexivity.
Qed.

(** X15: in the model [SimpleSphericalDust] returns, the entry of [P1] for
    the table row [j] and the cosine [mu[i]] is
    [(1 - g*g) / (1 + g*g - 2*g*mu[i]) ** 1.5] computed in binary64 from the
    [g] of that row alone, the entries of [P2] and [P3] are derived from it
    with the [p_lin_max] of that row and [mu[i]], and the entry of [P4] is
    0.0. *)
Theorem SimpleSphericalDust_entries (fs : gmap string textfile) (path : string)
    (d : SphericalDust) :
  SimpleSphericalDust fs path = Ok d ->
  exists (dustfile : list (list float)) (m1 m2 m3 m4 : matrix),
    loadtxt fs path [0; 1; 2; 3; 4; 5] = Ok dustfile
    /\ P1 (optical_properties d) = Some m1
    /\ P2 (optical_properties d) = Some m2
    /\ P3 (optical_properties d) = Some m3
    /\ P4 (optical_properties d) = Some m4
    /\ forall (j i : nat) (g p_lin_max mu_i : float),
         field 4 dustfile !! j = Some g ->
         field 5 dustfile !! j = Some p_lin_max ->
         linspace (-1) 1 100 !! i = Some mu_i ->
         entry m1 j i = Some (P1_binary64 mu_i g)
         /\ entry m2 j i = Some (P2_binary64 mu_i p_lin_max (P1_binary64 mu_i g))
         /\ entry m3 j i = Some (P3_binary64 mu_i (P1_binary64 mu_i g))
         /\ entry m4 j i = Some 0%float.
Proof.
  intros E.
  destruct (SimpleSphericalDust_inv _ _ _ E)
    as (dustfile & m1 & m2 & m3 & m4 & Hload & _ & _ & _ & _ & _ & E1 & E2 & E3 & E4
        & S1 & S2 & S3 & S4 & Hcols).
  exists dustfile, m1, m2, m3, m4.
  repeat (split; [assumption |]).
  intros j i g p mu_i Hg Hp Hmu.
  assert (i < 100) as Hi.
  { rewrite <- (linspace_length (-1) 1 100). apply (lookup_lt_Some _ _ _ Hmu). }
  assert (j < length dustfile) as Hj.
  { rewrite <- (field_length 4). apply (lookup_lt_Some _ _ _ Hg). }
  destruct (Hcols i Hi) as (mu_i' & x1 & x2 & x3 & Hmu' & Ehg & C1 & C2 & C3 & C4).
  rewrite Hmu in Hmu'. inversion Hmu'; subst mu_i'; clear Hmu'.
  rewrite hg_arrays_entries in Ehg by (rewrite !field_length; reflexivity).
  inversion Ehg; subst x1 x2 x3; clear Ehg.
  rewrite (get_column_entry _ _ i j _ _ S1 C1 Hj), (get_column_entry _ _ i j _ _ S2 C2 Hj),
    (get_column_entry _ _ i j _ _ S3 C3 Hj), (get_column_entry _ _ i j _ _ S4 C4 Hj).
  rewrite !list_lookup_fmap, Hg. cbn.
  rewrite lookup_zip_with, Hp. cbn. rewrite Hg. cbn.
  rewrite lookup_replicate_2 by (rewrite field_length; exact Hj).
  repeat split.
Qed.

End LoaderTables.

Lemma loaders_leave_defaults_witness :
  exists (d : SphericalDust) (f : textfile),
    @SimpleSphericalDust Sample.extern Sample.simple_files "dust.dat" = Ok d
    /\ open_file Sample.simple_files "dust.dat" = Ok f
    /\ md5 d = KStr (@md5_hexdigest Sample.extern f)
    /\ untouched d.
Proof.
  eexists.
  assert (forall d : SphericalDust,
            @SimpleSphericalDust Sample.extern Sample.simple_files "dust.dat" = Ok d ->
            exists f : textfile,
              @SimpleSphericalDust Sample.extern Sample.simple_files "dust.dat" = Ok d
              /\ open_file Sample.simple_files "dust.dat" = Ok f
              /\ md5 d = KStr (@md5_hexdigest Sample.extern f)
              /\ untouched d) as Hw.
  { intros d E.
    destruct (proj1 (@loaders_leave_defaults Sample.extern Inputs.builtins) _ _ _ E)
      as (f & Hf & Hmd5 & Hu).
    exists f. auto. }
  apply Hw. vm_compute; reflexivity.
Defined.

Lemma SimpleSphericalDust_entries_witness :
  exists (d : SphericalDust) (dustfile : list (list float)) (m1 : matrix),
    @SimpleSphericalDust Sample.extern Sample.simple_files "dust.dat" = Ok d
    /\ loadtxt Sample.simple_files "dust.dat" [0; 1; 2; 3; 4; 5] = Ok dustfile
    /\ P1 (optical_properties d) = Some m1
    /\ entry m1 1 0 = Some (@P1_binary64 Sample.extern (-1)%float 0.5%float).
Proof.
  eexists.
  assert (forall d : SphericalDust,
            @SimpleSphericalDust Sample.extern Sample.simple_files "dust.dat" = Ok d ->
            exists (dustfile : list (list float)) (m1 : matrix),
              @SimpleSphericalDust Sample.extern Sample.simple_files "dust.dat" = Ok d
              /\ loadtxt Sample.simple_files "dust.dat" [0; 1; 2; 3; 4; 5] = Ok dustfile
              /\ P1 (optical_properties d) = Some m1
              /\ entry m1 1 0 = Some (@P1_binary64 Sample.extern (-1)%float 0.5%float))
    as Hw.
  { intros d E.
    destruct (@SimpleSphericalDust_entries Sample.extern _ _ _ E)
      as (dustfile & m1 & m2 & m3 & m4 & Hload & E1 & _ & _ & _ & Hentries).
    exists dustfile, m1. split; [exact E |]. split; [exact Hload |]. split; [exact E1 |].
    assert (Ok dustfile
            = Ok [[1; 2; 1; 100; 0; 0.5]; [2; 4; 1; 50; 0.5; 0.25]]%float) as Hd
      by (rewrite <- Hload; vm_compute; reflexivity).
    inversion Hd; subst dustfile.
    apply (Hentries 1 0 0.5%float 0.25%float (-1)%float); vm_compute; reflexivity. }
  apply Hw. vm_compute; reflexivity.
Defined.

Lemma IsotropicSphericalDust_table_witness :
  exists d : SphericalDust,
    @IsotropicSphericalDust Sample.extern (Array [1; 2]%float) (Array [100; 50]%float)
      (Array [0.5; 0.25]%float) = Ok d
    /\ mu (optical_properties d) = Some (Array [-1; 1]%float)
    /\ chi (optical_properties d) = Some (Array [100; 50]%float)
    /\ P1 (optical_properties d)
       = Some {| n_cols := 2; rows := [[1; 1]; [1; 1]]%float |}
    /\ P2 (optical_properties d)
       = Some {| n_cols := 2; rows := [[0; 0]; [0; 0]]%float |}.
Proof.
  eexists. split; [vm_compute; reflexivity |].
  destruct (@IsotropicSphericalDust_table Sample.extern (Array [1; 2]%float)
              (Array [100; 50]%float) (Array [0.5; 0.25]%float) _
              ltac:(vm_compute; reflexivity))
    as (ws & Hws & Hmu & _ & _ & Hchi & HP1 & HP2 & _).
  inversion Hws; subst ws. auto.
Defined.

(** ** The layout of the MieX files *)

Lemma number_at_line (F : textfile) (l k : nat) (ln : line) :
  F !! l = Some ln ->
  number_at F l k = match ln !! k with
                    | Some (Num x) => Some x
                    | _ => None
                    end.
Proof. intros E. unfold number_at, textfile in *. rewrite E. reflexivity. Qed.

Section MieXLayout.

Context `{Extern}.

Lemma entry_set_item (n_rows n j i : nat) (m m' : matrix) (x : float) :
  shaped n_rows n m -> set_item m j i x = Ok m' ->
  entry m' j i = Some x
  /\ forall j' i' : nat, (j', i') <> (j, i) -> entry m' j' i' = entry m j' i'.
Proof.
  intros (Hc & Hr & Hf) E. unfold set_item in E.
  destruct (rows m !! j) as [r |] eqn:Hj; [| discriminate].
  destruct (Nat.ltb_spec i (n_cols m)) as [Hi | Hi]; inversion E; subst m'; clear E.
  assert (length r = n) as Lr by exact (Forall_lookup_1 _ _ _ _ Hf Hj).
  pose proof (lookup_lt_Some _ _ _ Hj) as Hjlt.
  unfold entry. cbn [rows]. split.
  - rewrite list_lookup_insert_eq by exact Hjlt. cbn.
    apply list_lookup_insert_eq. lia.
  - intros j' i' Hne. destruct (decide (j' = j)) as [-> | Hj'].
    + rewrite list_lookup_insert_eq by exact Hjlt. rewrite Hj. cbn.
      apply list_lookup_insert_ne. congruence.
    + rewrite list_lookup_insert_ne by congruence. reflexivity.
Qed.

Lemma read_element_entry (n_rows n j i p : nat) (F f' : textfile) (m m' : matrix) :
  shaped n_rows n m ->
  read_element (drop p F) m j i = Ok (f', m') ->
  f' = drop (S p) F
  /\ shaped n_rows n m'
  /\ (exists x : float, number_at F p 1 = Some x /\ entry m' j i = Some x)
  /\ forall j' i' : nat, (j', i') <> (j, i) -> entry m' j' i' = entry m j' i'.
Proof.
  intros Hs E.
  destruct (read_element_Ok _ _ _ _ _ _ _ _ Hs E) as (Hs' & ln & Hd).
  apply drop_cons_inv in Hd as [Hln ->].
  split; [reflexivity |]. split; [exact Hs' |].
  unfold read_element in E. rewrite (drop_S _ _ _ Hln) in E. cbn [readline] in E.
  apply bind_Ok in E as (x & Ex & E).
  apply bind_Ok in E as (m1 & Em & E). inversion E; subst m1; clear E.
  destruct (entry_set_item _ _ _ _ _ _ _ Hs Em) as [He Ho].
  split; [| exact Ho].
  exists x. split; [| exact He].
  rewrite (number_at_line _ _ _ _ Hln). unfold float_of_field in Ex.
  destruct (ln !! 1) as [[y | w] |]; inversion Ex. reflexivity.
Qed.

Lemma read_from_kept (F : textfile) (n_mu j i j' i' : nat) (m m' : matrix) :
  (forall a b : nat, (a, b) <> (j, i) -> entry m' a b = entry m a b) ->
  (j', i') <> (j, i) -> read_from F n_mu m j' i' -> read_from F n_mu m' j' i'.
Proof.
  intros Ho Hne (x & Hx & He). exists x. split; [exact Hx |].
  rewrite (Ho _ _ Hne). exact He.
Qed.

Lemma miex_read_row_filled (F11 F12 F33 F34 : textfile) (n_rows n_mu j i : nat)
    (s s' : MieXState) :
  cursors F11 F12 F33 F34 (2 + j * (n_mu + 1) + i) s ->
  matrices_shaped n_rows n_mu s ->
  filled F11 F12 F33 F34 n_mu j i s ->
  miex_read_row j i s = Ok s' ->
  cursors F11 F12 F33 F34 (2 + j * (n_mu + 1) + S i) s'
  /\ matrices_shaped n_rows n_mu s'
  /\ filled F11 F12 F33 F34 n_mu j (S i) s'.
Proof.
  intros (C1 & C2 & C3 & C4) (S1 & S2 & S3 & S4) Hfill E. unfold miex_read_row in E.
  apply bind_Ok in E as ([g1 a1] & E1 & E).
  apply bind_Ok in E as ([g2 a2] & E2 & E).
  apply bind_Ok in E as ([g3 a3] & E3 & E).
  apply bind_Ok in E as ([g4 a4] & E4 & E).
  inversion E; subst s'; clear E.
  rewrite C1 in E1. rewrite C2 in E2. rewrite C3 in E3. rewrite C4 in E4.
  destruct (read_element_entry _ _ _ _ _ _ _ _ _ S1 E1) as (D1 & T1 & R1 & O1).
  destruct (read_element_entry _ _ _ _ _ _ _ _ _ S2 E2) as (D2 & T2 & R2 & O2).
  destruct (read_element_entry _ _ _ _ _ _ _ _ _ S3 E3) as (D3 & T3 & R3 & O3).
  destruct (read_element_entry _ _ _ _ _ _ _ _ _ S4 E4) as (D4 & T4 & R4 & O4).
  split; [| split].
  - unfold cursors. cbn. rewrite Nat.add_succ_r. auto.
  - unfold matrices_shaped. cbn. auto.
  - intros j' i' Hji. cbn [M1 M2 M3 M4].
    destruct (decide ((j', i') = (j, i))) as [Heq | Hne].
    + inversion Heq; subst j' i'. unfold read_from. auto.
    + destruct (Hfill j' i') as (G1 & G2 & G3 & G4).
      { destruct Hji as [Hji | [-> Hi']]; [left; exact Hji | right].
        split; [reflexivity |]. assert (i' <> i) by congruence. lia. }
      eauto 10 using read_from_kept.
Qed.

Lemma miex_read_block_filled (F11 F12 F33 F34 : textfile) (wav : list float)
    (n_rows n_mu j : nat) (s s' : MieXState) :
  cursors F11 F12 F33 F34 (1 + j * (n_mu + 1)) s ->
  matrices_shaped n_rows n_mu s ->
  filled F11 F12 F33 F34 n_mu j 0 s ->
  miex_read_block wav n_mu j s = Ok s' ->
  cursors F11 F12 F33 F34 (1 + S j * (n_mu + 1)) s'
  /\ matrices_shaped n_rows n_mu s'
  /\ filled F11 F12 F33 F34 n_mu (S j) 0 s'.
Proof.
  intros (C1 & C2 & C3 & C4) Hsh Hfill E. unfold miex_read_block in E.
  apply bind_Ok in E as (w & Ew & E).
  apply bind_Ok in E as (g1 & E1 & E).
  apply bind_Ok in E as (g2 & E2 & E).
  apply bind_Ok in E as (g3 & E3 & E).
  apply bind_Ok in E as (g4 & E4 & E).
  apply check_wavelength_Ok in E1 as (x1 & D1 & _).
  apply check_wavelength_Ok in E2 as (x2 & D2 & _).
  apply check_wavelength_Ok in E3 as (x3 & D3 & _).
  apply check_wavelength_Ok in E4 as (x4 & D4 & _).
  rewrite C1 in D1. rewrite C2 in D2. rewrite C3 in D3. rewrite C4 in D4.
  apply drop_cons_inv in D1 as [_ D1]. apply drop_cons_inv in D2 as [_ D2].
  apply drop_cons_inv in D3 as [_ D3]. apply drop_cons_inv in D4 as [_ D4].
  match type of E with
  | foldM _ _ ?s0 = _ =>
      pose proof (foldM_range_inv (miex_read_row j)
                    (fun i t =>
                       cursors F11 F12 F33 F34 (2 + j * (n_mu + 1) + i) t
                       /\ matrices_shaped n_rows n_mu t
                       /\ filled F11 F12 F33 F34 n_mu j i t)
                    n_mu s0 s') as Hloop
  end.
  destruct Hloop as (C' & S' & F'); [| | exact E |].
  - split; [| split].
    + unfold cursors. cbn. rewrite Nat.add_0_r. auto.
    + exact Hsh.
    + exact Hfill.
  - intros i t t' _ (Ct & St & Ft) Et.
    exact (miex_read_row_filled _ _ _ _ _ _ _ _ _ _ Ct St Ft Et).
  - split; [| split; [exact S' |]].
    + replace (1 + S j * (n_mu + 1)) with (2 + j * (n_mu + 1) + n_mu) by lia. exact C'.
    + intros j' i' [[Hj Hi] | [-> Hi]]; [| lia].
      apply F'. destruct (decide (j' = j)) as [-> | Hne]; [right | left]; split; lia.
Qed.

Lemma miex_read_blocks_filled (F11 F12 F33 F34 : textfile) (wav : list float)
    (n_rows n_mu k : nat) (s s' : MieXState) :
  cursors F11 F12 F33 F34 1 s -> matrices_shaped n_rows n_mu s ->
  foldM (miex_read_block wav n_mu) (seq 0 k) s = Ok s' ->
  forall j i : nat, j < k -> i < n_mu ->
    read_from F11 n_mu (M1 s') j i /\ read_from F12 n_mu (M2 s') j i
    /\ read_from F33 n_mu (M3 s') j i /\ read_from F34 n_mu (M4 s') j i.
Proof.
  intros C Hsh E j i Hj Hi.
  refine (proj2 (proj2 (foldM_range_inv (miex_read_block wav n_mu)
           (fun j t =>
              cursors F11 F12 F33 F34 (1 + j * (n_mu + 1)) t
              /\ matrices_shaped n_rows n_mu t
              /\ filled F11 F12 F33 F34 n_mu j 0 t)
           k s s' _ _ E)) j i _).
  - split; [exact C |]. split; [exact Hsh |]. intros j' i' [[Hj' _] | [_ Hi']]; lia.
  - intros j0 t t' _ (Ct & St & Ft) Et.
    exact (miex_read_block_filled _ _ _ _ _ _ _ _ _ _ Ct St Ft Et).
  - left. split; assumption.
Qed.

(** The angle loop: [mu[i]] comes from the first field of line [2 + i]. *)
Lemma miex_read_mu_values (F : textfile) (k : nat) (f' : textfile) (mu0 mu1 : list float) :
  foldM miex_read_mu (seq 0 k) (drop 2 F, mu0) = Ok (f', mu1) ->
  k <= length mu0 ->
  forall i : nat, i < k ->
    exists x : float,
      number_at F (2 + i) 0 = Some x /\ mu1 !! i = Some (np_cos (np_radians x)).
Proof.
  intros E Hk.
  refine (proj2 (proj2 (foldM_range_inv miex_read_mu
           (fun i t =>
              fst t = drop (2 + i) F
              /\ length (snd t) = length mu0
              /\ forall i', i' < i ->
                   exists x : float,
                     number_at F (2 + i') 0 = Some x
                     /\ snd t !! i' = Some (np_cos (np_radians x)))
           k (drop 2 F, mu0) (f', mu1) _ _ E))).
  - cbn. split; [reflexivity |]. split; [reflexivity |]. intros i' Hi'. lia.
  - intros i [g a] [g' a'] Hi (Hg & Ha & Hdone) Et. cbn [fst snd] in *. subst g.
    unfold miex_read_mu in Et. cbn [fst snd] in Et.
    destruct (readline (drop (2 + i) F)) as [ln rest] eqn:Er.
    apply bind_Ok in Et as (x & Ex & Et). inversion Et; subst g' a'; clear Et.
    assert (ln <> []) as Hln by (intros ->; discriminate).
    pose proof (readline_nonblank _ _ _ Er Hln) as Hd.
    apply drop_cons_inv in Hd as [Hl ->].
    split; [reflexivity |]. split; [rewrite length_insert; exact Ha |].
    intros i' Hi'. destruct (decide (i' = i)) as [-> | Hne].
    + exists x. split.
      * rewrite (number_at_line _ _ _ _ Hl). unfold float_of_field in Ex.
        destruct (ln !! 0) as [[y | w] |]; inversion Ex. reflexivity.
      * apply list_lookup_insert_eq. lia.
    + destruct (Hdone i') as (y & Hy & Hy'); [lia |].
      exists y. split; [exact Hy |]. rewrite list_lookup_insert_ne by congruence. exact Hy'.
Qed.

Lemma readline_drop (f : textfile) : snd (readline f) = drop 1 f.
Proof. destruct f; reflexivity. Qed.

Lemma MieXDust_mu_loop (fs : gmap string textfile) (model : string) (d : SphericalDust)
    (warnings : list string) :
  MieXDust fs model = Ok (d, warnings) ->
  exists (wav mu1 : list float) (F11 f' : textfile),
    let n_mu := Z.to_nat (Z.of_nat (length F11 / length wav) - 1) in
    loadtxt_column fs (model +:+ ".alb") 0 = Ok (Array wav)
    /\ open_file fs (model +:+ ".f11") = Ok F11
    /\ foldM miex_read_mu (seq 0 n_mu) (drop 2 F11, replicate n_mu 0%float) = Ok (f', mu1)
    /\ mu (optical_properties d) = Some (Array mu1).
Proof.
  unfold MieXDust. rewrite SphericalDust_init_no_args. cbn [mbind result_bind]. intros E.
  apply bind_Ok in E as (wav_ & Ewav & E).
  apply bind_Ok in E as (albedo_ & Ealb & E).
  apply bind_Ok in E as (kappa & Ekap & E).
  apply bind_Ok in E as (chi_ & Echi & E).
  apply bind_Ok in E as ([[wav albedo0] chi0] & Earr & E).
  destruct wav_ as [| wav']; [discriminate |].
  destruct albedo_ as [| albedo']; [discriminate |].
  destruct chi_ as [| chi']; [discriminate |].
  inversion Earr; subst wav' albedo' chi'; clear Earr.
  apply bind_Ok in E as ([chi1 w_chi] & Erchi & E).
  apply bind_Ok in E as ([albedo1 w_albedo] & Eralb & E).
  apply bind_Ok in E as (F11 & E11 & E).
  apply bind_Ok in E as (n_mu_z & Enmu & E).
  apply bind_Ok in E as (mu0 & Ezeros & E).
  apply bind_Ok in E as (op & Einit & E).
  apply bind_Ok in E as (F11' & E11' & E).
  apply bind_Ok in E as ([f' mu1] & Emu & E).
  apply bind_Ok in E as (F11'' & E11'' & E).
  apply bind_Ok in E as (F12 & E12 & E).
  apply bind_Ok in E as (F33 & E33 & E).
  apply bind_Ok in E as (F34 & E34 & E).
  apply bind_Ok in E as ([[[z1 z2] z3] z4] & Esm & E).
  apply bind_Ok in E as (s & Eread & E).
  apply bind_Ok in E as ([[[[m1 m2] m3] m4] w_P] & Erep & E).
  inversion E; subst d warnings; clear E.
  rewrite E11 in E11'. inversion E11'; subst F11'.
  destruct (Nat.eqb_spec (length wav) 0) as [Hz | Hnz]; [discriminate |].
  inversion Enmu; subst n_mu_z; clear Enmu.
  apply np_zeros_Ok in Ezeros as [Hpos ->].
  rewrite !readline_drop, drop_drop in Emu.
  exists wav, mu1, F11, f'. cbv zeta.
  split; [exact Ewav |]. split; [exact E11 |]. split; [exact Emu |]. reflexivity.
Qed.

Lemma repaired_keeps (quantity : string) (wav raw final : list float)
    (warnings : list string) (j : nat) (x : float) :
  repaired quantity wav raw final warnings ->
  raw !! j = Some x -> isnan x = false -> final !! j = Some x.
Proof.
  intros (_ & _ & Hr) Hj Hx. destruct (any_isnan raw).
  - destruct Hr as (fixed & _ & _ & Hkeep & _). exact (Hkeep j x Hj Hx).
  - destruct Hr as [-> _]. exact Hj.
Qed.

Lemma repair_progress_kept (quantity : string) (wav : list float) (F : textfile)
    (n_rows n_mu j i : nat) (raw m : matrix) :
  shaped n_rows n_mu raw ->
  repair_progress quantity wav n_rows n_mu raw n_mu m ->
  j < n_rows -> i < n_mu ->
  read_from F n_mu raw j i -> kept_from F n_mu m j i.
Proof.
  intros Hraw (Hm & Hdone & _) Hj Hi (x & Hx & He).
  exists x. split; [exact Hx |]. intros Hnan.
  destruct (Hdone i Hi) as (before & after & w & Eb & Ea & Hrep).
  pose proof (get_column_entry _ _ i j _ _ Hraw Eb Hj) as Hb.
  rewrite (get_column_entry _ _ i j _ _ Hm Ea Hj).
  rewrite He in Hb. symmetry in Hb.
  exact (repaired_keeps _ _ _ _ _ _ _ Hrep Hb Hnan).
Qed.

(** X16: in the model [MieXDust] returns, the frequencies are
    [c / wav * 1e4] for the wavelengths of the [.alb] file, [mu[i]] is the
    cosine of the angle, converted from degrees, in the first field of line
    [2 + i] of the [.f11] file, and the entry of [P1] (of [P2], [P3], [P4])
    for wavelength [j] and angle [i] is the number in the second field of
    line [2 + j * (n_mu + 1) + i] of the [.f11] (the [.f12], [.f33],
    [.f34]) file whenever that number is not a NaN. *)
Theorem MieXDust_layout (fs : gmap string textfile) (model : string) (d : SphericalDust)
    (warnings : list string) :
  MieXDust fs model = Ok (d, warnings) ->
  exists (wav mu_ : list float) (F11 F12 F33 F34 : textfile) (m1 m2 m3 m4 : matrix),
    let n_mu := Z.to_nat (Z.of_nat (length F11 / length wav) - 1) in
    loadtxt_column fs (model +:+ ".alb") 0 = Ok (Array wav)
    /\ open_file fs (model +:+ ".f11") = Ok F11
    /\ open_file fs (model +:+ ".f12") = Ok F12
    /\ open_file fs (model +:+ ".f33") = Ok F33
    /\ open_file fs (model +:+ ".f34") = Ok F34
    /\ nu (optical_properties d)
       = Some (Array (map (fun w => (c / w * 1e4)%float) wav))
    /\ mu (optical_properties d) = Some (Array mu_)
    /\ length mu_ = n_mu
    /\ (forall i : nat, i < n_mu ->
          exists x : float,
            number_at F11 (2 + i) 0 = Some x
            /\ mu_ !! i = Some (np_cos (np_radians x)))
    /\ P1 (optical_properties d) = Some m1
    /\ P2 (optical_properties d) = Some m2
    /\ P3 (optical_properties d) = Some m3
    /\ P4 (optical_properties d) = Some m4
    /\ forall j i : nat, j < length wav -> i < n_mu ->
         kept_from F11 n_mu m1 j i /\ kept_from F12 n_mu m2 j i
         /\ kept_from F33 n_mu m3 j i /\ kept_from F34 n_mu m4 j i.
Proof.
  intros E.
  destruct (MieXDust_inv _ _ _ _ E)
    as (wav & albedo0 & chi0 & chi1 & albedo1 & mu1 & kappa & w_chi & w_albedo & w_P
        & F11 & F12 & F33 & F34 & s & m1 & m2 & m3 & m4 & Hall).
  cbv zeta in Hall.
  destruct Hall as (Ewav & Ealb & Ekap & Echi & Erchi & Eralb & E11 & E12 & E33 & E34
                    & Hnz & Lmu & Eread & Erep & Eop & ->).
  destruct (MieXDust_mu_loop _ _ _ _ E) as (wav' & mu1' & F11' & f' & Hmu).
  cbv zeta in Hmu. destruct Hmu as (Ewav' & E11' & Emu & Hmu1).
  rewrite Ewav in Ewav'. inversion Ewav'; subst wav'; clear Ewav'.
  rewrite E11 in E11'. inversion E11'; subst F11'; clear E11'.
  rewrite Eop in Hmu1. cbn [mu] in Hmu1. inversion Hmu1; subst mu1'; clear Hmu1.
  set (n_mu := Z.to_nat (Z.of_nat (length F11 / length wav) - 1)) in *.
  pose proof (cursors_after_header F11 F12 F33 F34
                (zeros (length wav) n_mu) (zeros (length wav) n_mu)
                (zeros (length wav) n_mu) (zeros (length wav) n_mu)) as Hcur.
  assert (matrices_shaped (length wav) n_mu
            {| f11 := snd (readline F11); f12 := snd (readline F12);
               f33 := snd (readline F33); f34 := snd (readline F34);
               M1 := zeros (length wav) n_mu; M2 := zeros (length wav) n_mu;
               M3 := zeros (length wav) n_mu; M4 := zeros (length wav) n_mu |}) as Hsh
    by (repeat split; apply shaped_zeros).
  destruct (miex_read_blocks _ _ _ _ _ _ _ _ _ _ Hcur Hsh Eread) as ((S1 & S2 & S3 & S4) & _).
  pose proof (miex_read_blocks_filled _ _ _ _ _ _ _ _ _ _ Hcur Hsh Eread) as Hfill.
  destruct (MieXDust_loops _ _ _ _ _ _ _ _ _ _ _ _ Eread Erep)
    as (_ & G1 & G2 & G3 & G4 & _).
  exists wav, mu1, F11, F12, F33, F34, m1, m2, m3, m4.
  cbv zeta. fold n_mu. rewrite Eop. cbn [nu mu P1 P2 P3 P4].
  repeat (split; [first [assumption | reflexivity] |]).
  split.
  { apply (miex_read_mu_values F11 n_mu f' (replicate n_mu 0%float) mu1 Emu).
    rewrite length_replicate. lia. }
  repeat (split; [reflexivity |]).
  intros j i Hj Hi. destruct (Hfill j i Hj Hi) as (R1 & R2 & R3 & R4).
  eauto 10 using repair_progress_kept.
Qed.

End MieXLayout.

Lemma MieXDust_layout_witness :
  exists (d : SphericalDust) (warnings : list string),
    @MieXDust Sample.extern Sample.miex_files "m" = Ok (d, warnings)
    /\ exists (wav mu_ : list float) (F11 : textfile) (m1 : matrix),
        loadtxt_column Sample.miex_files "m.alb" 0 = Ok (Array wav)
        /\ open_file Sample.miex_files "m.f11" = Ok F11
        /\ nu (optical_properties d)
           = Some (Array (map (fun w => (@c Sample.extern / w * 1e4)%float) wav))
        /\ mu (optical_properties d) = Some (Array mu_)
        /\ P1 (optical_properties d) = Some m1
        /\ forall j i : nat, j < length wav -> i < length mu_ ->
             kept_from F11 (length mu_) m1 j i.
Proof.
  eexists _, _. split; [vm_compute; reflexivity |].
  destruct (@MieXDust_layout Sample.extern Sample.miex_files "m" _ _
              ltac:(vm_compute; reflexivity))
    as (wav & mu_ & F11 & F12 & F33 & F34 & m1 & m2 & m3 & m4 & Hall).
  cbv zeta in Hall.
  destruct Hall as (Ewav & E11 & _ & _ & _ & Hnu & Hmu & Hlen & _ & HP1 & _ & _ & _ & Hkept).
  exists wav, mu_, F11, m1. repeat (split; [assumption |]).
  intros j i Hj Hi. rewrite Hlen in Hi |- *. exact (proj1 (Hkept j i Hj Hi)).
Defined.

(** ** The tables of the Coatsph loaders *)

Section Coatsph.

Context `{Extern} `{Builtins}.

Lemma set_row_Ok (n_rows n i : nat) (m m' : matrix) (v : ndarray) :
  shaped n_rows n m -> set_row m i v = Ok m' ->
  shaped n_rows n m'
  /\ rows m' !! i = Some (broadcast_row n v)
  /\ (forall i' : nat, i' <> i -> rows m' !! i' = rows m !! i')
  /\ match v with
     | Scalar _ => True
     | Array xs => length xs = n \/ length xs = 1
     end.
Proof.
  intros (Hc & Hr & Hf) E. subst n. unfold set_row in E.
  destruct (rows m !! i) as [r |] eqn:Hi; [| discriminate].
  pose proof (lookup_lt_Some _ _ _ Hi) as Hlt.
  assert (forall r' : list float, length r' = n_cols m ->
            shaped n_rows (n_cols m) {| n_cols := n_cols m; rows := <[i := r']> (rows m) |}
            /\ rows {| n_cols := n_cols m; rows := <[i := r']> (rows m) |} !! i = Some r'
            /\ forall i' : nat, i' <> i ->
                 rows {| n_cols := n_cols m; rows := <[i := r']> (rows m) |} !! i'
                 = rows m !! i') as Hput.
  { intros r' Lr'. cbn [rows]. split; [| split].
    - unfold shaped. cbn. split; [reflexivity |]. split; [rewrite length_insert; exact Hr |].
      apply Forall_insert; assumption.
    - apply list_lookup_insert_eq. exact Hlt.
    - intros i' Hne. apply list_lookup_insert_ne. congruence. }
  destruct v as [x | xs]; cbn [broadcast_row].
  - inversion E; subst m'; clear E.
    destruct (Hput (replicate (n_cols m) x)) as (P1 & P2 & P3);
      [apply length_replicate |].
    auto.
  - destruct (Nat.eqb_spec (length xs) (n_cols m)) as [Hx | Hx].
    + inversion E; subst m'; clear E.
      destruct (Hput xs Hx) as (P1 & P2 & P3). auto.
    + destruct xs as [| x [| y xs]]; try discriminate.
      inversion E; subst m'; clear E.
      destruct (Hput (replicate (n_cols m) x)) as (P1 & P2 & P3);
        [apply length_replicate |].
      cbn [nth]. auto.
Qed.

Lemma getfield_length (k : nat) (table : list (list float)) :
  match getfield k table with
  | Scalar _ => length table = 1
  | Array xs => length xs = length table /\ length table <> 1
  end.
Proof.
  unfold getfield, squeeze. pose proof (field_length k table) as L.
  destruct (field k table) as [| x [| y xs]]; cbn in *; lia.
Qed.

Lemma phase_rows_kept (fs : gmap string textfile) (name : nat -> string)
    (skiprows n_mu k i : nat) (m1 m2 m3 m4 m1' m2' m3' m4' : matrix) :
  (forall i' : nat, i' <> k -> rows m1' !! i' = rows m1 !! i') ->
  (forall i' : nat, i' <> k -> rows m2' !! i' = rows m2 !! i') ->
  (forall i' : nat, i' <> k -> rows m3' !! i' = rows m3 !! i') ->
  (forall i' : nat, i' <> k -> rows m4' !! i' = rows m4 !! i') ->
  i <> k ->
  phase_row fs name skiprows n_mu m1 m2 m3 m4 i ->
  phase_row fs name skiprows n_mu m1' m2' m3' m4' i.
Proof.
  intros K1 K2 K3 K4 Hne (pf & Hpf & Hlen & R1 & R2 & R3 & R4).
  exists pf. rewrite (K1 i Hne), (K2 i Hne), (K3 i Hne), (K4 i Hne). auto 10.
Qed.

(** The four row assignments of one turn. *)
Lemma coatsph_rows_step (fs : gmap string textfile) (name : nat -> string)
    (skiprows n_wav n_mu k : nat) (phasefile : list (list float))
    (op op' : OpticalProperties) (m1 m2 m3 m4 : matrix) :
  phase_table fs (name k) skiprows = Ok phasefile ->
  P1 op = Some m1 -> P2 op = Some m2 -> P3 op = Some m3 -> P4 op = Some m4 ->
  shaped n_wav n_mu m1 -> shaped n_wav n_mu m2 ->
  shaped n_wav n_mu m3 -> shaped n_wav n_mu m4 ->
  (forall i : nat, i < k -> phase_row fs name skiprows n_mu m1 m2 m3 m4 i) ->
  ('(m1, m2, m3, m4) ← scattering_matrix op;
   m1 ← set_row m1 k (getfield 1 phasefile);
   m2 ← set_row m2 k (getfield 3 phasefile);
   m3 ← set_row m3 k (getfield 4 phasefile);
   m4 ← set_row m4 k (getfield 5 phasefile);
   Ok (with_P m1 m2 m3 m4 op)) = Ok op' ->
  exists m1' m2' m3' m4' : matrix,
    op' = with_P m1' m2' m3' m4' op
    /\ shaped n_wav n_mu m1' /\ shaped n_wav n_mu m2'
    /\ shaped n_wav n_mu m3' /\ shaped n_wav n_mu m4'
    /\ forall i : nat, i < S k -> phase_row fs name skiprows n_mu m1' m2' m3' m4' i.
Proof.
  intros Hpf E1 E2 E3 E4 S1 S2 S3 S4 Hdone E.
  unfold scattering_matrix in E. rewrite E1, E2, E3, E4 in E. cbn [mbind result_bind] in E.
  apply bind_Ok in E as (a1 & A1 & E).
  apply bind_Ok in E as (a2 & A2 & E).
  apply bind_Ok in E as (a3 & A3 & E).
  apply bind_Ok in E as (a4 & A4 & E).
  inversion E; subst op'; clear E.
  destruct (set_row_Ok _ _ _ _ _ _ S1 A1) as (T1 & R1 & K1 & L1).
  destruct (set_row_Ok _ _ _ _ _ _ S2 A2) as (T2 & R2 & K2 & _).
  destruct (set_row_Ok _ _ _ _ _ _ S3 A3) as (T3 & R3 & K3 & _).
  destruct (set_row_Ok _ _ _ _ _ _ S4 A4) as (T4 & R4 & K4 & _).
  exists a1, a2, a3, a4. split; [reflexivity |].
  repeat (split; [assumption |]).
  intros i Hi. destruct (decide (i = k)) as [-> | Hne].
  - exists phasefile. split; [exact Hpf |]. split; [| auto].
    pose proof (getfield_length 1 phasefile) as Hg.
    destruct (getfield 1 phasefile) as [x | xs]; [right; exact Hg |].
    destruct Hg as [Hg Hn1]. destruct L1 as [L1 | L1]; [left; lia | lia].
  - apply (phase_rows_kept fs name skiprows n_mu k i m1 m2 m3 m4); try assumption.
    apply Hdone. lia.
Qed.

Lemma coatsph_phase_file_step (fs : gmap string textfile) (name : nat -> string)
    (skiprows n_wav k : nat) (nu_ : list float) (op0 op op' : OpticalProperties) :
  nu op0 = Some (Array nu_) -> length nu_ = n_wav ->
  mu op0 = None ->
  phase_files_read fs name skiprows n_wav op0 k op ->
  coatsph_phase_file fs (name k) skiprows k op = Ok op' ->
  phase_files_read fs name skiprows n_wav op0 (S k) op'.
Proof.
  intros Hnu Lnu Hmu0 (Inu & Ialb & Ichi & Ik) E. unfold coatsph_phase_file in E.
  apply bind_Ok in E as (f & Ef & E).
  apply bind_Ok in E as (phasefile & Epf & E).
  assert (phase_table fs (name k) skiprows = Ok phasefile) as Hpf.
  { unfold phase_table. rewrite Ef. exact Epf. }
  apply bind_Ok in E as (op1 & E1 & E).
  destruct k as [| k]; cbn [Nat.eqb] in E1.
  - subst op. unfold initialize_scattering_matrix in E1. cbn [nu mu with_mu] in E1.
    rewrite Hnu in E1. cbn [np_len mbind result_bind] in E1. rewrite Lnu in E1.
    pose proof (getfield_length 0 phasefile) as Hg.
    destruct (getfield 0 phasefile) as [x | thetas] eqn:Eg; [discriminate |].
    destruct Hg as [Lth Hn1].
    cbn [ufunc np_len mbind result_bind] in E1. rewrite length_map, Lth in E1.
    inversion E1; subst op1; clear E1.
    assert (thetas = field 0 phasefile) as ->.
    { unfold getfield in Eg. apply squeeze_Array in Eg. exact Eg. }
    set (n_mu := length phasefile) in *.
    match type of E with
    | scattering_matrix ?o ≫= _ = _ =>
        destruct (coatsph_rows_step fs name skiprows n_wav n_mu 0 phasefile o op'
                    (zeros n_wav n_mu) (zeros n_wav n_mu) (zeros n_wav n_mu)
                    (zeros n_wav n_mu) Hpf eq_refl eq_refl eq_refl eq_refl
                    (shaped_zeros _ _) (shaped_zeros _ _) (shaped_zeros _ _)
                    (shaped_zeros _ _))
          as (m1 & m2 & m3 & m4 & -> & T1 & T2 & T3 & T4 & Hrows);
        [intros i Hi; lia | exact E |]
    end.
    unfold phase_files_read. cbn [nu albedo chi mu P1 P2 P3 P4 with_P with_mu].
    repeat (split; [reflexivity |]).
    exists phasefile, m1, m2, m3, m4. auto 15.
  - inversion E1; subst op1; clear E1.
    destruct Ik as (first & m1 & m2 & m3 & m4 & Hfirst & Hn1 & Hmu & E1 & E2 & E3 & E4
                    & S1 & S2 & S3 & S4 & Hdone).
    destruct (coatsph_rows_step fs name skiprows n_wav (length first) (S k) phasefile
                op op' m1 m2 m3 m4 Hpf E1 E2 E3 E4 S1 S2 S3 S4 Hdone E)
      as (a1 & a2 & a3 & a4 & -> & T1 & T2 & T3 & T4 & Hrows).
    unfold phase_files_read. cbn [nu albedo chi mu P1 P2 P3 P4 with_P].
    repeat (split; [assumption |]).
    exists first, a1, a2, a3, a4. auto 15.
Qed.

Lemma coatsph_loop (fs : gmap string textfile) (name : nat -> string)
    (skiprows : nat) (nu_ : list float) (op0 op : OpticalProperties) :
  nu op0 = Some (Array nu_) -> mu op0 = None ->
  foldM (fun i => coatsph_phase_file fs (name i) skiprows i) (seq 0 (length nu_)) op0
  = Ok op ->
  phase_files_read fs name skiprows (length nu_) op0 (length nu_) op.
Proof.
  intros Hnu Hmu E.
  apply (foldM_range_inv (fun i => coatsph_phase_file fs (name i) skiprows i)
           (phase_files_read fs name skiprows (length nu_) op0)
           (length nu_) op0 op); [| | exact E].
  - unfold phase_files_read. auto.
  - intros k s1 s2 _ Hk Es.
    exact (coatsph_phase_file_step fs name skiprows _ k nu_ op0 s1 s2 Hnu eq_refl Hmu Hk Es).
Qed.

Lemma len_records_Ok (table : list (list float)) (n : nat) :
  len_records table = Ok n -> n = length table /\ length table <> 1.
Proof.
  unfold len_records. destruct (Nat.eqb_spec (length table) 1); intros E; inversion E.
  split; [reflexivity | assumption].
Qed.

Lemma phase_files_read_loaded (fs : gmap string textfile) (name : nat -> string)
    (skiprows n_wav : nat) (op0 op : OpticalProperties) :
  mu op0 = None -> P1 op0 = None -> P2 op0 = None -> P3 op0 = None -> P4 op0 = None ->
  phase_files_read fs name skiprows n_wav op0 n_wav op ->
  nu op = nu op0 /\ albedo op = albedo op0 /\ chi op = chi op0
  /\ phase_files_loaded fs name skiprows n_wav op.
Proof.
  intros Hmu H1 H2 H3 H4 (Inu & Ialb & Ichi & Ik).
  repeat (split; [assumption |]).
  unfold phase_files_loaded. destruct n_wav as [| n]; [subst op; auto | exact Ik].
Qed.

(** X17: in the model [CoatsphSingle] returns, the frequencies are
    [c / wav * 1e4] for the third field of the records of
    [coatsph_forw.dat] after the first three lines below the header, the
    albedo is the fifth field divided by the fourth, and [chi] is
    [0.75 * q_ext / size / density] for the fourth field.  When there are
    wavelengths, the angle grid is the cosines of the angles, converted from
    degrees, in the first field of the first phase file
    [coatsph_scat_0001_0001.dat], read after its first nine lines, and row
    [i] of [P1], [P2], [P3] and [P4] holds the second, fourth, fifth and
    sixth fields of the phase file of index [i + 1]; a phase file of one
    record fills its row with that record's value.  When there is no
    wavelength, the angle grid and the matrices stay unset. *)
Theorem CoatsphSingle_table (fs : gmap string textfile) (directory : string)
    (size density : float) (d : SphericalDust) :
  CoatsphSingle fs directory size density = Ok d ->
  exists (F rest : textfile) (n_components : Z) (dustfile : list (list float)),
    open_file fs (directory +:+ "/coatsph_forw.dat") = Ok F
    /\ coatsph_header F = Ok (n_components, rest)
    /\ loadtxt_records rest 3 7 = Ok dustfile
    /\ length dustfile <> 1
    /\ nu (optical_properties d)
       = Some (Array (map (fun w => (c / w * 1e4)%float) (field 2 dustfile)))
    /\ albedo (optical_properties d)
       = Some (Array (zip_with PrimFloat.div (field 4 dustfile) (field 3 dustfile)))
    /\ chi (optical_properties d)
       = Some (Array (map (fun q => (0.75 * q / size / density)%float) (field 3 dustfile)))
    /\ phase_files_loaded fs (coatsph_scat_single directory) 9 (length dustfile)
         (optical_properties d).
Proof.
  unfold CoatsphSingle. rewrite SphericalDust_init_no_args.
  cbn [mbind result_bind]. intros E.
  apply bind_Ok in E as (F & EF & E).
  apply bind_Ok in E as ([n_components rest] & Eh & E).
  apply bind_Ok in E as (dustfile & Ed & E).
  apply bind_Ok in E as (n_wav & En & E).
  apply len_records_Ok in En as [-> Hn1].
  rewrite !getfield_array in E by exact Hn1.
  cbn [broadcast2 mbind result_bind ufunc] in E.
  rewrite broadcast_lists_same in E by (rewrite !field_length; reflexivity).
  cbn [mbind result_bind] in E.
  apply bind_Ok in E as (op & Eloop & E). inversion E; subst d; clear E.
  unfold update_optical_properties in Eloop.
  cbn [optical_properties with_optical_properties] in Eloop.
  match type of Eloop with
  | foldM _ _ ?o = _ => set (op0 := o) in *
  end.
  set (nu_ := map (fun w => (c / w * 1e4)%float) (field 2 dustfile)).
  assert (length nu_ = length dustfile) as Lnu
    by (unfold nu_; rewrite length_map; apply field_length).
  rewrite <- Lnu in Eloop.
  pose proof (coatsph_loop fs (coatsph_scat_single directory) 9 nu_ op0 op
                eq_refl eq_refl Eloop) as Hloop.
  rewrite Lnu in Hloop.
  destruct (phase_files_read_loaded _ _ _ _ op0 op eq_refl eq_refl eq_refl eq_refl eq_refl
              Hloop) as (Inu & Ialb & Ichi & Hloaded).
  exists F, rest, n_components, dustfile.
  cbn [optical_properties with_optical_properties].
  rewrite Inu, Ialb, Ichi. auto 10.
Qed.

(** X18: in the model [CoatsphMultiple] returns, the frequencies are
    [c / wav * 1e4] for the first field of the records of
    [coatsph_forw.dat] after the first seven lines below the header, the
    albedo is the third field divided by the second, and [chi] is the fourth
    field.  When there are wavelengths, the angle grid is the cosines of the
    angles, converted from degrees, in the first field of the first phase
    file [coatsph_scat.0001.dat], read after its first seven lines, and row
    [i] of [P1], [P2], [P3] and [P4] holds the second, fourth, fifth and
    sixth fields of the phase file of index [i + 1]; a phase file of one
    record fills its row with that record's value.  When there is no
    wavelength, the angle grid and the matrices stay unset. *)
Theorem CoatsphMultiple_table (fs : gmap string textfile) (directory : string)
    (d : SphericalDust) :
  CoatsphMultiple fs directory = Ok d ->
  exists (F rest : textfile) (n_components : Z) (dustfile : list (list float)),
    open_file fs (directory +:+ "/coatsph_forw.dat") = Ok F
    /\ coatsph_header F = Ok (n_components, rest)
    /\ loadtxt_records rest 7 7 = Ok dustfile
    /\ length dustfile <> 1
    /\ nu (optical_properties d)
       = Some (Array (map (fun w => (c / w * 1e4)%float) (field 0 dustfile)))
    /\ albedo (optical_properties d)
       = Some (Array (zip_with PrimFloat.div (field 2 dustfile) (field 1 dustfile)))
    /\ chi (optical_properties d) = Some (Array (field 3 dustfile))
    /\ phase_files_loaded fs (coatsph_scat_multiple directory) 7 (length dustfile)
         (optical_properties d).
Proof.
  unfold CoatsphMultiple. rewrite SphericalDust_init_no_args.
  cbn [mbind result_bind]. intros E.
  apply bind_Ok in E as (F & EF & E).
  apply bind_Ok in E as ([n_components rest] & Eh & E).
  apply bind_Ok in E as (dustfile & Ed & E).
  apply bind_Ok in E as (n_wav & En & E).
  apply len_records_Ok in En as [-> Hn1].
  rewrite !getfield_array in E by exact Hn1.
  cbn [broadcast2 mbind result_bind ufunc] in E.
  rewrite broadcast_lists_same in E by (rewrite !field_length; reflexivity).
  cbn [mbind result_bind] in E.
  apply bind_Ok in E as (op & Eloop & E). inversion E; subst d; clear E.
  unfold update_optical_properties in Eloop.
  cbn [optical_properties with_optical_properties] in Eloop.
  match type of Eloop with
  | foldM _ _ ?o = _ => set (op0 := o) in *
  end.
  set (nu_ := map (fun w => (c / w * 1e4)%float) (field 0 dustfile)).
  assert (length nu_ = length dustfile) as Lnu
    by (unfold nu_; rewrite length_map; apply field_length).
  rewrite <- Lnu in Eloop.
  pose proof (coatsph_loop fs (coatsph_scat_multiple directory) 7 nu_ op0 op
                eq_refl eq_refl Eloop) as Hloop.
  rewrite Lnu in Hloop.
  destruct (phase_files_read_loaded _ _ _ _ op0 op eq_refl eq_refl eq_refl eq_refl eq_refl
              Hloop) as (Inu & Ialb & Ichi & Hloaded).
  exists F, rest, n_components, dustfile.
  cbn [optical_properties with_optical_properties].
  rewrite Inu, Ialb, Ichi. auto 10.
Qed.

End Coatsph.

Lemma CoatsphSingle_table_witness :
  exists d : SphericalDust,
    @CoatsphSingle Sample.extern Inputs.builtins Inputs.single_files "single" 0.5 2 = Ok d
    /\ exists (F rest : textfile) (n_components : Z) (dustfile : list (list float)),
        open_file Inputs.single_files "single/coatsph_forw.dat" = Ok F
        /\ @coatsph_header Inputs.builtins F = Ok (n_components, rest)
        /\ loadtxt_records rest 3 7 = Ok dustfile
        /\ chi (optical_properties d)
           = Some (Array (map (fun q => (0.75 * q / 0.5 / 2)%float) (field 3 dustfile)))
        /\ @phase_files_loaded Sample.extern Inputs.single_files
             (coatsph_scat_single "single") 9 (length dustfile) (optical_properties d).
Proof.
  eexists. split; [vm_compute; reflexivity |].
  destruct (@CoatsphSingle_table Sample.extern Inputs.builtins Inputs.single_files
              "single" 0.5%float 2%float _ ltac:(vm_compute; reflexivity))
    as (F & rest & n_components & dustfile & EF & Eh & Ed & _ & _ & _ & Hchi & Hloaded).
  exists F, rest, n_components, dustfile. auto.
Defined.

Lemma CoatsphMultiple_table_witness :
  exists d : SphericalDust,
    @CoatsphMultiple Sample.extern Inputs.builtins Inputs.multiple_files "multiple" = Ok d
    /\ exists (F rest : textfile) (n_components : Z) (dustfile : list (list float)),
        open_file Inputs.multiple_files "multiple/coatsph_forw.dat" = Ok F
        /\ @coatsph_header Inputs.builtins F = Ok (n_components, rest)
        /\ loadtxt_records rest 7 7 = Ok dustfile
        /\ chi (optical_properties d) = Some (Array (field 3 dustfile))
        /\ @phase_files_loaded Sample.extern Inputs.multiple_files
             (coatsph_scat_multiple "multiple") 7 (length dustfile) (optical_properties d).
Proof.
  eexists. split; [vm_compute; reflexivity |].
  destruct (@CoatsphMultiple_table Sample.extern Inputs.builtins Inputs.multiple_files
              "multiple" _ ltac:(vm_compute; reflexivity))
    as (F & rest & n_components & dustfile & EF & Eh & Ed & _ & _ & _ & Hchi & Hloaded).
  exists F, rest, n_components, dustfile. auto.
Defined.

(** ** The attributes of a filter *)

Section FilterMore.

Import Filter.
Context `{Validator}.

Ltac frame :=
  unfold framed; cbn [fst snd];
  (split; [intros Hr; first [reflexivity | exfalso; apply Hr; reflexivity] |]);
  unfold same_but; cbn; repeat split; first [right; reflexivity | left; reflexivity].

Lemma set_name_framed (value : pyobj) (f : t) : framed "_name" f (set_name value f).
Proof. unfold set_name. destruct value; frame. Qed.

Lemma set_spectral_coord_framed (value : pyobj) (f : t) :
  framed "_spectral_coord" f (set_spectral_coord value f).
Proof.
  unfold set_spectral_coord.
  destruct value; try frame; destruct (validate_array _ _ _ _ _ _); frame.
Qed.

Lemma set_transmission_framed (value : pyobj) (f : t) :
  framed "_transmission" f (set_transmission value f).
Proof.
  unfold set_transmission.
  destruct value; try frame;
    match goal with
    | |- context [match ?x with Ok _ => _ | Raise _ => _ end] => destruct x; frame
    end.
Qed.

Lemma set_detector_type_framed (value : pyobj) (f : t) :
  framed "_beta" f (set_detector_type value f).
Proof.
  unfold set_detector_type.
  destruct (eq_str value "energy"); [frame |].
  destruct (eq_str value "photons"); frame.
Qed.

Lemma set_alpha_framed (value : pyobj) (f : t) : framed "_alpha" f (set_alpha value f).
Proof. unfold set_alpha. frame. Qed.

Lemma set_central_spectral_coord_framed (value : pyobj) (f : t) :
  framed "_central_spectral_coord" f (set_central_spectral_coord value f).
Proof.
  unfold set_central_spectral_coord.
  destruct value; try frame; destruct (validate_scalar _ _ _ _); frame.
Qed.

Ltac framed_by L :=
  let E := fresh "E" in
  let Hf := fresh "Hf" in
  intros ? ? E; pose proof L as Hf; rewrite E in Hf; exact Hf.

(** X19: each of the six property setters of [Filter] assigns at most the
    attribute behind its own property and leaves the five others as they
    were; a setter that raises leaves the whole object as it was. *)
Theorem filter_setters_frame (value : pyobj) (f : t) :
  (forall r f', set_name value f = (r, f') ->
     (r <> Ok tt -> f' = f) /\ same_but "_name" f f')
  /\ (forall r f', set_spectral_coord value f = (r, f') ->
     (r <> Ok tt -> f' = f) /\ same_but "_spectral_coord" f f')
  /\ (forall r f', set_transmission value f = (r, f') ->
     (r <> Ok tt -> f' = f) /\ same_but "_transmission" f f')
  /\ (forall r f', set_detector_type value f = (r, f') ->
     (r <> Ok tt -> f' = f) /\ same_but "_beta" f f')
  /\ (forall r f', set_alpha value f = (r, f') ->
     (r <> Ok tt -> f' = f) /\ same_but "_alpha" f f')
  /\ (forall r f', set_central_spectral_coord value f = (r, f') ->
     (r <> Ok tt -> f' = f) /\ same_but "_central_spectral_coord" f f').
Proof.
  split; [| split; [| split; [| split; [| split]]]].
  - framed_by (set_name_framed value f).
  - framed_by (set_spectral_coord_framed value f).
  - framed_by (set_transmission_framed value f).
  - framed_by (set_detector_type_framed value f).
  - framed_by (set_alpha_framed value f).
  - framed_by (set_central_spectral_coord_framed value f).
Qed.

(** X20: assigning [None] or a string to [name] succeeds and [name] then
    reads back that value, and assigning anything else raises [TypeError]
    and leaves the object as it was; [alpha] takes any value unchecked and
    reads it back.  A filter built by [Filter(name, spectral_coord,
    transmission)] reads back the name it was given, reads [None] for a
    [spectral_coord] or [transmission] given as [None], and has no [alpha]
    and no [central_spectral_coord] yet: reading either raises
    [AttributeError]. *)
Theorem filter_name_and_alpha :
  (forall (value : pyobj) (f : t),
      match value with
      | PyNone => exists f', set_name value f = (Ok tt, f') /\ name f' = Ok None
      | PyStr s => exists f', set_name value f = (Ok tt, f') /\ name f' = Ok (Some s)
      | _ => set_name value f = (Raise (TypeError "name should be given as a string"), f)
      end)
  /\ (forall (value : pyobj) (f : t),
      exists f', set_alpha value f = (Ok tt, f') /\ alpha f' = Ok value)
  /\ (forall (n sc tr : pyobj) (f : t),
      init n sc tr = Ok f ->
      (n = PyNone /\ name f = Ok None \/ exists s, n = PyStr s /\ name f = Ok (Some s))
      /\ (sc = PyNone -> spectral_coord f = Ok None)
      /\ (tr = PyNone -> transmission f = Ok None)
      /\ alpha f = Raise (AttributeError "_alpha")
      /\ central_spectral_coord f = Raise (AttributeError "_central_spectral_coord")).
Proof.
  split; [| split].
  - intros value f. destruct value; try reflexivity; eexists; split; reflexivity.
  - intros value f. eexists. split; reflexivity.
  - intros n sc tr f E. unfold init in E.
    destruct (set_name n blank) as [[[] | e] f1] eqn:E1; [| discriminate].
    destruct (set_spectral_coord sc f1) as [[[] | e] f2] eqn:E2; [| discriminate].
    destruct (set_transmission tr f2) as [[[] | e] f3] eqn:E3; [| discriminate].
    inversion E; subst f3; clear E.
    pose proof (set_name_framed n blank) as Hn. rewrite E1 in Hn.
    pose proof (set_spectral_coord_framed sc f1) as Hs. rewrite E2 in Hs.
    pose proof (set_transmission_framed tr f2) as Ht. rewrite E3 in Ht.
    destruct Hn as (_ & _ & N2 & N3 & N4 & N5 & N6).
    destruct Hs as (_ & S1 & _ & S3 & S4 & S5 & S6).
    destruct Ht as (_ & T1 & T2 & _ & T4 & T5 & T6).
    cbn [snd] in *.
    repeat match goal with
           | Hx : _ = _ \/ _ |- _ => destruct Hx as [Hx | Hx]; [discriminate |]
           end.
    split; [| split; [| split; [| split]]].
    + unfold name. rewrite T1, S1. unfold set_name in E1.
      destruct n; inversion E1; cbn; eauto.
    + intros ->. unfold spectral_coord. rewrite T2. inversion E2. reflexivity.
    + intros ->. unfold transmission. inversion E3. reflexivity.
    + unfold alpha. rewrite T5, S5, N5. reflexivity.
    + unfold central_spectral_coord. rewrite T6, S6, N6. reflexivity.
Qed.

End FilterMore.

Lemma filter_setters_frame_witness :
  @Filter.set_central_spectral_coord Inputs.validator (Filter.PyStr "1 micron") Filter.blank
  = (Raise (TypeError "spectral_coord should be given as a Quantity object"), Filter.blank)
  /\ ((Raise (TypeError "spectral_coord should be given as a Quantity object") <> Ok tt ->
       Filter.blank = Filter.blank)
      /\ Filter.same_but "_central_spectral_coord" Filter.blank Filter.blank).
Proof.
  split; [reflexivity |].
  apply (proj2 (proj2 (proj2 (proj2 (proj2
           (@filter_setters_frame Inputs.validator (Filter.PyStr "1 micron")
              Filter.blank)))))).
  reflexivity.
Defined.

Lemma filter_name_and_alpha_witness :
  exists f : Filter.t,
    Filter.init (Filter.PyStr "V") Filter.PyNone Filter.PyNone = Ok f
    /\ Filter.name f = Ok (Some "V")
    /\ Filter.alpha f = Raise (AttributeError "_alpha").
Proof.
  eexists. split; [reflexivity |].
  destruct (proj2 (proj2 filter_name_and_alpha) (Filter.PyStr "V") Filter.PyNone
              Filter.PyNone _ eq_refl) as (Hn & _ & _ & Ha & _).
  split; [| exact Ha].
  destruct Hn as [[Hn _] | (s & Hs & Hn)]; [discriminate |].
  inversion Hs; subst s. exact Hn.
Defined.
